(** * make-ipinyou-data: feature indexing and dataset assembly

    A shallow embedding of the Python scripts [python/mkdata.py],
    [python/mktest.py], [python/mkyzx.py], [python/splitadvertisers.py] and
    [python/formalizeua.py], of the derived-column expressions and the
    helpers of [duckdb_pipeline.py] and of
    [core/unzip_bz2/normalize_cores.py], followed by the properties of the
    pipeline that the specification states and by further properties of the
    code.

    Conventions of the embedding:
    - text is a [string]; every character stands for one code point below 256;
    - a text file is the list of its lines as Python's file iteration yields
      them (each line keeps its terminating newline, the last one may lack it);
    - a Python [dict] whose insertion order is observable ([featindex]) is an
      association list in insertion order with unique keys; dictionaries that
      are only looked up ([namecol], [bmap], the table of open output files)
      are [gmap]s;
    - a raised exception is the [Raise] branch of [result]; a loop that writes
      output before it raises returns what it has written together with the
      exception;
    - the file system [splitadvertisers.py] writes to is a parameter of its
      embedding: the calls that create a directory and open a file answer
      with the file opened or with the exception raised. *)

From Stdlib Require Import ZArith Lia Ascii String List.
From stdpp Require Import base decidable option list strings pretty gmap.

Local Open Scope string_scope.
Local Open Scope nat_scope.

(** ** Results of fallible code *)

Inductive result (E A : Type) : Type :=
| Ok (a : A)
| Raise (e : E).
Arguments Ok {E A} a.
Arguments Raise {E A} e.

(** ** Python built-ins on [str] and [int] *)

Module Py.

Definition TAB : ascii := "009"%char.
Definition LF : ascii := "010"%char.

Definition chars (s : string) : list ascii := list_ascii_of_string s.
Definition str (l : list ascii) : string := string_of_list_ascii l.

Definition code (c : ascii) : nat := nat_of_ascii c.

(** [str.isspace] on the code points below 256. *)
Definition isspace (c : ascii) : bool :=
  let n := code c in
  ((9 <=? n) && (n <=? 13)) || ((28 <=? n) && (n <=? 32))
  || (n =? 133) || (n =? 160).

(** The white space [int()] skips around a literal: the ASCII white space of
    C, and the non-ASCII spaces (which the conversion first turns into a
    blank). The separators 28..31 are not among them. *)
Definition int_space (c : ascii) : bool :=
  let n := code c in
  ((9 <=? n) && (n <=? 13)) || (n =? 32) || (n =? 133) || (n =? 160).

Fixpoint dropwhile (p : ascii -> bool) (l : list ascii) : list ascii :=
  match l with
  | [] => []
  | c :: l' => if p c then dropwhile p l' else l
  end.

Definition rstrip_with (p : ascii -> bool) (s : string) : string :=
  str (rev (dropwhile p (rev (chars s)))).

Definition strip_with (p : ascii -> bool) (s : string) : string :=
  str (rev (dropwhile p (rev (dropwhile p (chars s))))).

(** [s.strip()] *)
Definition strip (s : string) : string := strip_with isspace s.

(** [s.rstrip("\n")] *)
Definition rstrip_nl (s : string) : string :=
  rstrip_with (fun c => bool_decide (c = LF)) s.

(** [s.split(sep)] for a one-character separator: never empty, [""] splits
    into [[""]]. *)
Fixpoint split (sep : ascii) (s : string) : list string :=
  match s with
  | EmptyString => [""]
  | String c s' =>
      if bool_decide (c = sep) then "" :: split sep s'
      else match split sep s' with
           | w :: ws => String c w :: ws
           | [] => [String c ""]
           end
  end.

(** [sep.join(l)] *)
Fixpoint join (sep : string) (l : list string) : string :=
  match l with
  | [] => ""
  | [w] => w
  | w :: ws => w +:+ sep +:+ join sep ws
  end.

(** [line.rstrip("\n").split("\t")], the way every script reads a row. *)
Definition fields (line : string) : list string := split TAB (rstrip_nl line).

(** [sub in s] *)
Fixpoint contains (sub s : string) : bool :=
  String.prefix sub s ||
  match s with
  | EmptyString => false
  | String _ s' => contains sub s'
  end.

(** [s.lower()] on the code points below 256: the letters A-Z and the
    Latin-1 capitals 192..222 except the multiplication sign 215. *)
Definition lower_char (c : ascii) : ascii :=
  let n := code c in
  if ((65 <=? n) && (n <=? 90))
     || ((192 <=? n) && (n <=? 222) && negb (n =? 215))
  then ascii_of_nat (n + 32) else c.

Definition lower (s : string) : string := str (map lower_char (chars s)).

(** [s[i:j]] for [0 <= i <= j]: clipped to the string, never an error. *)
Definition slice (i j : nat) (s : string) : string :=
  str (take (j - i) (drop i (chars s))).

Definition len (s : string) : nat := String.length s.

Definition digit (c : ascii) : option Z :=
  let n := code c in
  if (48 <=? n) && (n <=? 57) then Some (Z.of_nat (n - 48)) else None.

Definition UNDERSCORE : ascii := "_"%char.

(** The digit part of a decimal literal: digits, with single underscores
    allowed between two digits. [prev_digit] tells whether the previous
    character was a digit; [acc] is the value read so far. *)
Fixpoint int_digits (prev_digit : bool) (acc : Z) (l : list ascii) : option Z :=
  match l with
  | [] => if prev_digit then Some acc else None
  | c :: l' =>
      match digit c with
      | Some d => int_digits true (10 * acc + d)%Z l'
      | None =>
          if bool_decide (c = UNDERSCORE) && prev_digit
          then match l' with
               | c' :: _ =>
                   match digit c' with
                   | Some _ => int_digits false acc l'
                   | None => None
                   end
               | [] => None
               end
          else None
      end
  end.

Definition count_digits (l : list ascii) : nat :=
  length (filter (fun c => is_Some (digit c)) l).

(** Default of [sys.get_int_max_str_digits()]: a longer literal is refused
    with [ValueError]. *)
Definition int_max_str_digits : nat := 4300.

(** An optional sign in front of the digits: whether it is a minus, and the
    digits. *)
Definition sign_split (body : list ascii) : bool * list ascii :=
  match body with
  | c :: r =>
      if bool_decide (c = "-"%char) then (true, r)
      else if bool_decide (c = "+"%char) then (false, r)
      else (false, body)
  | [] => (false, body)
  end.

(** [int(s)], base 10; [None] stands for [ValueError]. *)
Definition int (s : string) : option Z :=
  let body := rev (dropwhile int_space (rev (dropwhile int_space (chars s)))) in
  let '(neg, ds) := sign_split body in
  if int_max_str_digits <? count_digits ds then None
  else match int_digits false 0%Z ds with
       | Some n => Some (if neg then (- n)%Z else n)
       | None => None
       end.

(** *** [datetime.date] *)

Definition is_leap (y : Z) : bool :=
  ((y mod 4 =? 0) && (negb (y mod 100 =? 0) || (y mod 400 =? 0)))%Z.

Definition days_in_month (y m : Z) : Z :=
  (if m =? 2 then (if is_leap y then 29 else 28)
   else if (m =? 4) || (m =? 6) || (m =? 9) || (m =? 11) then 30
   else 31)%Z.

Record date : Type := Date { year : Z; month : Z; day : Z }.

(** What the constructor complains about. *)
Inductive date_error : Type :=
| YearOutOfRange (y : Z)
| MonthOutOfRange
| DayOutOfRange.

(** [date(year, month, day)] *)
Definition mkdate (y m d : Z) : result date_error date :=
  if negb ((1 <=? y) && (y <=? 9999))%Z then Raise (YearOutOfRange y)
  else if negb ((1 <=? m) && (m <=? 12))%Z then Raise MonthOutOfRange
  else if negb ((1 <=? d) && (d <=? days_in_month y m))%Z then Raise DayOutOfRange
  else Ok (Date y m d).

Definition days_before_year (y : Z) : Z :=
  let p := (y - 1)%Z in (p * 365 + p / 4 - p / 100 + p / 400)%Z.

Fixpoint days_before_month_go (y : Z) (k : nat) : Z :=
  match k with
  | O => 0%Z
  | S k' => (days_before_month_go y k' + days_in_month y (Z.of_nat k))%Z
  end.

(** Days of the year before the first of month [m]. *)
Definition days_before_month (y m : Z) : Z :=
  days_before_month_go y (Z.to_nat (m - 1)).

(** [d.toordinal()]: 1 is the first of January of year 1, a Monday. *)
Definition toordinal (d : date) : Z :=
  (days_before_year (year d) + days_before_month (year d) (month d) + day d)%Z.

(** [int(d.strftime("%w"))]: the day of the week, Sunday is 0. *)
Definition strftime_w (d : date) : Z := (toordinal d mod 7)%Z.

(** [str(n)] of a non-negative [int]. *)
Definition str_nat (n : nat) : string := pretty n.

(** *** [repr] of a [str] *)

Definition SQUOTE : ascii := "039"%char.
Definition DQUOTE : ascii := "034"%char.
Definition CR : ascii := "013"%char.





(** [str(z)] of an [int]. *)
Definition str_int (z : Z) : string := pretty z.

End Py.

(** ** Insertion-ordered dictionaries

    [featindex] is a Python [dict]: keys are unique, iteration follows the order
    of first insertion, and [d[k] = v] on a key already present overwrites the
    value in place. *)

Module Dict.

Definition t (V : Type) : Type := list (string * V).

Definition empty {V} : t V := [].

(** [d.get(k)] *)
Fixpoint get {V} (d : t V) (k : string) : option V :=
  match d with
  | [] => None
  | (k', v) :: d' => if decide (k' = k) then Some v else get d' k
  end.

(** [k in d] *)
Definition mem {V} (d : t V) (k : string) : bool :=
  match get d k with Some _ => true | None => false end.

(** [d[k] = v] *)
Fixpoint set {V} (d : t V) (k : string) (v : V) : t V :=
  match d with
  | [] => [(k, v)]
  | (k', v') :: d' =>
      if decide (k' = k) then (k, v) :: d' else (k', v') :: set d' k v
  end.

Definition keys {V} (d : t V) : list string := map fst d.
Definition values {V} (d : t V) : list V := map snd d.

End Dict.

(** ** [python/mkyzx.py]: the feature vocabulary and the sparse encoder *)

Module Mkyzx.

Definition OSES : list string := ["windows"; "ios"; "mac"; "android"; "linux"].
Definition BROWSERS : list string :=
  ["chrome"; "sogou"; "maxthon"; "safari"; "firefox"; "theworld"; "opera"; "ie"].

Definition F1S : list string :=
  ["weekday"; "hour"; "IP"; "region"; "city"; "adexchange"; "domain";
   "slotid"; "slotwidth"; "slotheight"; "slotvisibility"; "slotformat";
   "creative"; "advertiser"].

Definition F1SP : list string := ["useragent"; "slotprice"].

(** [for o in names: if o in content: ...; break], with the default. *)
Fixpoint first_match (names : list string) (content : string) (default : string)
  : string :=
  match names with
  | [] => default
  | o :: names' =>
      if Py.contains o content then o else first_match names' content default
  end.

Definition slotprice_bucket (price : Z) : string :=
  (if 100 <? price then "101+"
   else if 50 <? price then "51-100"
   else if 10 <? price then "11-50"
   else if 0 <? price then "1-10"
   else "0")%Z.

Definition feat_trans (name content : string) : string :=
  let content := Py.lower content in
  if decide (name = "useragent") then
    first_match OSES content "other" +:+ "_" +:+ first_match BROWSERS content "other"
  else if decide (name = "slotprice") then
    match Py.int content with
    | Some price => slotprice_bucket price
    | None => "0"
    end
  else content.

Definition get_tags (content : string) : list string :=
  if bool_decide (content = String Py.LF "") || (Py.len content =? 0)
  then ["null"]
  else Py.split "," (Py.strip content).

(** [str(col) + ":" + content] *)
Definition feat_key (col : nat) (content : string) : string :=
  Py.str_nat col +:+ ":" +:+ content.

(** The three objects [build_feature_index] updates while it reads. *)
Record state : Type := State {
  namecol : gmap string nat;
  featindex : Dict.t nat;
  maxindex : nat
}.

(** [featindex[feat] = maxindex; maxindex += 1] *)
Definition assign (feat : string) (st : state) : state :=
  State (namecol st) (Dict.set (featindex st) feat (maxindex st)) (S (maxindex st)).

(** [if feat not in featindex: featindex[feat] = maxindex; maxindex += 1],
    the block each of the three loops over a data row ends with. *)
Definition register (feat : string) (st : state) : state :=
  if Dict.mem (featindex st) feat then st else assign feat st.

(** One turn of [for i in range(len(s))] over the header, at [name = s[i]]. *)
Definition header_col (i : nat) (name : string) (st : state) : state :=
  let st := State (<[Py.strip name := i]> (namecol st)) (featindex st) (maxindex st) in
  if 0 <? i then assign (feat_key i "other") st else st.

(** The header loop from index [i] on, [cols] being [s[i:]]. *)
Fixpoint header_loop (i : nat) (cols : list string) (st : state) : state :=
  match cols with
  | [] => st
  | name :: cols' => header_loop (S i) cols' (header_col i name st)
  end.

(** The body of [for f in F1S] on the row [s]. *)
Definition row_f1s (s : list string) (st : state) (f : string) : state :=
  match namecol st !! f with
  | None => st
  | Some col =>
      match s !! col with
      | None => st
      | Some content => register (feat_key col content) st
      end
  end.

(** The body of [for f in F1SP] on the row [s]. *)
Definition row_f1sp (s : list string) (st : state) (f : string) : state :=
  match namecol st !! f with
  | None => st
  | Some col =>
      match s !! col with
      | None => st
      | Some content => register (feat_key col (feat_trans f content)) st
      end
  end.

Definition row_usertag (s : list string) (st : state) : state :=
  match namecol st !! "usertag" with
  | None => st
  | Some col =>
      match s !! col with
      | None => st
      | Some content =>
          foldl (fun st tag => register (feat_key col tag) st) st (get_tags content)
      end
  end.

(** Everything done for one data line. *)
Definition data_line (st : state) (line : string) : state :=
  let s := Py.fields line in
  row_usertag s (foldl (row_f1sp s) (foldl (row_f1s s) st F1S) F1SP).

Inductive error : Type :=
| Empty_or_invalid_header
| No_valid_header
| Missing_truncate.

(** The state before the file is opened: [featindex["truncate"] = 0]. *)
Definition initial : state := assign "truncate" (State ∅ Dict.empty 0).

(** The state once the header line has been processed. *)
Definition after_header (header : string) : state :=
  header_loop 0 (Py.fields header) initial.

Definition blank_header (s : list string) : bool :=
  negb (existsb (fun col => negb (Py.len (Py.strip col) =? 0)) s).

(** [build_feature_index], on the lines of the training file. *)
Definition build_feature_index (lines : list string)
  : result error (gmap string nat * Dict.t nat) :=
  match lines with
  | [] => Raise No_valid_header
  | header :: rows =>
      if blank_header (Py.fields header) then Raise Empty_or_invalid_header
      else
        let st := foldl data_line (after_header header) rows in
        if decide (namecol st = ∅) then Raise No_valid_header
        else Ok (namecol st, featindex st)
  end.

(** [sorted(featindex.items(), key=operator.itemgetter(1))]: a stable sort on
    the id, by insertion from the right. *)
Fixpoint insert_by_id (kv : string * nat) (l : list (string * nat))
  : list (string * nat) :=
  match l with
  | [] => [kv]
  | kv' :: l' =>
      if snd kv' <? snd kv then kv' :: insert_by_id kv l' else kv :: l
  end.

Definition sorted_by_id (d : Dict.t nat) : list (string * nat) :=
  foldr insert_by_id [] d.

Inductive write_error : Type :=
| Empty_feature_index.

(** [write_feature_index]: the lines written to the index file. *)
Definition write_feature_index (d : Dict.t nat) : result write_error (list string) :=
  match d with
  | [] => Raise Empty_feature_index
  | _ =>
      Ok (map (fun fv => fst fv +:+ String Py.TAB "" +:+ Py.str_nat (snd fv)
                         +:+ String Py.LF "")
              (sorted_by_id d))
  end.

(** What one column contributes to an encoded line: the block
    [if feat not in featindex: feat = str(col) + ":other"] followed by
    [if feat in featindex: fo.write(f" {index}:1")]. *)
Definition emit (fi : Dict.t nat) (col : nat) (content : string) : string :=
  let feat := feat_key col content in
  let feat := if Dict.mem fi feat then feat else feat_key col "other" in
  match Dict.get fi feat with
  | Some index => " " +:+ Py.str_nat index +:+ ":1"
  | None => ""
  end.

Definition index_f1s (nc : gmap string nat) (fi : Dict.t nat) (s : list string)
           (f : string) : string :=
  match nc !! f with
  | None => ""
  | Some col =>
      match s !! col with
      | None => ""
      | Some content => emit fi col content
      end
  end.

Definition index_f1sp (nc : gmap string nat) (fi : Dict.t nat) (s : list string)
           (f : string) : string :=
  match nc !! f with
  | None => ""
  | Some col =>
      match s !! col with
      | None => ""
      | Some content => emit fi col (feat_trans f content)
      end
  end.

Definition index_usertag (nc : gmap string nat) (fi : Dict.t nat) (s : list string)
  : string :=
  match nc !! "usertag" with
  | None => ""
  | Some col =>
      match s !! col with
      | None => ""
      | Some content => Py.join "" (map (emit fi col) (get_tags content))
      end
  end.

(** The text written for the columns of a row, after the truncate pair. *)
Definition index_columns (nc : gmap string nat) (fi : Dict.t nat) (s : list string)
  : string :=
  Py.join "" (map (index_f1s nc fi s) F1S)
  +:+ Py.join "" (map (index_f1sp nc fi s) F1SP)
  +:+ index_usertag nc fi s.

(** The text written for one line after the header; [None] when the line is
    skipped. [index] is [featindex["truncate"]]. *)
Definition index_line (nc : gmap string nat) (fi : Dict.t nat) (index : nat)
           (line : string) : option string :=
  let s := Py.fields line in
  if length s <? 24 then None
  else
    let click := default "" (s !! 0) in
    let winning_price := default "0" (s !! 23) in
    Some (click +:+ " " +:+ winning_price
          +:+ " " +:+ Py.str_nat index +:+ ":1"
          +:+ index_columns nc fi s +:+ String Py.LF "").

(** [index_file]: the lines written to the output file. *)
Definition index_file (nc : gmap string nat) (fi : Dict.t nat) (lines : list string)
  : result error (list string) :=
  match Dict.get fi "truncate" with
  | None => Raise Missing_truncate
  | Some index => Ok (omap (index_line nc fi index) (tail lines))
  end.

End Mkyzx.

(** ** The timestamp block of [mkdata.py] and [mktest.py]

    Both [process_data] functions contain the same statements from
    [ts = arr[timestamp_index]] to the final [fo.write]; they are embedded
    once. *)

Module Timestamp.

(** The exception caught by [except (ValueError, IndexError) as e]. *)
Inductive cause : Type :=
| Invalid_literal (text : string)
| Invalid_date (e : Py.date_error).

Inductive error : Type :=
| Missing_field (name : string)
| Invalid_timestamp_format (line_num : nat) (ts : string)
| Failed_to_parse_timestamp (line_num : nat) (ts : string) (e : cause).



Definition int_of (text : string) : result cause Z :=
  match Py.int text with
  | Some n => Ok n
  | None => Raise (Invalid_literal text)
  end.

(** The body of the [try]: the weekday and the hour of [ts]. *)
Definition weekday_hour (ts : string) : result cause (Z * string) :=
  match int_of (Py.slice 0 4 ts) with
  | Raise e => Raise e
  | Ok year =>
  match int_of (Py.slice 4 6 ts) with
  | Raise e => Raise e
  | Ok month =>
  match int_of (Py.slice 6 8 ts) with
  | Raise e => Raise e
  | Ok day =>
  match Py.mkdate year month day with
  | Raise e => Raise (Invalid_date e)
  | Ok d =>
      let weekday := Py.strftime_w d in
      let hour := if 10 <? Py.len ts then Py.slice 8 10 ts else "00" in
      Ok (weekday, hour)
  end end end end.

(** What a turn of the loop over the input lines does. *)
Inductive outcome : Type :=
| Skip
| Write (text : string)
| Fail (e : error).

(** From [ts = arr[timestamp_index]] to [fo.write(...)], for a line whose
    label [click] is known. *)
Definition derive (click : string) (ts : string) (line_num : nat) (line : string)
  : outcome :=
  if Py.len ts <? 8 then Fail (Invalid_timestamp_format line_num ts)
  else match weekday_hour ts with
       | Raise e => Fail (Failed_to_parse_timestamp line_num ts e)
       | Ok (weekday, hour) =>
           Write (click +:+ String Py.TAB "" +:+ Py.str_int weekday
                  +:+ String Py.TAB "" +:+ hour +:+ String Py.TAB "" +:+ line)
       end.

(** [for line_num, line in enumerate(fi, start=...)] around a loop body:
    the lines written, and the exception that ended the loop, if any. *)
Fixpoint run (body : nat -> string -> outcome) (line_num : nat) (lines : list string)
  : list string * option error :=
  match lines with
  | [] => ([], None)
  | line :: rest =>
      match body line_num line with
      | Skip => run body (S line_num) rest
      | Write text =>
          let '(out, e) := run body (S line_num) rest in (text :: out, e)
      | Fail e => ([], Some e)
      end
  end.

(** [schema.index(name)]; [None] stands for [ValueError]. *)
Fixpoint index (schema : list string) (name : string) : option nat :=
  match schema with
  | [] => None
  | c :: schema' =>
      if decide (c = name) then Some 0 else S <$> index schema' name
  end.

(** The header line both scripts write first. *)
Definition header (schema : list string) : string :=
  "click" +:+ String Py.TAB "" +:+ "weekday" +:+ String Py.TAB "" +:+ "hour"
  +:+ String Py.TAB "" +:+ Py.join (String Py.TAB "") schema +:+ String Py.LF "".

End Timestamp.

(** ** [python/mkdata.py]: the join of impressions with the click logs *)

Module Mkdata.
Import Timestamp.

(** [arr[0] + "-" + arr[creative_index]]; [None] stands for [IndexError]. *)
Definition bid (arr : list string) (creative_index : nat) : option string :=
  match arr !! 0, arr !! creative_index with
  | Some b, Some c => Some (b +:+ "-" +:+ c)
  | _, _ => None
  end.

(** One line of a click file, [lcnt] being its number. *)
Definition click_line (creative_index : nat) (lcnt : nat) (line : string)
           (bmap : gmap string nat) : gmap string nat :=
  let arr := Py.fields line in
  if creative_index <? length arr then
    match bid arr creative_index with
    | Some key => <[key := lcnt]> bmap
    | None => bmap
    end
  else bmap.

(** [for lcnt, line in enumerate(f)] *)
Fixpoint click_file (creative_index : nat) (lcnt : nat) (lines : list string)
         (bmap : gmap string nat) : gmap string nat :=
  match lines with
  | [] => bmap
  | line :: rest =>
      click_file creative_index (S lcnt) rest (click_line creative_index lcnt line bmap)
  end.

Inductive click_error : Type :=
| Invalid_creative_index (i : Z).

(** [build_click_map], on the lines of each click file. *)
Definition build_click_map (click_files : list (list string)) (creative_index : Z)
  : result click_error (gmap string nat) :=
  if (creative_index <? 0)%Z then Raise (Invalid_creative_index creative_index)
  else Ok (foldl (fun bmap f => click_file (Z.to_nat creative_index) 0 f bmap)
                 ∅ click_files).

(** The body of the loop of [process_data]. *)
Definition process_line (timestamp_index creative_index : nat) (bmap : gmap string nat)
           (line_num : nat) (line : string) : outcome :=
  let arr := Py.fields line in
  if length arr <=? Nat.max timestamp_index creative_index then Skip
  else
    match bid arr creative_index, arr !! timestamp_index with
    | Some key, Some ts =>
        let click := if decide (is_Some (bmap !! key)) then "1" else "0" in
        derive click ts line_num line
    | _, _ => Skip
    end.

(** [process_data]: the lines written to [fo] and the exception raised. *)
Definition process_data (schema : list string) (bmap : gmap string nat)
           (fi : list string) : list string * option error :=
  match index schema "timestamp" with
  | None => ([], Some (Missing_field "timestamp"))
  | Some timestamp_index =>
      match index schema "creative" with
      | None => ([], Some (Missing_field "creative"))
      | Some creative_index =>
          let '(out, e) := run (process_line timestamp_index creative_index bmap) 1 fi in
          (header schema :: out, e)
      end
  end.

End Mkdata.

(** ** [python/mktest.py]: the label of the test logs *)

Module Mktest.
Import Timestamp.

(** [schema += ["nclick", "nconversation"]] of [load_schema]. *)
Definition extend (schema : list string) : list string :=
  (schema ++ ["nclick"; "nconversation"])%list.

(** [arr[-2]]; the statement [bid = arr[0] + "-" + arr[1]] before it computes
    a value the function never reads. *)
Definition second_to_last (arr : list string) : option string :=
  if length arr <? 2 then None else arr !! (length arr - 2).

(** ["0" if len(arr) >= 2 and arr[-2] == "0" else "1"] *)
Definition click_of (arr : list string) : string :=
  if (2 <=? length arr) && bool_decide (second_to_last arr = Some "0")
  then "0" else "1".

(** The body of the loop of [process_data]. *)
Definition process_line (timestamp_index : nat) (line_num : nat) (line : string)
  : outcome :=
  let arr := Py.fields line in
  if length arr <? 2 then Skip
  else
    let click := click_of arr in
    if length arr <=? timestamp_index then Skip
    else match arr !! timestamp_index with
         | Some ts => derive click ts line_num line
         | None => Skip
         end.

Definition process_data (schema : list string) (fi : list string)
  : list string * option error :=
  match index schema "timestamp" with
  | None => ([], Some (Missing_field "timestamp"))
  | Some timestamp_index =>
      let '(out, e) := run (process_line timestamp_index) 1 fi in
      (header schema :: out, e)
  end.

End Mktest.

(** ** [python/splitadvertisers.py]: one file per advertiser

    The run is embedded with the file system it meets. The table
    [advertiser_files] is keyed by the advertiser text, as in the code; each
    of its handles records the file it was opened on and what was written
    through it. Two advertiser values whose paths lead to one file ([x] and
    [x/], or two names a link joins) give two handles on that file. The
    system calls are parameters: [mkdir] and [open_w] tell, for a path, what
    [Path.mkdir(parents=True, exist_ok=True)] and [Path.open("w")] do; they
    answer by the path alone. Writing through an open handle is taken to
    succeed, and the input file is taken not to be one of the files opened
    for writing. *)

Module Splitadvertisers.

(** *** [pathlib] on POSIX paths *)

Inductive root : Type :=
| Relative
| Slash
| TwoSlashes.

Record path : Type := Path { anchor : root; parts : list string }.

(** The anchor of a text: [/] for one leading slash or for three and more,
    [//] for exactly two. *)
Definition anchor_of (l : list ascii) : root :=
  match l with
  | c1 :: l1 =>
      if bool_decide (c1 = "/"%char)
      then match l1 with
           | c2 :: l2 =>
               if bool_decide (c2 = "/"%char)
               then match l2 with
                    | c3 :: _ => if bool_decide (c3 = "/"%char) then Slash else TwoSlashes
                    | [] => TwoSlashes
                    end
               else Slash
           | [] => Slash
           end
      else Relative
  | [] => Relative
  end.

(** [Path(text)]: the components between the slashes, the empty ones and the
    components [.] dropped. *)
Definition parse (text : string) : path :=
  Path (anchor_of (Py.chars text))
       (filter (fun part => part <> "" /\ part <> ".") (Py.split "/" text)).

(** [p / q]: an anchored [q] replaces [p]. *)
Definition join (p q : path) : path :=
  match anchor q with
  | Relative => Path (anchor p) (parts p ++ parts q)%list
  | _ => q
  end.

(** What a system call raises. *)
Inductive raised : Type :=
| OSError
| ValueError.

Inductive error : Type :=
| Invalid_advertiser_index (i : Z)
| Empty_header
| Failed_to_create_directory (advertiser_dir : path)
| Failed_to_create_output_file (output_file : path)
| Value_error.

Section Run.
Context {file : Type}.
Variable mkdir : path -> option raised.
Variable open_w : path -> result raised file.
(** [output_folder] and [input_path.name] *)
Variables (output_folder : path) (name : string).

(** [output_folder / advertiser] and [advertiser_dir / input_path.name] *)
Definition advertiser_dir (advertiser : string) : path :=
  join output_folder (parse advertiser).
Definition output_file (advertiser : string) : path :=
  join (advertiser_dir advertiser) (parse name).

(** [advertiser_files[advertiser].write(text)] *)
Definition write (advertiser text : string) (fs : gmap string (file * list string))
  : gmap string (file * list string) :=
  match fs !! advertiser with
  | Some (f, written) => <[advertiser := (f, (written ++ [text])%list)]> fs
  | None => fs
  end.

(** The body of the loop for a line after the header. *)
Definition data_line (advertiser_index : nat) (header : string)
           (fs : gmap string (file * list string)) (line : string)
  : result error (gmap string (file * list string)) :=
  let fields := Py.fields line in
  if length fields <=? advertiser_index then Ok fs
  else
    match fields !! advertiser_index with
    | None => Ok fs
    | Some advertiser =>
        if Py.len advertiser =? 0 then Ok fs
        else
          match fs !! advertiser with
          | Some _ => Ok (write advertiser line fs)
          | None =>
              match mkdir (advertiser_dir advertiser) with
              | Some OSError => Raise (Failed_to_create_directory (advertiser_dir advertiser))
              | Some ValueError => Raise Value_error
              | None =>
                  match open_w (output_file advertiser) with
                  | Raise OSError =>
                      Raise (Failed_to_create_output_file (output_file advertiser))
                  | Raise ValueError => Raise Value_error
                  | Ok f =>
                      Ok (write advertiser line
                            (write advertiser header (<[advertiser := (f, [])]> fs)))
                  end
              end
          end
    end.

(** The loop over the lines after the header: the handles when it ends, and
    the exception that ended it, if any. *)
Fixpoint data_lines (advertiser_index : nat) (header : string)
         (fs : gmap string (file * list string)) (rows : list string)
  : gmap string (file * list string) * option error :=
  match rows with
  | [] => (fs, None)
  | line :: rest =>
      match data_line advertiser_index header fs line with
      | Ok fs' => data_lines advertiser_index header fs' rest
      | Raise e => (fs, Some e)
      end
  end.

(** [split_file_by_advertiser], on the lines of the input file. *)
Definition split_file_by_advertiser (lines : list string) (advertiser_index : Z)
  : gmap string (file * list string) * option error :=
  if (advertiser_index <? 0)%Z then (∅, Some (Invalid_advertiser_index advertiser_index))
  else
    match lines with
    | [] => (∅, None)
    | header :: rows =>
        if Py.len (Py.strip header) =? 0 then (∅, Some Empty_header)
        else data_lines (Z.to_nat advertiser_index) header ∅ rows
    end.

End Run.

End Splitadvertisers.

(** ** [duckdb_pipeline.py]: the derived columns of [build_processed_table]

    The SQL expressions the function assembles, evaluated on one row. A
    [VARCHAR] column is an [option string], [None] being SQL's [NULL]; the
    engine's scalar functions return [NULL] on a [NULL] argument. *)

Module DuckDB.

Definition QUOTE : ascii := "034"%char.

(** The value of a quoted field, from the character after the opening quote
    on: the characters up to the closing quote, a doubled quote standing for
    one quote. [None] when the quote is not closed, or is closed before the
    end of the field. *)
Fixpoint quoted (l : list ascii) : option (list ascii) :=
  match l with
  | [] => None
  | c :: l' =>
      if bool_decide (c = QUOTE)
      then match l' with
           | [] => Some []
           | c' :: l'' =>
               if bool_decide (c' = QUOTE) then (fun v => c' :: v) <$> quoted l'' else None
           end
      else (fun v => c :: v) <$> quoted l'
  end.

(** [read_csv(..., nullstr='')] on the text of one field, the text between
    two tabs of a line; the quote and the escape are the reader's default,
    the double quote. A field without a quote is read as it stands; a field
    between quotes is read without them, a doubled quote inside standing for
    one; the empty value is read as [NULL], quoted or not. What the reader's
    non-strict mode makes of any other field, one with a quote that does not
    open it or that is not closed at its end, is outside this embedding,
    which takes such a field as it stands. *)
Definition read_field (field : string) : option string :=
  let value :=
    match Py.chars field with
    | c :: l =>
        if bool_decide (c = QUOTE)
        then match quoted l with
             | Some v => Py.str v
             | None => field
             end
        else field
    | [] => field
    end in
  if Py.len value =? 0 then None else Some value.

(** [length(s)] *)
Definition length (s : option string) : option nat := Py.len <$> s.

(** [substr(s, start, n)], [start] counted from 1. *)
Definition substr (s : option string) (start n : nat) : option string :=
  (fun t => Py.slice (start - 1) (start - 1 + n) t) <$> s.

(** The space separators (Unicode category Zs) below 256: the blank and the
    no-break space. *)
Definition separator (c : ascii) : bool :=
  (Py.code c =? 32) || (Py.code c =? 160).

(** [TRIM(s)]: the space separators removed on both sides. *)
Definition trim (s : option string) : option string :=
  Py.strip_with separator <$> s.

(** [NULLIF(a, b)] *)
Definition nullif (a : option string) (b : string) : option string :=
  match a with
  | Some t => if decide (t = b) then None else Some t
  | None => None
  end.

(** [a = b] for a literal [b] *)
Definition eq (a : option string) (b : string) : option bool :=
  (fun t => bool_decide (t = b)) <$> a.

(** [a >= n] for a literal [n] *)
Definition ge (a : option nat) (n : nat) : option bool :=
  (fun k => n <=? k) <$> a.

(** [CASE WHEN c THEN a ELSE b END]: a [NULL] condition takes the [ELSE]. *)
Definition case_when {A} (c : option bool) (a b : A) : A :=
  match c with
  | Some true => a
  | _ => b
  end.

(** [COALESCE(a, b)] for a literal [b] *)
Definition coalesce (a : option string) (b : string) : string :=
  match a with
  | Some t => t
  | None => b
  end.





(** [CAST(strftime('%w', t) AS VARCHAR)] *)
Definition strftime_w (t : option Py.date) : option string :=
  (fun d => Py.str_int (Py.strftime_w d)) <$> t.


Definition hour_expr (timestamp : option string) : string :=
  case_when (ge (length timestamp) 10) (default "" (substr timestamp 9 2)) "00".

(** [click_expr] when there is no click table and [nclick_column] is set. *)
Definition click_expr_nclick (nclick : option string) : string :=
  case_when (eq (nullif (trim nclick) "") "0") "0" "1".

End DuckDB.

(** ** More of Python's [str]: [replace], [split()], [splitlines], [isalnum] *)

Module PyStr.

(** [s.replace(old, new)] for a one-character [old]. *)
Fixpoint replace_char (old : ascii) (new : string) (s : string) : string :=
  match s with
  | EmptyString => ""
  | String c s' =>
      if bool_decide (c = old) then new +:+ replace_char old new s'
      else String c (replace_char old new s')
  end.

(** [s.endswith("\n")] *)
Definition endswith_nl (s : string) : bool :=
  match rev (Py.chars s) with
  | c :: _ => bool_decide (c = Py.LF)
  | [] => false
  end.

(** [c.isalnum()] on the code points below 256: the decimal digits, the
    letters, and the superscripts and fractions of Latin-1. *)
Definition isalnum (c : ascii) : bool :=
  let n := Py.code c in
  ((48 <=? n) && (n <=? 57)) || ((65 <=? n) && (n <=? 90))
  || ((97 <=? n) && (n <=? 122))
  || (n =? 170) || (n =? 178) || (n =? 179) || (n =? 181) || (n =? 185) || (n =? 186)
  || ((188 <=? n) && (n <=? 190))
  || ((192 <=? n) && (n <=? 214)) || ((216 <=? n) && (n <=? 246))
  || ((248 <=? n) && (n <=? 255)).

(** The words of [l]: [cur] holds, reversed, the characters of the word being
    read. *)
Fixpoint words_go (cur : list ascii) (l : list ascii) : list string :=
  match l with
  | [] => match cur with [] => [] | _ => [Py.str (rev cur)] end
  | c :: l' =>
      if Py.isspace c
      then match cur with
           | [] => words_go [] l'
           | _ => Py.str (rev cur) :: words_go [] l'
           end
      else words_go (c :: cur) l'
  end.

(** [s.split()]: the maximal runs of characters that are not white space. *)
Definition split_ws (s : string) : list string := words_go [] (Py.chars s).

(** The characters that end a line for [str.splitlines], below 256. *)
Definition linebreak (c : ascii) : bool :=
  let n := Py.code c in
  ((10 <=? n) && (n <=? 13)) || ((28 <=? n) && (n <=? 30)) || (n =? 133).

Definition CR : ascii := "013"%char.

(** The lines of [l]: [cur] holds, reversed, the characters of the line being
    read; a carriage return followed by a line feed is one line end. *)
Fixpoint lines_go (cur : list ascii) (l : list ascii) : list string :=
  match l with
  | [] => match cur with [] => [] | _ => [Py.str (rev cur)] end
  | c :: l' =>
      if linebreak c
      then Py.str (rev cur) ::
           match l' with
           | c' :: l'' =>
               if bool_decide (c = CR) && bool_decide (c' = Py.LF)
               then lines_go [] l'' else lines_go [] l'
           | [] => []
           end
      else lines_go (c :: cur) l'
  end.

(** [s.splitlines()] *)
Definition splitlines (s : string) : list string := lines_go [] (Py.chars s).

(** [f"{n:02d}"]: the numeral, with a zero in front of a single digit. *)
Definition pad2 (n : Z) : string :=
  if ((0 <=? n) && (n <? 10))%Z then "0" +:+ Py.str_int n else Py.str_int n.

End PyStr.

(** ** [python/formalizeua.py]: the user-agent signature in place *)

Module Formalizeua.

Definition OSES : list string := ["windows"; "ios"; "mac"; "android"; "linux"].
Definition BROWSERS : list string :=
  ["chrome"; "sogou"; "maxthon"; "safari"; "firefox"; "theworld"; "opera"; "ie"].

Fixpoint detect_keyword (ua : string) (candidates : list string) : string :=
  match candidates with
  | [] => "other"
  | candidate :: rest =>
      if Py.contains candidate ua then candidate else detect_keyword ua rest
  end.

Definition normalize_fields (fields : list string) : list string :=
  map (fun value => if Py.len value =? 0 then "null" else value) fields.

(** The body of the loop for a line after the first: the text written. *)
Definition data_line (line : string) : string :=
  let has_newline := PyStr.endswith_nl line in
  let fields := Py.fields line in
  let ua := if 7 <? length fields then Py.lower (default "" (fields !! 7)) else "" in
  let operation := detect_keyword ua OSES in
  let browser := detect_keyword ua BROWSERS in
  let fmua := operation +:+ "_" +:+ browser in
  let normalized := normalize_fields fields in
  let normalized :=
    if 7 <? length normalized then <[7 := fmua]> normalized
    else <[7 := fmua]> (normalized ++ replicate (8 - length normalized) "null")%list in
  Py.join (String Py.TAB "") normalized
  +:+ (if has_newline then String Py.LF "" else "").

Inductive error : Type :=
| Empty_or_no_header.

(** [process_file], on the lines of the file: the lines of the file that
    replaces it. *)
Definition process_file (lines : list string) : result error (list string) :=
  match lines with
  | [] => Ok []
  | header :: rows =>
      if Py.len (Py.strip header) =? 0 then Raise Empty_or_no_header
      else Ok (header :: map data_line rows)
  end.

End Formalizeua.

(** ** The schema loaders of [mkdata.py], [mktest.py] and [duckdb_pipeline.py] *)

Module Schema.

Inductive error : Type :=
| Schema_file_is_empty.

(** [mkdata.load_schema], on the text of the schema file. *)
Definition mkdata_load_schema (content : string) : result error (list string) :=
  let schema := map Py.strip (PyStr.split_ws content) in
  match schema with
  | [] => Raise Schema_file_is_empty
  | _ => Ok schema
  end.

(** [mktest.load_schema] *)
Definition mktest_load_schema (content : string) : result error (list string) :=
  let schema := map Py.strip (PyStr.split_ws content) in
  match schema with
  | [] => Raise Schema_file_is_empty
  | _ => Ok (schema ++ ["nclick"; "nconversation"])%list
  end.

(** [duckdb_pipeline.read_schema] *)
Definition read_schema (content : string) : result error (list string) :=
  let columns :=
    filter (fun col => col <> "") (map Py.strip (PyStr.splitlines content)) in
  match columns with
  | [] => Raise Schema_file_is_empty
  | _ => Ok columns
  end.

End Schema.

(** ** [duckdb_pipeline.py]: the helpers around the SQL *)

Module Pipeline.

Definition DQUOTE : ascii := "034"%char.
Definition SQUOTE : ascii := "039"%char.

Definition quote_ident (identifier : string) : string :=
  String DQUOTE "" +:+ PyStr.replace_char DQUOTE (String DQUOTE (String DQUOTE "")) identifier
  +:+ String DQUOTE "".

Definition quote_literal (value : option string) : string :=
  match value with
  | None => "NULL"
  | Some v =>
      String SQUOTE "" +:+ PyStr.replace_char SQUOTE (String SQUOTE (String SQUOTE "")) v
      +:+ String SQUOTE ""
  end.

(** [env_bool], [value] being [os.getenv(name)]. *)
Definition env_bool (value : option string) (default : bool) : bool :=
  match value with
  | None => default
  | Some v => bool_decide (Py.lower v ∈ ["1"; "true"; "yes"; "on"])
  end.

(** [env_int], [value] being [os.getenv(name)]. *)
Definition env_int (value : option string) (default : option Z) : option Z :=
  match value with
  | None => default
  | Some v => match Py.int v with
              | Some n => Some n
              | None => default
              end
  end.

(** [env_str], [value] being [os.getenv(name)]. *)
Definition env_str (value : option string) : option string :=
  match value with
  | None => None
  | Some v => if Py.len v =? 0 then None else Some (Py.strip v)
  end.

Definition keep (c : ascii) : bool :=
  PyStr.isalnum c || bool_decide (c = "_"%char) || bool_decide (c = "-"%char).

Definition cleaned (value : string) : string :=
  Py.str (filter (fun ch => keep ch = true)
            (Py.chars (PyStr.replace_char " " "_" (Py.lower (Py.strip value))))).

Definition normalize_family (value : option string) : string :=
  match value with
  | None => "other"
  | Some v =>
      if Py.len v =? 0 then "other"
      else if Py.len (cleaned v) =? 0 then "other" else cleaned v
  end.

Section Signature.

(** [user_agent_parser.Parse] of the [ua_parser] package: the families of the
    operating system and of the browser it finds, each possibly absent;
    [None] when it raises. *)
Variable Parse : string -> option (option string * option string).

Definition ua_signature (ua : option string) : string :=
  match ua with
  | None => "other_other"
  | Some u =>
      if Py.len u =? 0 then "other_other"
      else match Parse u with
           | None => "other_other"
           | Some (os, family) => normalize_family os +:+ "_" +:+ normalize_family family
           end
  end.

End Signature.

Definition parse_rounds (value : option string) (default : list string) : list string :=
  match value with
  | None => default
  | Some v =>
      if Py.len v =? 0 then default
      else map Py.strip (filter (fun item => Py.strip item <> "") (Py.split "," v))
  end.

(** [format_duration], [total] being [int(seconds)]. *)
Definition format_duration (total : Z) : string :=
  let hours := (total / 3600)%Z in
  let rem := (total mod 3600)%Z in
  let minutes := (rem / 60)%Z in
  let secs := (rem mod 60)%Z in
  PyStr.pad2 hours +:+ ":" +:+ PyStr.pad2 minutes +:+ ":" +:+ PyStr.pad2 secs.

(** The expression [build_processed_table] writes for every column but the
    user agent: [COALESCE(NULLIF(TRIM(col), ''), 'null')]. *)
Definition column_expr (col : option string) : string :=
  DuckDB.coalesce (DuckDB.nullif (DuckDB.trim col) "") "null".

(** The directory name [export_advertisers] derives from a value of the
    advertiser column. *)
Definition advertiser_dir (advertiser : option string) : string :=
  let value :=
    match advertiser with
    | None => "unknown"
    | Some a => if Py.len a =? 0 then "unknown" else a
    end in
  PyStr.replace_char "/" "_" value.

(** [workers or max(1, (os.cpu_count() or 2) - 1)], the number of workers of
    [ensure_uncompressed]; [utils/decompress.py] computes [max_workers] by the
    same expression. *)
Definition worker_count (workers : option Z) (cpu_count : option Z) : Z :=
  let default :=
    Z.max 1 ((match cpu_count with
              | Some n => if (n =? 0)%Z then 2 else n
              | None => 2
              end) - 1) in
  match workers with
  | Some w => if (w =? 0)%Z then default else w
  | None => default
  end.

End Pipeline.

(** ** [core/unzip_bz2/normalize_cores.py] *)

Module Core.

(** [normalize_cores], [cpu_count] being [os.cpu_count()]. *)
Definition normalize_cores (requested : option Z) (cpu_count : option Z) : Z :=
  let cpu_total :=
    match cpu_count with
    | Some n => if (n =? 0)%Z then 1%Z else n
    | None => 1%Z
    end in
  match requested with
  | None => cpu_total
  | Some r =>
      let upper_bound := Z.max 1 (cpu_total - 1) in
      Z.max 1 (Z.min r upper_bound)
  end.

End Core.

(** ** Notions the properties are stated with *)

(** [c] occurs in [s]. *)
Fixpoint occurs (c : ascii) (s : string) : bool :=
  match s with
  | EmptyString => false
  | String c' s' => bool_decide (c' = c) || occurs c s'
  end.

(** The shape [build_feature_index] maintains: distinct keys, and the id of an
    entry is its rank in insertion order. *)
Definition well_numbered (st : Mkyzx.state) : Prop :=
  NoDup (Dict.keys (Mkyzx.featindex st))
  /\ Dict.values (Mkyzx.featindex st) = seq 0 (length (Mkyzx.featindex st))
  /\ Mkyzx.maxindex st = length (Mkyzx.featindex st).

(** The columns whose values are registered. *)
Definition columns : list string := (Mkyzx.F1S ++ Mkyzx.F1SP ++ ["usertag"])%list.

(** [k] is the key of some value of a registered column of the header. *)
Definition from_column (nc : gmap string nat) (k : string) : Prop :=
  exists f col v, f ∈ columns /\ nc !! f = Some col /\ k = Mkyzx.feat_key col v.

(** [st'] was reached from [st] by registering keys of column values only. *)
Definition grows (st st' : Mkyzx.state) : Prop :=
  Mkyzx.namecol st' = Mkyzx.namecol st
  /\ exists ext, Mkyzx.featindex st' = (Mkyzx.featindex st ++ ext)%list
               /\ forall k, k ∈ Dict.keys ext -> from_column (Mkyzx.namecol st) k.

(** A step that only registers keys of column values. *)
Definition registering (g : Mkyzx.state -> Mkyzx.state) : Prop :=
  forall st, well_numbered st -> well_numbered (g st) /\ grows st (g st).

(** The entries the header loop adds for the positions [a], ..., [a + n - 1]. *)
Definition others (a n : nat) : Dict.t nat :=
  map (fun j => (Mkyzx.feat_key j "other", j)) (seq a n).

(** The buckets of [slotprice] by the ranges their names spell out. *)
Definition bucket_by_range (price : Z) : string :=
  (if price <=? 0 then "0"
   else if price <=? 10 then "1-10"
   else if price <=? 50 then "11-50"
   else if price <=? 100 then "51-100"
   else "101+")%Z.

(** Whether a result is a value. *)
Definition is_ok {E A} (r : result E A) : bool :=
  match r with
  | Ok _ => true
  | Raise _ => false
  end.

(** The value of a result, [d] if there is none. *)
Definition ok_or {E A} (d : A) (r : result E A) : A :=
  match r with
  | Ok x => x
  | Raise _ => d
  end.

(** [key] is the key of a line of one of the click files that has a creative
    field. *)
Definition in_click_logs (click_files : list (list string)) (creative_index : nat)
           (key : string) : Prop :=
  exists file line,
    file ∈ click_files /\ line ∈ file
    /\ creative_index < length (Py.fields line)
    /\ Mkdata.bid (Py.fields line) creative_index = Some key.

(** A timestamp without a date: shorter than eight characters, or one whose
    first eight characters are not year, month and day of a day of the
    calendar as [int()] reads them. *)
Definition malformed (ts : string) : Prop :=
  Py.len ts < 8 \/
  match Py.int (Py.slice 0 4 ts), Py.int (Py.slice 4 6 ts), Py.int (Py.slice 6 8 ts) with
  | Some y, Some m, Some d =>
      ~ (1 <= y <= 9999 /\ 1 <= m <= 12 /\ 1 <= d <= Py.days_in_month y m)%Z
  | _, _, _ => True
  end.


(** The line has the advertiser [a] in column [advertiser_index]. *)
Definition carries (advertiser_index : nat) (a : string) (line : string) : Prop :=
  Py.fields line !! advertiser_index = Some a.

Global Instance carries_dec advertiser_index a line :
  Decision (carries advertiser_index a line).
Proof. unfold carries. apply _. Defined.

(** The advertiser value [a] is met in the rows: it is not empty and some row
    carries it. *)
Definition encountered (advertiser_index : nat) (rows : list string) (a : string)
  : Prop :=
  a <> "" /\ exists line, line ∈ rows /\ carries advertiser_index a line.

(** The handle of advertiser [a] once the rows [rows] have been processed:
    none if [a] is empty or no row carries it, else the file its path leads
    to, with the header and the rows that carry it. *)
Definition advertiser_file {file : Type}
           (open_w : Splitadvertisers.path -> result Splitadvertisers.raised file)
           (output_folder : Splitadvertisers.path) (name : string)
           (advertiser_index : nat) (header : string)
           (rows : list string) (a : string) : option (file * list string) :=
  if decide (a <> "" /\ filter (carries advertiser_index a) rows <> [])
  then match open_w (Splitadvertisers.output_file output_folder name a) with
       | Ok f => Some (f, header :: filter (carries advertiser_index a) rows)
       | Raise _ => None
       end
  else None.

(** The directory and the file of advertiser [a] can be created. *)
Definition creatable {file : Type}
           (mkdir : Splitadvertisers.path -> option Splitadvertisers.raised)
           (open_w : Splitadvertisers.path -> result Splitadvertisers.raised file)
           (output_folder : Splitadvertisers.path) (name : string) (a : string) : Prop :=
  mkdir (Splitadvertisers.advertiser_dir output_folder a) = None
  /\ exists f, open_w (Splitadvertisers.output_file output_folder name a) = Ok f.

(** The file [f] holds [text] when the run has ended: one handle was opened
    on it, and [text] is what was written through that handle. *)
Definition holds {file : Type} (fs : gmap string (file * list string))
           (f : file) (text : list string) : Prop :=
  exists a, fs !! a = Some (f, text)
            /\ forall b h, fs !! b = Some h -> h.1 = f -> b = a.

(** ** Sample data of the worked examples *)

Module Sample.

(** A line of a tab-separated file. *)
Definition tsv (l : list string) : string :=
  Py.join (String Py.TAB "") l +:+ String Py.LF "".

(** The columns of the raw logs, as [schema.txt] lists them. *)
Definition schema : list string :=
  ["bidid"; "timestamp"; "logtype"; "ipinyouid"; "useragent"; "IP"; "region";
   "city"; "adexchange"; "domain"; "url"; "urlid"; "slotid"; "slotwidth";
   "slotheight"; "slotvisibility"; "slotformat"; "slotprice"; "creative";
   "bidprice"; "payprice"; "keypage"; "advertiser"; "usertag"].

(** One impression of the raw log. *)
Definition impression (bidid timestamp useragent slotprice creative advertiser usertag
                       : string) : list string :=
  [bidid; timestamp; "1"; "Vh16OwT6OQNUXbj"; useragent; "119.45.186.*"; "276"; "279";
   "2"; "trqRTJn7O95I1mKYUV"; "3d5b6c3b8e"; "null"; "mm_10982364_973726_8930541";
   "300"; "250"; "1"; "1"; slotprice; creative; "300"; "54"; "bebefa5efe83beee17a3d245e7c5085b";
   advertiser; usertag].

Definition imp1 : list string :=
  impression "b1" "20130615101500" "windows_chrome" "0" "c1" "1458" "10006,13866".
Definition imp2 : list string :=
  impression "b2" "20130601120000" "mac_safari" "75" "c2" "3358" "".
Definition imp3 : list string :=
  impression "b3" "20130602230000" "android_other" "5" "c9" "1458" "1,2,3".

(** The training file [mkdata.py] produces from [imp1] (clicked) and [imp2]. *)
Definition train_row1 : string := tsv ("1" :: "6" :: "10" :: imp1).
Definition train_row2 : string := tsv ("0" :: "6" :: "12" :: imp2).
Definition train : list string := [Timestamp.header schema; train_row1; train_row2].

(** A test file with an impression whose values the training file lacks. *)
Definition test_row : string := tsv ("0" :: "0" :: "23" :: imp3).
Definition test : list string := [Timestamp.header schema; test_row].

(** The vocabulary of [train]. *)
Definition built : gmap string nat * Dict.t nat :=
  ok_or (∅, Dict.empty) (Mkyzx.build_feature_index train).
Definition namecol : gmap string nat := built.1.
Definition featindex : Dict.t nat := built.2.

(** The raw logs [train] comes from: two impressions, one of them clicked. *)
Definition impressions : list string := [tsv imp1; tsv imp2].
Definition clicks : list (list string) := [[tsv imp1]].
Definition bmap : gmap string nat := ok_or ∅ (Mkdata.build_click_map clicks 18).


(** A line of a test log: the impression, [nclick] and [nconversation]. *)
Definition test_line (nclick : string) : string :=
  tsv (imp3 ++ [nclick; "0"])%list.

(** An impression whose timestamp has ten characters. *)
Definition ten_characters : string :=
  tsv (impression "b5" "2013060112" "mac_safari" "5" "c2" "3358" "").

(** An assembled file for the partitioner: the advertiser is column 25. *)
Definition assembled : list string :=
  [Timestamp.header schema; train_row1; train_row2; test_row;
   tsv ["0"; "6"; "12"; "b6"];
   tsv ("0" :: "6" :: "12" :: impression "b7" "20130601120000" "mac_safari" "5" "c2" "" "")].

(** A training file whose first column is a categorical one. *)
Definition weekday_first : list string :=
  [tsv ["weekday"; "hour"]; tsv ["1"; "12"]].

(** A row of 24 fields for it: an unseen weekday, a known hour. *)
Definition weekday_first_row : list string :=
  ["7"; "12"; "a"; "b"; "c"; "d"; "e"; "f"; "g"; "h"; "i"; "j"; "k"; "l"; "m";
   "n"; "o"; "p"; "q"; "r"; "s"; "t"; "u"; "99"].

(** A training file whose first column is categorical and holds the value
    ["other"]. *)
Definition weekday_other : list string :=
  [tsv ["weekday"; "hour"]; tsv ["other"; "12"]].

(** The lines [index_file] writes for [test]. *)
Definition encoded_test : list string :=
  match Mkyzx.index_file namecol featindex test with
  | Ok out => out
  | Raise _ => []
  end.

End Sample.

(** ** Notions the further properties are stated with *)

(** The signature both [formalizeua.py] and [mkyzx.py] derive from a
    lower-cased user agent: the first operating system and the first browser
    of the two lists that occur in it. *)
Definition fmua (ua : string) : string :=
  Formalizeua.detect_keyword ua Formalizeua.OSES +:+ "_"
  +:+ Formalizeua.detect_keyword ua Formalizeua.BROWSERS.

(** What [formalizeua.py] writes in place of the field at position [i]. *)
Definition formalized (fields : list string) (i : nat) : string :=
  if decide (i = 7) then fmua (Py.lower (default "" (fields !! 7)))
  else match fields !! i with
       | Some value => if decide (value = "") then "null" else value
       | None => "null"
       end.

(** The rows a loop body writes for [lines], numbered from [line_num], in
    order. *)
Fixpoint written (body : nat -> string -> Timestamp.outcome) (line_num : nat)
         (lines : list string) : list string :=
  match lines with
  | [] => []
  | line :: rest =>
      match body line_num line with
      | Timestamp.Write text => text :: written body (S line_num) rest
      | _ => written body (S line_num) rest
      end
  end.

(** A name that can stand in a header line: no tab and no newline in it. *)
Definition plain (name : string) : Prop :=
  occurs Py.TAB name = false /\ occurs Py.LF name = false.

(** ** Further sample data *)

Module Fixture.

(** A second click log, with the click on the impression [imp2]. *)
Definition clicks2 : list (list string) := [[Sample.tsv Sample.imp2]].

Definition bmap2 : gmap string nat := ok_or ∅ (Mkdata.build_click_map clicks2 18).
Definition bmap12 : gmap string nat :=
  ok_or ∅ (Mkdata.build_click_map (Sample.clicks ++ clicks2)%list 18).
Definition bmap21 : gmap string nat :=
  ok_or ∅ (Mkdata.build_click_map (clicks2 ++ Sample.clicks ++ clicks2)%list 18).

(** A training file whose header names the column [region] twice. *)
Definition twice_header : string := Sample.tsv ["click"; "region"; "region"].
Definition twice_rows : list string := [Sample.tsv ["1"; "a"; "b"]].
Definition twice_built : gmap string nat * Dict.t nat :=
  ok_or (∅, Dict.empty) (Mkyzx.build_feature_index (twice_header :: twice_rows)).

(** A file system without links, in which every directory and every file can
    be created: a path is its own file. *)
Definition plain_mkdir (p : Splitadvertisers.path) : option Splitadvertisers.raised :=
  None.
Definition plain_open (p : Splitadvertisers.path)
  : result Splitadvertisers.raised Splitadvertisers.path := Ok p.

Definition out : Splitadvertisers.path :=
  Splitadvertisers.Path Splitadvertisers.Relative ["out"].

(** [split_file_by_advertiser] in that file system, into the folder [out],
    from an input file named [train.log.txt]. *)
Definition split (lines : list string) (advertiser_index : Z)
  : gmap string (Splitadvertisers.path * list string)
    * option Splitadvertisers.error :=
  Splitadvertisers.split_file_by_advertiser plain_mkdir plain_open out "train.log.txt"
    lines advertiser_index.

(** The assembled file without its header, its handles when it has been
    split, and the file of advertiser 1458. *)
Definition assembled_rows : list string := tail Sample.assembled.
Definition advertiser_files : gmap string (Splitadvertisers.path * list string) :=
  (split (Timestamp.header Sample.schema :: assembled_rows) 25).1.
Definition file_1458 : Splitadvertisers.path :=
  Splitadvertisers.Path Splitadvertisers.Relative ["out"; "1458"; "train.log.txt"].
Definition advertiser_1458 : list string :=
  [Timestamp.header Sample.schema; Sample.train_row1; Sample.test_row].

(** Two rows whose advertiser values, [x] and [x/], lead to one path. *)
Definition shared : list string :=
  [Sample.tsv ["click"; "advertiser"]; Sample.tsv ["r1"; "x"]; Sample.tsv ["r2"; "x/"]].


(** A line of a test log, as a row. *)
Definition test_arr : list string := Py.fields (Sample.test_line "0").

End Fixture.

(** * Properties *)

(** ** Text *)

Section Text.

Lemma str_app_cons (c : ascii) (s t : string) : String c s +:+ t = String c (s +:+ t).
Proof. reflexivity. Qed.

Lemma str_app_sep_inj (c : ascii) (s1 s2 t1 t2 : string) :
  occurs c s1 = false -> occurs c s2 = false ->
  s1 +:+ String c t1 = s2 +:+ String c t2 -> s1 = s2 /\ t1 = t2.
Proof.
  revert s2. induction s1 as [|a s1 IH]; intros [|b s2] H1 H2 H;
    rewrite ?str_app_cons in H; simpl in *.
  - by injection H as ->.
  - injection H as <- _. rewrite bool_decide_eq_true_2 in H2; done.
  - injection H as -> _. rewrite bool_decide_eq_true_2 in H1; done.
  - injection H as -> H. apply orb_false_iff in H1 as [_ H1].
    apply orb_false_iff in H2 as [_ H2].
    destruct (IH s2 H1 H2 H) as [-> ->]. done.
Qed.

Lemma occurs_app (c : ascii) (s t : string) :
  occurs c (s +:+ t) = occurs c s || occurs c t.
Proof.
  induction s as [|a s IH]; [done|].
  rewrite str_app_cons. simpl. by rewrite IH, orb_assoc.
Qed.

Lemma pretty_N_go_colon (x : N) (s : string) :
  occurs ":" (pretty_N_go x s) = occurs ":" s.
Proof.
  revert s. induction (N.lt_wf_0 x) as [x _ IH]; intros s.
  assert (x = 0 \/ 0 < x)%N as [->|Hx] by lia.
  - by rewrite pretty_N_go_0.
  - rewrite pretty_N_go_step by done. rewrite IH by (by apply N.div_lt).
    simpl. unfold pretty_N_char. by repeat case_match.
Qed.

(** The decimal numeral of a number has no colon. *)
Lemma str_nat_colon (n : nat) : occurs ":" (Py.str_nat n) = false.
Proof.
  unfold Py.str_nat, pretty, pretty_nat, pretty, pretty_N.
  case_decide; [done|]. by rewrite pretty_N_go_colon.
Qed.

Lemma str_nat_inj (a b : nat) : Py.str_nat a = Py.str_nat b -> a = b.
Proof. apply pretty_nat_inj. Qed.

(** A feature key determines its column and its value. *)
Lemma feat_key_inj (a b : nat) (x y : string) :
  Mkyzx.feat_key a x = Mkyzx.feat_key b y -> a = b /\ x = y.
Proof.
  unfold Mkyzx.feat_key. intros H.
  apply str_app_sep_inj in H as [H ->]; auto using str_nat_colon.
  split; [by apply str_nat_inj | done].
Qed.

Lemma feat_key_truncate (a : nat) (x : string) : Mkyzx.feat_key a x <> "truncate".
Proof.
  unfold Mkyzx.feat_key. intros H.
  apply (f_equal (occurs ":")) in H. rewrite occurs_app in H. simpl in H.
  rewrite orb_true_r in H. discriminate.
Qed.

End Text.

(** ** Dictionaries *)

Section Dictionaries.
Context {V : Type}.
Implicit Types (d : Dict.t V) (k : string) (v : V).

Lemma get_cons d k k' v :
  Dict.get ((k', v) :: d) k = if decide (k' = k) then Some v else Dict.get d k.
Proof. reflexivity. Qed.

Lemma get_None_keys d k : Dict.get d k = None <-> k ∉ Dict.keys d.
Proof.
  induction d as [|[k' v'] d IH]; simpl.
  - split; [intros _ H; by apply elem_of_nil in H | done].
  - case_decide as Hk; subst.
    + split; [done | intros H; destruct H; apply elem_of_cons; auto].
    + rewrite IH, not_elem_of_cons. split; [intros ?; split; congruence | by intros [_ ?]].
Qed.

Lemma mem_get d k : Dict.mem d k = true <-> is_Some (Dict.get d k).
Proof.
  unfold Dict.mem. destruct (Dict.get d k) as [v|].
  - split; [by eexists | done].
  - split; [done | by intros [? ?]].
Qed.

Lemma mem_false d k : Dict.mem d k = false <-> Dict.get d k = None.
Proof. unfold Dict.mem. destruct (Dict.get d k); naive_solver. Qed.

(** Assigning to a key that is absent appends the entry. *)
Lemma set_fresh d k v : Dict.get d k = None -> Dict.set d k v = (d ++ [(k, v)])%list.
Proof.
  induction d as [|[k' v'] d IH]; simpl; [done|].
  case_decide; [done|]. intros Hg. by rewrite IH.
Qed.

Lemma get_app d d' k :
  Dict.get (d ++ d')%list k =
  match Dict.get d k with Some v => Some v | None => Dict.get d' k end.
Proof.
  induction d as [|[k' v'] d IH]; simpl; [done|]. by case_decide.
Qed.

(** Entries are never lost when a dictionary grows at its end. *)
Lemma get_app_Some d d' k v :
  Dict.get d k = Some v -> Dict.get (d ++ d')%list k = Some v.
Proof. intros H. by rewrite get_app, H. Qed.

Lemma get_Some_elem d k v : Dict.get d k = Some v -> (k, v) ∈ d.
Proof.
  induction d as [|[k' v'] d IH]; simpl; [done|].
  case_decide; subst.
  - intros [= ->]. apply elem_of_cons; auto.
  - intros Hg. apply elem_of_cons; auto.
Qed.

Lemma get_elem_NoDup d k v :
  NoDup (Dict.keys d) -> (k, v) ∈ d -> Dict.get d k = Some v.
Proof.
  induction d as [|[k' v'] d IH]; simpl; intros Hnd Hin.
  - by apply elem_of_nil in Hin.
  - apply NoDup_cons in Hnd as [Hk Hnd].
    apply elem_of_cons in Hin as [[= -> ->]|Hin].
    + by case_decide.
    + case_decide; subst; [|by apply IH].
      destruct Hk. apply list_elem_of_fmap. by exists (k, v).
Qed.

End Dictionaries.

(** ** The feature index *)

Section FeatureIndex.
Import Mkyzx.

Lemma grows_refl st : grows st st.
Proof.
  split; [done|]. exists []. split; [by rewrite (right_id_L [] (++)%list)|].
  intros k Hk. by apply elem_of_nil in Hk.
Qed.

Lemma grows_trans st1 st2 st3 : grows st1 st2 -> grows st2 st3 -> grows st1 st3.
Proof.
  intros [Hn1 (e1 & H1 & K1)] [Hn2 (e2 & H2 & K2)]. split; [congruence|].
  exists (e1 ++ e2)%list. split; [by rewrite H2, H1, <-(assoc_L (++)%list)|].
  intros k Hk. unfold Dict.keys in Hk. rewrite map_app in Hk.
  apply elem_of_app in Hk as [Hk|Hk]; [by apply K1|].
  rewrite <-Hn1. by apply K2.
Qed.

Lemma assign_fresh feat st :
  well_numbered st -> Dict.get (featindex st) feat = None ->
  well_numbered (assign feat st)
  /\ featindex (assign feat st) = (featindex st ++ [(feat, length (featindex st))])%list.
Proof.
  intros (Hnd & Hval & Hmax) Hfresh. unfold assign; simpl.
  rewrite set_fresh by done. rewrite Hmax. split; [|done].
  unfold well_numbered; simpl. unfold Dict.keys, Dict.values in *.
  rewrite !map_app, !length_app; simpl. repeat split.
  - apply NoDup_app. split; [done|]. split; [|apply NoDup_singleton].
    intros x Hx Hx'. apply list_elem_of_singleton in Hx' as ->.
    by apply get_None_keys in Hfresh.
  - rewrite Hval. by rewrite seq_app.
  - lia.
Qed.

Lemma register_spec feat st :
  well_numbered st -> from_column (namecol st) feat ->
  well_numbered (register feat st) /\ grows st (register feat st)
  /\ is_Some (Dict.get (featindex (register feat st)) feat).
Proof.
  intros Hwn Hfrom. unfold register.
  destruct (Dict.mem (featindex st) feat) eqn:Hm.
  - split; [done|]. split; [apply grows_refl|]. by apply mem_get.
  - apply mem_false in Hm. destruct (assign_fresh feat st Hwn Hm) as [Hwn' Heq].
    split; [done|]. split.
    + split; [done|]. eexists. split; [done|].
      intros k Hk. simpl in Hk. by apply list_elem_of_singleton in Hk as ->.
    + rewrite Heq, get_app, Hm. simpl. case_decide; [by eexists | done].
Qed.

(** Growth keeps every entry. *)
Lemma grows_get st st' k v :
  grows st st' -> Dict.get (featindex st) k = Some v ->
  Dict.get (featindex st') k = Some v.
Proof. intros [_ (ext & -> & _)] H. by apply get_app_Some. Qed.

End FeatureIndex.

Section Vocabulary.
Import Mkyzx.

Lemma others_snoc a n :
  others a (S n) = (others a n ++ [(feat_key (a + n) "other", a + n)])%list.
Proof. unfold others. by rewrite seq_S, map_app. Qed.

Lemma length_others a n : length (others a n) = n.
Proof. unfold others. by rewrite length_map, length_seq. Qed.

Lemma get_others a n k :
  Dict.get (others a n) k = None \/
  exists j, a <= j < a + n /\ k = feat_key j "other" /\ Dict.get (others a n) k = Some j.
Proof.
  destruct (Dict.get (others a n) k) as [v|] eqn:H; [right | by left].
  apply get_Some_elem in H. unfold others in H.
  apply list_elem_of_fmap in H as (j & [= -> ->] & Hj).
  apply elem_of_seq in Hj. by exists j.
Qed.

Lemma get_others_Some a n j :
  a <= j < a + n -> Dict.get (others a n) (feat_key j "other") = Some j.
Proof.
  intros Hj. apply get_elem_NoDup.
  - unfold Dict.keys, others. rewrite map_map. simpl.
    apply NoDup_fmap_2; [|apply NoDup_seq].
    intros x y Hxy. by apply feat_key_inj in Hxy as [-> _].
  - unfold others. apply list_elem_of_fmap. exists j. split; [done|].
    apply elem_of_seq. lia.
Qed.

Lemma split_cons sep s : exists w ws, Py.split sep s = w :: ws.
Proof.
  destruct s as [|c s]; simpl; [by eexists _, _|].
  case_bool_decide; [by eexists _, _|].
  destruct (Py.split sep s); by eexists _, _.
Qed.

(** The header loop from position [i >= 1] on. *)
Lemma header_loop_index i cols st :
  1 <= i -> maxindex st = i ->
  featindex st = ("truncate", 0) :: others 1 (i - 1) ->
  let st' := header_loop i cols st in
  featindex st' = ("truncate", 0) :: others 1 (i - 1 + length cols)
  /\ maxindex st' = i + length cols.
Proof.
  revert i st. induction cols as [|name cols IH]; intros i st Hi Hmax Hfi; simpl.
  - by rewrite !Nat.add_0_r.
  - assert (Hstep : featindex (header_col i name st) = ("truncate", 0) :: others 1 i
                    /\ maxindex (header_col i name st) = S i).
    { unfold header_col. replace (0 <? i) with true by (symmetry; apply Nat.ltb_lt; lia).
      unfold assign; simpl. rewrite Hmax, Hfi. split; [|done].
      rewrite set_fresh.
      - simpl. f_equal.
        assert (Hi' : others 1 i = others 1 (S (i - 1))) by (f_equal; lia).
        rewrite Hi', others_snoc. by replace (1 + (i - 1)) with i by lia.
      - simpl. case_decide as Hk; [by apply eq_sym, feat_key_truncate in Hk|].
        destruct (get_others 1 (i - 1) (feat_key i "other")) as [|(j & Hj & Hk' & _)];
          [done|]. apply feat_key_inj in Hk' as [-> _]. lia. }
    destruct Hstep as [Hfi' Hmax'].
    destruct (IH (S i) (header_col i name st)) as [H1 H2]; [lia | done | |].
    + rewrite Hfi'. by replace (S i - 1) with i by lia.
    + split; [rewrite H1; do 2 f_equal; lia | lia].
Qed.

(** Where the names recorded by the header loop come from. *)
Lemma header_loop_namecol i cols st f col :
  namecol (header_loop i cols st) !! f = Some col ->
  namecol st !! f = Some col
  \/ exists name, cols !! (col - i) = Some name /\ i <= col /\ Py.strip name = f.
Proof.
  revert i st. induction cols as [|name cols IH]; intros i st; simpl; [by left|].
  intros H. apply IH in H as [H|(name' & Hn & Hle & Hs)].
  - assert (Hnc : namecol (header_col i name st) = <[Py.strip name := i]> (namecol st)).
    { unfold header_col. by destruct (0 <? i). }
    rewrite Hnc in H. apply lookup_insert_Some in H as [[<- <-]|[_ H]]; [right | by left].
    exists name. by rewrite Nat.sub_diag.
  - right. exists name'. split; [|split; [lia | done]].
    replace (col - i) with (S (col - S i)) by lia. done.
Qed.

(** The index once the header has been read: [truncate], then one [other]
    entry for each position from 1 on, numbered by the position. *)
Lemma after_header_index header :
  let n := length (Py.fields header) in
  featindex (after_header header) = ("truncate", 0) :: others 1 (n - 1)
  /\ maxindex (after_header header) = n.
Proof.
  unfold after_header. destruct (split_cons Py.TAB (Py.rstrip_nl header)) as (w & ws & Hs).
  unfold Py.fields. rewrite Hs. simpl.
  destruct (header_loop_index 1 ws (header_col 0 w initial)) as [H1 H2]; try done.
  rewrite H1, H2. by rewrite Nat.sub_0_r.
Qed.

Lemma after_header_namecol header f col :
  namecol (after_header header) !! f = Some col ->
  exists name, Py.fields header !! col = Some name /\ Py.strip name = f.
Proof.
  unfold after_header. intros H.
  apply header_loop_namecol in H as [H|(name & Hn & _ & Hs)].
  - simpl in H. by rewrite lookup_empty in H.
  - exists name. by rewrite Nat.sub_0_r in Hn.
Qed.

Lemma after_header_well_numbered header : well_numbered (after_header header).
Proof.
  destruct (after_header_index header) as [Hfi Hmax].
  unfold well_numbered. rewrite Hfi, Hmax. simpl. rewrite length_others.
  set (n := length (Py.fields header)).
  assert (1 <= n).
  { subst n. unfold Py.fields.
    destruct (split_cons Py.TAB (Py.rstrip_nl header)) as (w & ws & ->). simpl. lia. }
  repeat split.
  - apply NoDup_cons. split.
    + intros Hin. unfold Dict.keys, others in Hin. rewrite map_map in Hin.
      apply list_elem_of_fmap in Hin as (j & Hj & _). simpl in Hj.
      by apply eq_sym, feat_key_truncate in Hj.
    + unfold Dict.keys, others. rewrite map_map. simpl.
      apply NoDup_fmap_2; [|apply NoDup_seq].
      intros x y Hxy. by apply feat_key_inj in Hxy as [-> _].
  - f_equal. unfold Dict.values, others. rewrite map_map. simpl. by rewrite map_id.
  - lia.
Qed.

Lemma registering_id : registering (fun st => st).
Proof. intros st H. split; [done | apply grows_refl]. Qed.

Lemma registering_foldl {A} (f : state -> A -> state) (l : list A) :
  (forall x, x ∈ l -> registering (fun st => f st x)) ->
  registering (fun st => foldl f st l).
Proof.
  induction l as [|x l IH]; intros Hf; simpl; [apply registering_id|].
  intros st Hst. destruct (Hf x (list_elem_of_here _ _) st Hst) as [H1 H2].
  destruct (IH (fun y Hy => Hf y (list_elem_of_further _ _ _ Hy)) (f st x) H1) as [H3 H4].
  split; [done|]. by eapply grows_trans.
Qed.

Lemma registering_row_f1s s f : f ∈ F1S -> registering (fun st => row_f1s s st f).
Proof.
  intros Hf st H. unfold row_f1s.
  destruct (namecol st !! f) as [col|] eqn:Hcol; [|by apply registering_id].
  destruct (s !! col) as [content|]; [|by apply registering_id].
  destruct (register_spec (feat_key col content) st H) as (? & ? & _); [|done].
  exists f, col, content. split; [|done]. unfold columns. apply elem_of_app. by left.
Qed.

Lemma registering_row_f1sp s f : f ∈ F1SP -> registering (fun st => row_f1sp s st f).
Proof.
  intros Hf st H. unfold row_f1sp.
  destruct (namecol st !! f) as [col|] eqn:Hcol; [|by apply registering_id].
  destruct (s !! col) as [content|]; [|by apply registering_id].
  destruct (register_spec (feat_key col (feat_trans f content)) st H) as (? & ? & _);
    [|done].
  exists f, col, (feat_trans f content). split; [|done].
  unfold columns. apply elem_of_app. right. apply elem_of_app. by left.
Qed.

Lemma usertag_column : "usertag" ∈ columns.
Proof. unfold columns. do 2 (apply elem_of_app; right). apply list_elem_of_singleton. done. Qed.

Lemma registering_tag col tag st :
  well_numbered st -> namecol st !! "usertag" = Some col ->
  well_numbered (register (feat_key col tag) st)
  /\ grows st (register (feat_key col tag) st)
  /\ is_Some (Dict.get (featindex (register (feat_key col tag) st)) (feat_key col tag)).
Proof.
  intros H Hcol. apply register_spec; [done|].
  exists "usertag", col, tag. split; [apply usertag_column | done].
Qed.

(** The loop over the tags registers every tag. *)
Lemma tags_registered col tags st :
  well_numbered st -> namecol st !! "usertag" = Some col ->
  let st' := foldl (fun st tag => register (feat_key col tag) st) st tags in
  well_numbered st' /\ grows st st'
  /\ forall tag, tag ∈ tags -> is_Some (Dict.get (featindex st') (feat_key col tag)).
Proof.
  revert st. induction tags as [|tag tags IH]; intros st H Hcol; simpl.
  - split; [done|]. split; [apply grows_refl|]. intros tag Ht. by apply elem_of_nil in Ht.
  - destruct (registering_tag col tag st H Hcol) as (H1 & G1 & [v Hv]).
    destruct (IH (register (feat_key col tag) st) H1) as (H2 & G2 & K2).
    { destruct G1 as [-> _]. done. }
    split; [done|]. split; [by eapply grows_trans|].
    intros t Ht. apply elem_of_cons in Ht as [->|Ht]; [|by apply K2].
    exists v. by eapply grows_get.
Qed.

Lemma registering_row_usertag s : registering (row_usertag s).
Proof.
  intros st H. unfold row_usertag.
  destruct (namecol st !! "usertag") as [col|] eqn:Hcol; [|by apply registering_id].
  destruct (s !! col) as [content|]; [|by apply registering_id].
  destruct (tags_registered col (get_tags content) st H Hcol) as (? & ? & _). done.
Qed.

Lemma registering_data_line line : registering (fun st => data_line st line).
Proof.
  intros st H. unfold data_line.
  destruct (registering_foldl (row_f1s (Py.fields line)) F1S
              (fun f Hf => registering_row_f1s _ f Hf) st H) as [H1 G1].
  destruct (registering_foldl (row_f1sp (Py.fields line)) F1SP
              (fun f Hf => registering_row_f1sp _ f Hf) _ H1) as [H2 G2].
  destruct (registering_row_usertag (Py.fields line) _ H2) as [H3 G3].
  split; [done|]. eauto using grows_trans.
Qed.

Lemma registering_data_lines rows : registering (fun st => foldl data_line st rows).
Proof. apply registering_foldl. intros line _. apply registering_data_line. Qed.

(** What a successful run of [build_feature_index] returns. *)
Lemma build_feature_index_Ok lines nc fi :
  build_feature_index lines = Ok (nc, fi) ->
  exists header rows st,
    lines = header :: rows
    /\ st = foldl data_line (after_header header) rows
    /\ nc = namecol (after_header header) /\ fi = featindex st
    /\ well_numbered st /\ grows (after_header header) st.
Proof.
  unfold build_feature_index. destruct lines as [|header rows]; [done|].
  destruct (blank_header _); [done|]. case_decide; [done|]. intros [= <- <-].
  destruct (registering_data_lines rows
              (after_header header) (after_header_well_numbered header)) as [Hwn Hg].
  exists header, rows, (foldl data_line (after_header header) rows).
  split; [done|]. split; [done|]. split; [by destruct Hg as [-> _]|]. done.
Qed.

End Vocabulary.

(** ** The vocabulary and the encoder: the stated properties *)

Section Encoder.
Import Mkyzx.

(** The rows [index_file] writes, whatever the index. *)
Lemma index_file_rows nc fi input out :
  index_file nc fi input = Ok out ->
  exists index,
    Dict.get fi "truncate" = Some index
    /\ forall row, row ∈ out <->
         exists line, line ∈ tail input /\ 24 <= length (Py.fields line)
           /\ row = default "" (Py.fields line !! 0) +:+ " "
                     +:+ default "0" (Py.fields line !! 23)
                     +:+ " " +:+ Py.str_nat index +:+ ":1"
                     +:+ index_columns nc fi (Py.fields line) +:+ String Py.LF "".
Proof.
  unfold index_file. destruct (Dict.get fi "truncate") as [index|]; [|done].
  intros [= <-]. exists index. split; [done|]. intros row.
  rewrite list_elem_of_omap. unfold index_line. split.
  - intros (line & Hin & Hrow). exists line. split; [done|].
    destruct (length (Py.fields line) <? 24) eqn:Hlen; [done|].
    apply Nat.ltb_ge in Hlen. by injection Hrow as <-.
  - intros (line & Hin & Hlen & ->). exists line. split; [done|].
    by replace (length (Py.fields line) <? 24) with false
      by (symmetry; apply Nat.ltb_ge; lia).
Qed.

Lemma ok_or_Ok {E A} (d : A) (r : result E A) : is_ok r = true -> r = Ok (ok_or d r).
Proof. destruct r; [done | discriminate]. Qed.

Lemma built_Ok {E A B} (d : A * B) (r : result E (A * B)) :
  is_ok r = true -> r = Ok ((ok_or d r).1, (ok_or d r).2).
Proof. destruct r as [[a b]|e]; [done | discriminate]. Qed.

Lemma sample_built :
  build_feature_index Sample.train = Ok (Sample.namecol, Sample.featindex).
Proof.
  unfold Sample.namecol, Sample.featindex, Sample.built.
  apply built_Ok. vm_compute. reflexivity.
Qed.

(** The entry of a position of the header: it is in the index once the
    header has been read, and it is kept to the end. *)
Lemma other_registered lines nc fi f col :
  build_feature_index lines = Ok (nc, fi) ->
  nc !! f = Some col -> 1 <= col ->
  Dict.get fi (feat_key col "other") = Some col
  /\ exists header rows,
       lines = header :: rows
       /\ Dict.get (featindex (after_header header)) (feat_key col "other") = Some col.
Proof.
  intros Hb Hf Hcol.
  apply build_feature_index_Ok in Hb
    as (header & rows & st & -> & -> & -> & -> & Hwn & Hg).
  apply after_header_namecol in Hf as (name & Hname & _).
  apply lookup_lt_Some in Hname.
  assert (Hh : Dict.get (featindex (after_header header)) (feat_key col "other")
               = Some col).
  { destruct (after_header_index header) as [-> _]. rewrite get_cons.
    case_decide as Hk; [by apply eq_sym, feat_key_truncate in Hk|].
    apply get_others_Some. lia. }
  split; [by eapply grows_get | by exists header, rows].
Qed.

(** C2: [build_feature_index] gives id 0 to ["truncate"] before any other
    key, and every row [index_file] writes starts with the label, the
    winning price and then the pair of the truncate feature. *)
Theorem truncate_first lines nc fi input out :
  build_feature_index lines = Ok (nc, fi) ->
  index_file nc fi input = Ok out ->
  (exists rest, fi = ("truncate", 0) :: rest)
  /\ Dict.get fi "truncate" = Some 0
  /\ forall row, row ∈ out <->
       exists line, line ∈ tail input /\ 24 <= length (Py.fields line)
         /\ row = default "" (Py.fields line !! 0) +:+ " "
                   +:+ default "0" (Py.fields line !! 23)
                   +:+ " " +:+ Py.str_nat 0 +:+ ":1"
                   +:+ index_columns nc fi (Py.fields line) +:+ String Py.LF "".
Proof.
  intros Hb Hi.
  apply build_feature_index_Ok in Hb
    as (header & rows & st & -> & -> & -> & -> & Hwn & Hg).
  destruct Hg as [_ (ext & Hext & _)].
  destruct (after_header_index header) as [Hfi _]. rewrite Hfi in Hext.
  assert (Ht : Dict.get (featindex (foldl data_line (after_header header) rows))
                 "truncate" = Some 0) by (by rewrite Hext).
  split; [rewrite Hext; by eexists|]. split; [done|].
  destruct (index_file_rows _ _ _ _ Hi) as (index & Hindex & Hrows).
  rewrite Ht in Hindex. by injection Hindex as <-.
Qed.

Lemma truncate_first_witness :
  (exists rest, Sample.featindex = ("truncate", 0) :: rest)
  /\ Dict.get Sample.featindex "truncate" = Some 0
  /\ forall row, row ∈ Sample.encoded_test <->
       exists line, line ∈ tail Sample.test /\ 24 <= length (Py.fields line)
         /\ row = default "" (Py.fields line !! 0) +:+ " "
                   +:+ default "0" (Py.fields line !! 23)
                   +:+ " " +:+ Py.str_nat 0 +:+ ":1"
                   +:+ index_columns Sample.namecol Sample.featindex (Py.fields line)
                   +:+ String Py.LF "".
Proof.
  apply (truncate_first Sample.train Sample.namecol Sample.featindex Sample.test).
  - exact sample_built.
  - vm_compute. reflexivity.
Defined.

(** C10, as the code has it: the ids are distinct and are the ranks
    0 .. size-1 in insertion order; the header loop registers ["i:other"]
    with id [i] for every position [i >= 1] of the header, whatever the
    column, and nothing for position 0; the final index extends the one the
    header loop built, and holds no ["0:other"] unless a registered column
    sits at position 0. *)
Theorem feature_index_numbering lines nc fi :
  build_feature_index lines = Ok (nc, fi) ->
  NoDup (Dict.keys fi) /\ NoDup (Dict.values fi)
  /\ Dict.values fi = seq 0 (length fi)
  /\ exists header rows ext,
       lines = header :: rows
       /\ featindex (after_header header)
          = ("truncate", 0) :: others 1 (length (Py.fields header) - 1)
       /\ fi = (featindex (after_header header) ++ ext)%list
       /\ (forall i, 1 <= i < length (Py.fields header) ->
             Dict.get fi (feat_key i "other") = Some i)
       /\ Dict.get (featindex (after_header header)) (feat_key 0 "other") = None
       /\ ((forall f, f ∈ columns -> nc !! f <> Some 0) ->
             Dict.get fi (feat_key 0 "other") = None).
Proof.
  intros Hb.
  apply build_feature_index_Ok in Hb
    as (header & rows & st & -> & -> & -> & -> & Hwn & Hg).
  destruct Hwn as (Hk & Hv & _).
  split; [done|]. split; [rewrite Hv; apply NoDup_seq|]. split; [done|].
  destruct (after_header_index header) as [Hfi _].
  assert (H0 : Dict.get (featindex (after_header header)) (feat_key 0 "other") = None).
  { rewrite Hfi, get_cons. case_decide as Hc; [by apply eq_sym, feat_key_truncate in Hc|].
    destruct (get_others 1 (length (Py.fields header) - 1) (feat_key 0 "other"))
      as [|(j & Hj & Hjk & _)]; [done|].
    apply feat_key_inj in Hjk as [<- _]. lia. }
  pose proof Hg as [_ (ext & Hext & Hfrom)].
  exists header, rows, ext. split; [done|]. split; [done|]. split; [done|].
  split; [|split; [done|]].
  - intros i Hi. eapply grows_get; [done|]. rewrite Hfi. simpl.
    case_decide as Hc; [by apply eq_sym, feat_key_truncate in Hc|].
    apply get_others_Some. lia.
  - intros Hnone. rewrite Hext, get_app, H0.
    apply get_None_keys. intros Hin.
    destruct (Hfrom _ Hin) as (f & col & v & Hf & Hcol & Hkey).
    apply feat_key_inj in Hkey as [<- _]. by apply (Hnone f).
Qed.

Lemma feature_index_numbering_witness :
  NoDup (Dict.keys Sample.featindex) /\ NoDup (Dict.values Sample.featindex)
  /\ Dict.values Sample.featindex = seq 0 (length Sample.featindex)
  /\ exists header rows ext,
       Sample.train = header :: rows
       /\ featindex (after_header header)
          = ("truncate", 0) :: others 1 (length (Py.fields header) - 1)
       /\ Sample.featindex = (featindex (after_header header) ++ ext)%list
       /\ (forall i, 1 <= i < length (Py.fields header) ->
             Dict.get Sample.featindex (feat_key i "other") = Some i)
       /\ Dict.get (featindex (after_header header)) (feat_key 0 "other") = None
       /\ ((forall f, f ∈ columns -> Sample.namecol !! f <> Some 0) ->
             Dict.get Sample.featindex (feat_key 0 "other") = None).
Proof.
  apply (feature_index_numbering Sample.train Sample.namecol Sample.featindex).
  exact sample_built.
Defined.

(** C10 as stated fails: with a categorical column at position 0 whose value
    in a training row is ["other"], the key ["0:other"] is registered. *)
Lemma other_key_at_position_zero :
  build_feature_index Sample.weekday_other
  = Ok (<["hour" := 1]> (<["weekday" := 0]> ∅),
        [("truncate", 0); ("1:other", 1); ("0:other", 2); ("1:12", 3)])
  /\ feat_key 0 "other" = "0:other".
Proof. split; vm_compute; reflexivity. Qed.

(** What [emit] writes for a value the index lacks. *)
Lemma emit_unseen fi col content index :
  Dict.get fi (feat_key col content) = None ->
  Dict.get fi (feat_key col "other") = Some index ->
  emit fi col content = " " +:+ Py.str_nat index +:+ ":1".
Proof.
  intros Hc Ho. unfold emit.
  replace (Dict.mem fi (feat_key col content)) with false
    by (symmetry; by apply mem_false).
  by rewrite Ho.
Qed.

(** C1, as the code has it: for a column of the training header at a
    position [col >= 1], the key ["col:other"] is in the index with id
    [col], from the moment the header has been read and whatever the rows
    hold, and a value the index lacks is written as the pair of that id, for
    the plain, the transformed and the multi-valued columns alike; a column
    that the header lacks writes nothing. *)
Theorem other_fallback lines nc fi :
  build_feature_index lines = Ok (nc, fi) ->
  (forall f col, nc !! f = Some col -> 1 <= col ->
     Dict.get fi (feat_key col "other") = Some col
     /\ (exists header rows,
           lines = header :: rows
           /\ Dict.get (featindex (after_header header)) (feat_key col "other")
              = Some col)
     /\ forall s content, s !! col = Some content ->
          (Dict.get fi (feat_key col content) = None ->
           index_f1s nc fi s f = " " +:+ Py.str_nat col +:+ ":1")
          /\ (Dict.get fi (feat_key col (feat_trans f content)) = None ->
              index_f1sp nc fi s f = " " +:+ Py.str_nat col +:+ ":1")
          /\ (f = "usertag" ->
              index_usertag nc fi s = Py.join "" (map (emit fi col) (get_tags content))
              /\ forall tag, Dict.get fi (feat_key col tag) = None ->
                   emit fi col tag = " " +:+ Py.str_nat col +:+ ":1"))
  /\ (forall f s, nc !! f = None ->
        index_f1s nc fi s f = "" /\ index_f1sp nc fi s f = "")
  /\ (nc !! "usertag" = None -> forall s, index_usertag nc fi s = "").
Proof.
  intros Hb. split; [|split].
  - intros f col Hf Hcol.
    destruct (other_registered _ _ _ _ _ Hb Hf Hcol) as [Ho Hh].
    split; [done|]. split; [done|]. intros s content Hs. split; [|split].
    + intros Hc. unfold index_f1s. rewrite Hf, Hs. by apply emit_unseen.
    + intros Hc. unfold index_f1sp. rewrite Hf, Hs. by apply emit_unseen.
    + intros ->. unfold index_usertag. rewrite Hf, Hs. split; [done|].
      intros tag Ht. by apply emit_unseen.
  - intros f s Hf. unfold index_f1s, index_f1sp. by rewrite Hf.
  - intros Hf s. unfold index_usertag. by rewrite Hf.
Qed.

Lemma other_fallback_witness :
  Dict.get Sample.featindex (feat_key 1 "other") = Some 1
  /\ index_f1s Sample.namecol Sample.featindex (Py.fields Sample.test_row) "weekday"
     = " " +:+ Py.str_nat 1 +:+ ":1".
Proof.
  destruct (other_fallback Sample.train Sample.namecol Sample.featindex) as [H _].
  { exact sample_built. }
  destruct (H "weekday" 1) as (Ho & _ & Hs); [vm_compute; reflexivity | lia |].
  split; [exact Ho|].
  destruct (Hs (Py.fields Sample.test_row) "0") as [Hw _]; [vm_compute; reflexivity|].
  apply Hw. vm_compute. reflexivity.
Defined.

(** C1 as stated fails: a categorical column at position 0 of the training
    header has no ["0:other"] key, and a value the index lacks is dropped
    from the encoded row. *)
Lemma other_fallback_position_zero :
  build_feature_index Sample.weekday_first
  = Ok (<["hour" := 1]> (<["weekday" := 0]> ∅),
        [("truncate", 0); ("1:other", 1); ("0:1", 2); ("1:12", 3)])
  /\ "weekday" ∈ F1S
  /\ Sample.weekday_first_row !! 0 = Some "7"
  /\ index_f1s (<["hour" := 1]> (<["weekday" := 0]> ∅))
       [("truncate", 0); ("1:other", 1); ("0:1", 2); ("1:12", 3)]
       Sample.weekday_first_row "weekday" = ""
  /\ index_file (<["hour" := 1]> (<["weekday" := 0]> ∅))
       [("truncate", 0); ("1:other", 1); ("0:1", 2); ("1:12", 3)]
       [Sample.tsv ["weekday"; "hour"]; Sample.tsv Sample.weekday_first_row]
     = Ok ["7 99 0:1 3:1" +:+ String Py.LF ""].
Proof.
  split; [vm_compute; reflexivity|]. split; [|split; [reflexivity|]].
  - unfold F1S. apply list_elem_of_here.
  - split; vm_compute; reflexivity.
Qed.

(** Every tag of a training row is in the final index. *)
Lemma data_lines_tags col rows st line content tag :
  well_numbered st -> namecol st !! "usertag" = Some col ->
  line ∈ rows -> Py.fields line !! col = Some content -> tag ∈ get_tags content ->
  is_Some (Dict.get (featindex (foldl data_line st rows)) (feat_key col tag)).
Proof.
  revert st. induction rows as [|row rows IH]; intros st Hwn Hcol Hin Hc Ht.
  - by apply elem_of_nil in Hin.
  - simpl. destruct (registering_data_line row st Hwn) as [Hwn' Hg'].
    apply elem_of_cons in Hin as [->|Hin].
    + destruct (registering_data_lines rows _ Hwn') as [_ Hg].
      cut (is_Some (Dict.get (featindex (data_line st row)) (feat_key col tag))).
      { intros [v Hv]. exists v. by eapply grows_get. }
      unfold data_line.
      destruct (registering_foldl (row_f1s (Py.fields row)) F1S
                  (fun f Hf => registering_row_f1s _ f Hf) st Hwn) as [H1 G1].
      destruct (registering_foldl (row_f1sp (Py.fields row)) F1SP
                  (fun f Hf => registering_row_f1sp _ f Hf) _ H1) as [H2 G2].
      set (st2 := foldl (row_f1sp (Py.fields row)) _ F1SP) in *.
      assert (Hcol2 : namecol st2 !! "usertag" = Some col).
      { destruct G2 as [-> _]. destruct G1 as [-> _]. done. }
      unfold row_usertag. rewrite Hcol2, Hc.
      destruct (tags_registered col (get_tags content) st2 H2 Hcol2) as (_ & _ & K).
      by apply K.
    + apply IH; try done. destruct Hg' as [-> _]. done.
Qed.

Lemma dropwhile_all p l : forallb p l = true -> Py.dropwhile p l = [].
Proof.
  induction l as [|c l IH]; simpl; [done|].
  intros H. apply andb_true_iff in H as [-> H]. by apply IH.
Qed.

(** A text made of white space strips to the empty text. *)
Lemma strip_blank s : forallb Py.isspace (Py.chars s) = true -> Py.strip s = "".
Proof.
  intros H. unfold Py.strip, Py.strip_with. by rewrite (dropwhile_all _ (Py.chars s)).
Qed.

(** C7, as the code has it: the empty value and the value that is one
    newline yield the single tag [null]; any other value is stripped and
    split at the commas, so that another value made of white space yields
    the single empty tag; ["1,2,3"] yields three tags; every tag of a
    training row gets the key ["col:tag"], distinct tags distinct keys. *)
Theorem usertag_expansion lines nc fi col :
  build_feature_index lines = Ok (nc, fi) ->
  nc !! "usertag" = Some col ->
  get_tags "" = ["null"]
  /\ get_tags (String Py.LF "") = ["null"]
  /\ (forall content, content <> "" -> content <> String Py.LF "" ->
        get_tags content = Py.split "," (Py.strip content))
  /\ (forall content, content <> "" -> content <> String Py.LF "" ->
        forallb Py.isspace (Py.chars content) = true -> get_tags content = [""])
  /\ get_tags "1,2,3" = ["1"; "2"; "3"]
  /\ (forall line content tag,
        line ∈ tail lines -> Py.fields line !! col = Some content ->
        tag ∈ get_tags content -> is_Some (Dict.get fi (feat_key col tag)))
  /\ (forall t1 t2, feat_key col t1 = feat_key col t2 -> t1 = t2).
Proof.
  intros Hb Hcol.
  assert (Hsplit : forall content, content <> "" -> content <> String Py.LF "" ->
            get_tags content = Py.split "," (Py.strip content)).
  { intros content H1 H2. unfold get_tags.
    rewrite bool_decide_eq_false_2 by done.
    destruct content as [|c content]; [by destruct H1 | reflexivity]. }
  split; [done|]. split; [done|]. split; [done|]. split; [|split; [done|split]].
  - intros content H1 H2 H3. rewrite Hsplit by done. by rewrite strip_blank.
  - apply build_feature_index_Ok in Hb
      as (header & rows & st & -> & -> & -> & -> & Hwn & Hg).
    intros line content tag Hin Hc Ht. simpl in Hin.
    eapply data_lines_tags; eauto using after_header_well_numbered.
  - intros t1 t2 H. by apply feat_key_inj in H as [_ ->].
Qed.

Lemma usertag_expansion_witness :
  is_Some (Dict.get Sample.featindex (feat_key 26 "13866")).
Proof.
  destruct (usertag_expansion Sample.train Sample.namecol Sample.featindex 26)
    as (_ & _ & _ & _ & _ & H & _).
  - exact sample_built.
  - vm_compute. reflexivity.
  - apply (H Sample.train_row1 "10006,13866" "13866").
    + simpl. apply list_elem_of_here.
    + vm_compute. reflexivity.
    + vm_compute. apply list_elem_of_further, list_elem_of_here.
Defined.

(** C7 as stated fails: a value made of blanks yields the empty tag, not
    [null]. *)
Lemma usertag_blank_value : get_tags "  " = [""].
Proof. reflexivity. Qed.

End Encoder.

(** ** The slot price *)

Section Slotprice.
Import Mkyzx.

Ltac by_cases c := destruct c as [[] [] [] [] [] [] [] []]; vm_compute; reflexivity.

Lemma lower_int_space c : Py.int_space (Py.lower_char c) = Py.int_space c.
Proof. by_cases c. Qed.

Lemma lower_digit c : Py.digit (Py.lower_char c) = Py.digit c.
Proof. by_cases c. Qed.

Lemma lower_minus c :
  bool_decide (Py.lower_char c = "-"%char) = bool_decide (c = "-"%char).
Proof. by_cases c. Qed.

Lemma lower_plus c :
  bool_decide (Py.lower_char c = "+"%char) = bool_decide (c = "+"%char).
Proof. by_cases c. Qed.

Lemma lower_underscore c :
  bool_decide (Py.lower_char c = Py.UNDERSCORE) = bool_decide (c = Py.UNDERSCORE).
Proof. by_cases c. Qed.

Lemma dropwhile_lower l :
  Py.dropwhile Py.int_space (map Py.lower_char l)
  = map Py.lower_char (Py.dropwhile Py.int_space l).
Proof.
  induction l as [|c l IH]; simpl; [done|].
  rewrite lower_int_space. by destruct (Py.int_space c).
Qed.

Lemma count_digits_lower l : Py.count_digits (map Py.lower_char l) = Py.count_digits l.
Proof.
  unfold Py.count_digits. induction l as [|c l IH]; simpl; [done|].
  rewrite !filter_cons, lower_digit. case_decide; simpl; by rewrite IH.
Qed.

Lemma int_digits_cons prev acc c l :
  Py.int_digits prev acc (c :: l)
  = match Py.digit c with
    | Some d => Py.int_digits true (10 * acc + d)%Z l
    | None =>
        if bool_decide (c = Py.UNDERSCORE) && prev
        then match l with
             | c' :: _ =>
                 match Py.digit c' with
                 | Some _ => Py.int_digits false acc l
                 | None => None
                 end
             | [] => None
             end
        else None
    end.
Proof. reflexivity. Qed.

Lemma int_digits_lower prev acc l :
  Py.int_digits prev acc (map Py.lower_char l) = Py.int_digits prev acc l.
Proof.
  revert prev acc. induction l as [|c l IH]; intros prev acc; [done|].
  rewrite map_cons, !int_digits_cons, lower_digit, lower_underscore.
  destruct (Py.digit c); [apply IH|]. rewrite IH.
  destruct l as [|c' l]; [done|]. by rewrite map_cons, lower_digit.
Qed.

(** Lower-casing does not change what [int()] reads. *)
Lemma int_lower s : Py.int (Py.lower s) = Py.int s.
Proof.
  unfold Py.int, Py.lower, Py.chars, Py.str.
  rewrite list_ascii_of_string_of_list_ascii.
  rewrite dropwhile_lower, <-map_rev, dropwhile_lower, <-map_rev.
  set (body := rev _).
  destruct body as [|c r]; simpl; [done|].
  rewrite lower_minus, lower_plus.
  destruct (bool_decide (c = "-"%char)).
  { by rewrite count_digits_lower, int_digits_lower. }
  destruct (bool_decide (c = "+"%char)).
  { by rewrite count_digits_lower, int_digits_lower. }
  change (Py.lower_char c :: map Py.lower_char r) with (map Py.lower_char (c :: r)).
  by rewrite count_digits_lower, int_digits_lower.
Qed.

Lemma slotprice_bucket_range price : slotprice_bucket price = bucket_by_range price.
Proof.
  unfold slotprice_bucket, bucket_by_range.
  repeat match goal with
         | |- context [(?a <? ?b)%Z] => destruct (Z.ltb_spec a b)
         | |- context [(?a <=? ?b)%Z] => destruct (Z.leb_spec a b)
         end; try reflexivity; lia.
Qed.

(** C6: the transformation of [slotprice] yields one of the five buckets;
    a value that [int()] reads is put in the bucket whose range holds it, a
    value that [int()] refuses in ["0"]; and the six examples. *)
Theorem slotprice_buckets :
  (forall content,
      feat_trans "slotprice" content ∈ ["0"; "1-10"; "11-50"; "51-100"; "101+"])
  /\ (forall content,
        feat_trans "slotprice" content
        = match Py.int content with
          | Some price => bucket_by_range price
          | None => "0"
          end)
  /\ feat_trans "slotprice" "0" = "0"
  /\ feat_trans "slotprice" "5" = "1-10"
  /\ feat_trans "slotprice" "30" = "11-50"
  /\ feat_trans "slotprice" "75" = "51-100"
  /\ feat_trans "slotprice" "150" = "101+"
  /\ feat_trans "slotprice" "abc" = "0".
Proof.
  assert (H : forall content,
             feat_trans "slotprice" content
             = match Py.int content with
               | Some price => bucket_by_range price
               | None => "0"
               end).
  { intros content. unfold feat_trans. simpl. rewrite int_lower.
    destruct (Py.int content); [apply slotprice_bucket_range | done]. }
  split; [|split; [exact H|repeat split; vm_compute; reflexivity]].
  intros content. rewrite H. destruct (Py.int content) as [price|].
  - unfold bucket_by_range.
    repeat (case_match; [repeat constructor|]). repeat constructor.
  - repeat constructor.
Qed.

End Slotprice.

(** ** The join and the derived columns *)

Section Loop.
Import Timestamp.
Variable body : nat -> string -> outcome.

(** A line that is written comes from a line of the input. *)
Lemma run_written n lines text :
  text ∈ (run body n lines).1 ->
  exists i line, lines !! i = Some line /\ body (n + i) line = Write text.
Proof.
  revert n. induction lines as [|l lines IH]; intros n; simpl.
  - intros H. by apply elem_of_nil in H.
  - destruct (body n l) as [|t|e] eqn:Hb.
    + intros H. apply IH in H as (i & line & Hi & Hw).
      exists (S i), line. split; [done|]. by replace (n + S i) with (S n + i) by lia.
    + destruct (run body (S n) lines) as [out e] eqn:Hr. simpl.
      intros H. apply elem_of_cons in H as [->|H].
      * exists 0, l. split; [done|]. by rewrite Nat.add_0_r.
      * specialize (IH (S n)). rewrite Hr in IH. apply IH in H as (i & line & Hi & Hw).
        exists (S i), line. split; [done|]. by replace (n + S i) with (S n + i) by lia.
    + intros H. by apply elem_of_nil in H.
Qed.


(** A line the loop reaches and whose body writes has its text written. *)
Lemma run_reaches n lines i line text :
  lines !! i = Some line -> body (n + i) line = Write text ->
  (forall j l, j < i -> lines !! j = Some l -> forall e, body (n + j) l <> Fail e) ->
  text ∈ (run body n lines).1.
Proof.
  revert n i. induction lines as [|l lines IH]; intros n i Hi Hw Hbefore; [done|].
  destruct i as [|i]; simpl in *.
  - injection Hi as ->. rewrite Nat.add_0_r in Hw. rewrite Hw.
    destruct (run body (S n) lines) as [out e]. apply list_elem_of_here.
  - assert (Hstep : text ∈ (run body (S n) lines).1).
    { apply (IH (S n) i); [done | by replace (S n + i) with (n + S i) by lia |].
      intros j l' Hj Hl e. replace (S n + j) with (n + S j) by lia.
      apply (Hbefore (S j) l'); [lia | done]. }
    destruct (body n l) as [|t|e] eqn:Hb.
    + done.
    + destruct (run body (S n) lines) as [out e']. by apply list_elem_of_further.
    + destruct (Hbefore 0 l ltac:(lia) eq_refl e). by rewrite Nat.add_0_r.
Qed.

End Loop.

Section Join.
Import Timestamp Mkdata.

Lemma bid_in_range arr ci : ci < length arr -> is_Some (bid arr ci).
Proof.
  intros H. unfold bid.
  destruct (lookup_lt_is_Some_2 arr 0 ltac:(lia)) as [b ->].
  destruct (lookup_lt_is_Some_2 arr ci H) as [c ->]. by eexists.
Qed.

Lemma click_line_keys ci lcnt line bmap key :
  is_Some (click_line ci lcnt line bmap !! key) <->
  is_Some (bmap !! key)
  \/ (ci < length (Py.fields line) /\ bid (Py.fields line) ci = Some key).
Proof.
  unfold click_line. destruct (ci <? length (Py.fields line)) eqn:Hlen.
  - apply Nat.ltb_lt in Hlen. destruct (bid_in_range _ _ Hlen) as [k Hk]. rewrite Hk.
    destruct (decide (k = key)) as [->|Hne].
    + rewrite lookup_insert_eq. split; [by right | by eexists].
    + rewrite lookup_insert_ne by done. split; [by left|].
      intros [H|[_ H]]; [done | congruence].
  - apply Nat.ltb_ge in Hlen. split; [by left|]. intros [H|[H _]]; [done | lia].
Qed.

Lemma click_file_keys ci lcnt lines bmap key :
  is_Some (click_file ci lcnt lines bmap !! key) <->
  is_Some (bmap !! key)
  \/ exists line, line ∈ lines /\ ci < length (Py.fields line)
               /\ bid (Py.fields line) ci = Some key.
Proof.
  revert lcnt bmap. induction lines as [|l lines IH]; intros lcnt bmap; simpl.
  - split; [by left|]. intros [H|(line & H & _)]; [done | by apply elem_of_nil in H].
  - rewrite IH, click_line_keys. split.
    + intros [[H|H]|(line & Hin & H)].
      * by left.
      * right. exists l. split; [apply list_elem_of_here | done].
      * right. exists line. split; [by apply list_elem_of_further | done].
    + intros [H|(line & Hin & H)]; [by left; left|].
      apply elem_of_cons in Hin as [->|Hin]; [by left; right|].
      right. by exists line.
Qed.

Lemma click_files_keys ci files bmap key :
  is_Some (foldl (fun bmap f => click_file ci 0 f bmap) bmap files !! key) <->
  is_Some (bmap !! key) \/ in_click_logs files ci key.
Proof.
  unfold in_click_logs.
  revert bmap. induction files as [|f files IH]; intros bmap; simpl.
  - split; [by left|]. intros [H|(file & line & H & _)]; [done | by apply elem_of_nil in H].
  - rewrite IH, click_file_keys. split.
    + intros [[H|(line & Hin & H)]|(file & line & Hf & H)].
      * by left.
      * right. exists f, line. split; [apply list_elem_of_here | done].
      * right. exists file, line. split; [by apply list_elem_of_further | done].
    + intros [H|(file & line & Hf & Hin & H)]; [by left; left|].
      apply elem_of_cons in Hf as [->|Hf]; [left; right; by exists line|].
      right. by exists file, line.
Qed.

(** The keys of the click map are the keys of the click logs. *)
Lemma build_click_map_keys files ci bmap key :
  build_click_map files (Z.of_nat ci) = Ok bmap ->
  is_Some (bmap !! key) <-> in_click_logs files ci key.
Proof.
  unfold build_click_map.
  replace (Z.of_nat ci <? 0)%Z with false by (symmetry; apply Z.ltb_ge; lia).
  rewrite Nat2Z.id. intros [= <-]. rewrite click_files_keys, lookup_empty.
  split; [intros [[? H]|H]; [done | done] | by right].
Qed.

(** What [derive] writes starts with the label it was given. *)
Lemma derive_written click ts line_num line text :
  derive click ts line_num line = Write text ->
  exists weekday hour,
    weekday_hour ts = Ok (weekday, hour)
    /\ text = click +:+ String Py.TAB "" +:+ Py.str_int weekday +:+ String Py.TAB ""
              +:+ hour +:+ String Py.TAB "" +:+ line.
Proof.
  unfold derive. destruct (Py.len ts <? 8); [done|].
  destruct (weekday_hour ts) as [[weekday hour]|e]; [|done].
  intros [= <-]. by exists weekday, hour.
Qed.

(** The sample training file is what [mkdata.py] writes for the sample logs. *)
Lemma sample_train_assembled :
  process_data Sample.schema Sample.bmap Sample.impressions = (Sample.train, None).
Proof. vm_compute. reflexivity. Qed.

Lemma sample_bmap : build_click_map Sample.clicks (Z.of_nat 18) = Ok Sample.bmap.
Proof.
  unfold Sample.bmap. change (Z.of_nat 18) with 18%Z.
  apply ok_or_Ok. vm_compute. reflexivity.
Qed.

End Join.

Section Timestamps.
Import Timestamp.



Lemma mkdate_Ok y m d :
  (1 <= y <= 9999 /\ 1 <= m <= 12 /\ 1 <= d <= Py.days_in_month y m)%Z <->
  exists date, Py.mkdate y m d = Ok date.
Proof.
  unfold Py.mkdate.
  destruct (Z.leb_spec 1 y), (Z.leb_spec y 9999), (Z.leb_spec 1 m), (Z.leb_spec m 12),
    (Z.leb_spec 1 d), (Z.leb_spec d (Py.days_in_month y m)); simpl;
    (split; [intros ?; try lia; by eexists | intros [? ?]; try done; lia]).
Qed.

(** The parse of the date raises exactly on the malformed timestamps of
    eight characters or more. *)
Lemma weekday_hour_malformed ts :
  8 <= Py.len ts -> malformed ts <-> exists e, weekday_hour ts = Raise e.
Proof.
  intros Hlen. unfold malformed, weekday_hour, int_of.
  destruct (Py.int (Py.slice 0 4 ts)) as [y|];
    [|split; [by eexists | by right]].
  destruct (Py.int (Py.slice 4 6 ts)) as [m|];
    [|split; [by eexists | by right]].
  destruct (Py.int (Py.slice 6 8 ts)) as [d|];
    [|split; [by eexists | by right]].
  pose proof (mkdate_Ok y m d) as Hd.
  destruct (Py.mkdate y m d) as [date|e].
  - split; [|by intros [? ?]]. intros [H|H]; [lia|]. destruct H. apply Hd. by eexists.
  - split; [by eexists|]. intros _. right. intros H. apply Hd in H as [? ?]. done.
Qed.

(** The hour the scripts compute. *)
Lemma weekday_hour_hour ts weekday hour :
  weekday_hour ts = Ok (weekday, hour) ->
  hour = if 10 <? Py.len ts then Py.slice 8 10 ts else "00".
Proof.
  unfold weekday_hour.
  destruct (int_of (Py.slice 0 4 ts)); [|done].
  destruct (int_of (Py.slice 4 6 ts)); [|done].
  destruct (int_of (Py.slice 6 8 ts)); [|done].
  destruct (Py.mkdate _ _ _); [|done]. by intros [= _ <-].
Qed.


(** On any other timestamp it writes the row: weekday of the date, and the
    hour as the script computes it. *)
Lemma derive_well_formed click ts line_num line :
  ~ malformed ts ->
  exists weekday,
    derive click ts line_num line
    = Write (click +:+ String Py.TAB "" +:+ Py.str_int weekday +:+ String Py.TAB ""
             +:+ (if 10 <? Py.len ts then Py.slice 8 10 ts else "00")
             +:+ String Py.TAB "" +:+ line).
Proof.
  intros H. unfold derive. destruct (Py.len ts <? 8) eqn:Hlen.
  - apply Nat.ltb_lt in Hlen. destruct H. by left.
  - apply Nat.ltb_ge in Hlen.
    destruct (weekday_hour ts) as [[weekday hour]|e] eqn:Hw.
    + exists weekday. by rewrite (weekday_hour_hour _ _ _ Hw).
    + destruct H. apply weekday_hour_malformed; [done | by eexists].
Qed.

Lemma len_chars s : Py.len s = length (Py.chars s).
Proof. induction s as [|c s IH]; [done|]. simpl. by rewrite <-IH. Qed.

Lemma len_str l : Py.len (Py.str l) = length l.
Proof. induction l as [|c l IH]; [done|]. simpl. by rewrite <-IH. Qed.

Lemma weekday_text d :
  Py.str_int (Py.strftime_w d) ∈ ["0"; "1"; "2"; "3"; "4"; "5"; "6"]
  /\ (0 <= Py.strftime_w d <= 6)%Z.
Proof.
  unfold Py.strftime_w.
  pose proof (Z.mod_pos_bound (Py.toordinal d) 7 ltac:(lia)) as H.
  split; [|lia].
  assert (Py.toordinal d mod 7 = 0 \/ Py.toordinal d mod 7 = 1 \/ Py.toordinal d mod 7 = 2
          \/ Py.toordinal d mod 7 = 3 \/ Py.toordinal d mod 7 = 4
          \/ Py.toordinal d mod 7 = 5 \/ Py.toordinal d mod 7 = 6)%Z
    as [-> | [-> | [-> | [-> | [-> | [-> | ->]]]]]] by lia;
    repeat constructor.
Qed.

End Timestamps.

Section JoinClaim.
Import Timestamp Mkdata.

(** What [process_line] does with a line it retains whose timestamp is well
    formed: it writes the row, with the label of the key. *)
Lemma process_line_retained ti ci (bmap : gmap string nat) line_num line ts :
  Nat.max ti ci < length (Py.fields line) ->
  Py.fields line !! ti = Some ts -> ~ malformed ts ->
  exists b c weekday hour,
    Py.fields line !! 0 = Some b /\ Py.fields line !! ci = Some c
    /\ process_line ti ci bmap line_num line
       = Write ((if decide (is_Some (bmap !! (b +:+ "-" +:+ c))) then "1" else "0")
                +:+ String Py.TAB "" +:+ Py.str_int weekday +:+ String Py.TAB ""
                +:+ hour +:+ String Py.TAB "" +:+ line).
Proof.
  intros Hlen Hts Hwf. unfold process_line.
  replace (length (Py.fields line) <=? Nat.max ti ci) with false
    by (symmetry; apply Nat.leb_gt; lia).
  unfold bid.
  destruct (lookup_lt_is_Some_2 (Py.fields line) 0 ltac:(lia)) as [b Hb].
  destruct (lookup_lt_is_Some_2 (Py.fields line) ci ltac:(lia)) as [c Hc].
  rewrite Hb, Hc, Hts.
  destruct (derive_well_formed
              (if decide (is_Some (bmap !! (b +:+ "-" +:+ c))) then "1" else "0")
              ts line_num line Hwf) as [weekday ->].
  by exists b, c, weekday, (if 10 <? Py.len ts then Py.slice 8 10 ts else "00").
Qed.

(** A retained line whose timestamp is well formed does not end the loop. *)
Lemma process_line_goes_on ti ci (bmap : gmap string nat) line_num line :
  (forall ts, Nat.max ti ci < length (Py.fields line) ->
              Py.fields line !! ti = Some ts -> ~ malformed ts) ->
  forall e, process_line ti ci bmap line_num line <> Fail e.
Proof.
  intros Hwf e. destruct (Nat.le_gt_cases (length (Py.fields line)) (Nat.max ti ci))
    as [Hlen|Hlen].
  - unfold process_line.
    by replace (length (Py.fields line) <=? Nat.max ti ci) with true
      by (symmetry; apply Nat.leb_le; lia).
  - destruct (lookup_lt_is_Some_2 (Py.fields line) ti ltac:(lia)) as [ts Hts].
    destruct (process_line_retained ti ci bmap line_num line ts Hlen Hts (Hwf ts Hlen Hts))
      as (b & c & weekday & hour & _ & _ & ->). done.
Qed.

(** C3: the rows [process_data] writes are those of the impressions it
    retains, with the label of their key. Every data row written is an input
    line behind a label, a weekday and an hour, and the label is 1 if the key
    of the line, field 0, a dash and the creative field, is a key of the click
    logs, and 0 otherwise. And every line with a field at the timestamp and
    the creative positions is written so, with the label 1 if its key is a key
    of the click logs and with the label 0 otherwise, as long as its
    timestamp and those of the lines before it are well formed. *)
Theorem join_label schema click_files timestamp_index creative_index bmap fi out e :
  index schema "timestamp" = Some timestamp_index ->
  index schema "creative" = Some creative_index ->
  build_click_map click_files (Z.of_nat creative_index) = Ok bmap ->
  process_data schema bmap fi = (out, e) ->
  (forall text, text ∈ tail out ->
     exists i line b c click weekday hour,
       fi !! i = Some line
       /\ Py.fields line !! 0 = Some b
       /\ Py.fields line !! creative_index = Some c
       /\ text = click +:+ String Py.TAB "" +:+ Py.str_int weekday +:+ String Py.TAB ""
                 +:+ hour +:+ String Py.TAB "" +:+ line
       /\ (click = "1" <-> in_click_logs click_files creative_index (b +:+ "-" +:+ c))
       /\ (click = "0" <-> ~ in_click_logs click_files creative_index (b +:+ "-" +:+ c)))
  /\ (forall i line,
        fi !! i = Some line ->
        Nat.max timestamp_index creative_index < length (Py.fields line) ->
        (forall j l ts, j <= i -> fi !! j = Some l ->
           Nat.max timestamp_index creative_index < length (Py.fields l) ->
           Py.fields l !! timestamp_index = Some ts -> ~ malformed ts) ->
        exists b c weekday hour,
          Py.fields line !! 0 = Some b
          /\ Py.fields line !! creative_index = Some c
          /\ (in_click_logs click_files creative_index (b +:+ "-" +:+ c) ->
              "1" +:+ String Py.TAB "" +:+ Py.str_int weekday +:+ String Py.TAB ""
              +:+ hour +:+ String Py.TAB "" +:+ line ∈ tail out)
          /\ (~ in_click_logs click_files creative_index (b +:+ "-" +:+ c) ->
              "0" +:+ String Py.TAB "" +:+ Py.str_int weekday +:+ String Py.TAB ""
              +:+ hour +:+ String Py.TAB "" +:+ line ∈ tail out)).
Proof.
  intros Hti Hci Hmap Hp. unfold process_data in Hp. rewrite Hti, Hci in Hp.
  destruct (run (process_line timestamp_index creative_index bmap) 1 fi)
    as [rows e'] eqn:Hr.
  injection Hp as <- _. simpl. split.
  - intros text Hin.
    assert (Hin' : text ∈ (run (process_line timestamp_index creative_index bmap) 1 fi).1)
      by (by rewrite Hr).
    apply run_written in Hin' as (i & line & Hi & Hw).
    unfold process_line in Hw.
    destruct (length (Py.fields line) <=? Nat.max timestamp_index creative_index); [done|].
    unfold bid in Hw.
    destruct (Py.fields line !! 0) as [b|] eqn:Hb; [|done].
    destruct (Py.fields line !! creative_index) as [c|] eqn:Hc; [|done].
    destruct (Py.fields line !! timestamp_index) as [ts|]; [|done].
    apply derive_written in Hw as (weekday & hour & _ & ->).
    pose proof (build_click_map_keys click_files creative_index bmap (b +:+ "-" +:+ c) Hmap)
      as Hkeys.
    exists i, line, b, c. eexists. exists weekday, hour.
    split; [done|]. split; [done|]. split; [done|]. split; [reflexivity|].
    case_decide as Hk.
    + apply Hkeys in Hk. split; [done|]. split; [done | by intros ?].
    + assert (~ in_click_logs click_files creative_index (b +:+ "-" +:+ c))
        by (intros H; by apply Hkeys in H).
      split; [split; [done | by intros ?] | done].
  - intros i line Hi Hlen Hwf.
    destruct (lookup_lt_is_Some_2 (Py.fields line) timestamp_index ltac:(lia)) as [ts Hts].
    destruct (process_line_retained timestamp_index creative_index bmap (S i) line ts
                Hlen Hts (Hwf i line ts (le_n i) Hi Hlen Hts))
      as (b & c & weekday & hour & Hb & Hc & Hw).
    pose proof (build_click_map_keys click_files creative_index bmap (b +:+ "-" +:+ c) Hmap)
      as Hkeys.
    assert (Hrow : (if decide (is_Some (bmap !! (b +:+ "-" +:+ c))) then "1" else "0")
                   +:+ String Py.TAB "" +:+ Py.str_int weekday +:+ String Py.TAB ""
                   +:+ hour +:+ String Py.TAB "" +:+ line ∈ rows).
    { replace rows with (run (process_line timestamp_index creative_index bmap) 1 fi).1
        by (by rewrite Hr).
      apply (run_reaches _ 1 fi i line); [done | exact Hw |].
      intros j l Hj Hl. apply process_line_goes_on.
      intros ts' Hlen' Hts'. apply (Hwf j l ts'); [lia | done | done | done]. }
    exists b, c, weekday, hour. split; [done|]. split; [done|]. split.
    + intros Hk. apply Hkeys in Hk. by rewrite decide_True in Hrow.
    + intros Hk. rewrite decide_False in Hrow; [done|]. intros H. by apply Hkeys in H.
Qed.

Lemma join_label_witness :
  (exists i line b c click weekday hour,
     Sample.impressions !! i = Some line
     /\ Py.fields line !! 0 = Some b
     /\ Py.fields line !! 18 = Some c
     /\ Sample.train_row1
        = click +:+ String Py.TAB "" +:+ Py.str_int weekday +:+ String Py.TAB ""
          +:+ hour +:+ String Py.TAB "" +:+ line
     /\ (click = "1" <-> in_click_logs Sample.clicks 18 (b +:+ "-" +:+ c))
     /\ (click = "0" <-> ~ in_click_logs Sample.clicks 18 (b +:+ "-" +:+ c)))
  /\ ~ in_click_logs Sample.clicks 18 "b2-c2"
  /\ (exists weekday hour,
        "0" +:+ String Py.TAB "" +:+ Py.str_int weekday +:+ String Py.TAB ""
        +:+ hour +:+ String Py.TAB "" +:+ Sample.tsv Sample.imp2
        ∈ tail (process_data Sample.schema Sample.bmap Sample.impressions).1).
Proof.
  assert (Hkey : ~ in_click_logs Sample.clicks 18 "b2-c2").
  { intros H. apply (build_click_map_keys _ _ _ _ sample_bmap) in H.
    vm_compute in H. destruct H as [n H]. discriminate. }
  destruct (join_label Sample.schema Sample.clicks 1 18 Sample.bmap Sample.impressions
              (process_data Sample.schema Sample.bmap Sample.impressions).1
              (process_data Sample.schema Sample.bmap Sample.impressions).2)
    as [Hrows Hall].
  - vm_compute. reflexivity.
  - vm_compute. reflexivity.
  - exact sample_bmap.
  - apply surjective_pairing.
  - split; [|split; [exact Hkey|]].
    + apply Hrows. vm_compute. apply list_elem_of_here.
    + destruct (Hall 1 (Sample.tsv Sample.imp2)) as (b & c & weekday & hour & Hb & Hc & _ & H0).
      * reflexivity.
      * vm_compute. lia.
      * intros j l ts Hj Hl _ Hts.
        assert (Hcases : j = 0 \/ j = 1) by lia.
        destruct Hcases as [-> | ->]; injection Hl as <-;
          vm_compute in Hts; injection Hts as <-;
          (intros [Hshort|Hdate]; [vm_compute in Hshort; lia | vm_compute in Hdate];
           apply Hdate; repeat split; discriminate).
      * vm_compute in Hb. injection Hb as <-. vm_compute in Hc. injection Hc as <-.
        exists weekday, hour. apply H0. exact Hkey.
Defined.

End JoinClaim.

Section Hours.
Import Timestamp.

(** The hour of the SQL pipeline: characters 8 and 9 of a timestamp of ten
    characters or more, ["00"] otherwise. *)
Lemma duckdb_hour timestamp :
  DuckDB.hour_expr timestamp
  = match timestamp with
    | Some ts => if 10 <=? Py.len ts then Py.slice 8 10 ts else "00"
    | None => "00"
    end.
Proof.
  destruct timestamp as [ts|]; [|done].
  unfold DuckDB.hour_expr, DuckDB.ge, DuckDB.length, DuckDB.substr, DuckDB.case_when.
  simpl. by destruct (10 <=? Py.len ts).
Qed.

(** The hour of the scripts agrees with it except at ten characters. *)
Lemma script_hour ts weekday hour :
  weekday_hour ts = Ok (weekday, hour) -> Py.len ts <> 10 ->
  hour = DuckDB.hour_expr (Some ts).
Proof.
  intros Hw Hlen. rewrite (weekday_hour_hour _ _ _ Hw), duckdb_hour.
  destruct (Nat.ltb_spec 10 (Py.len ts)), (Nat.leb_spec 10 (Py.len ts)); try done; lia.
Qed.

(** C5 at a timestamp of exactly ten characters: [mkdata.py] and
    [mktest.py] write the hour ["00"] where characters 8 and 9 are ["12"],
    which is what [duckdb_pipeline.py] writes. *)
Theorem hour_of_ten_characters :
  Py.fields Sample.ten_characters !! 1 = Some "2013060112"
  /\ Py.len "2013060112" = 10
  /\ Py.slice 8 10 "2013060112" = "12"
  /\ Mkdata.process_line 1 18 Sample.bmap 1 Sample.ten_characters
     = Write ("0" +:+ String Py.TAB "" +:+ "6" +:+ String Py.TAB "" +:+ "00"
              +:+ String Py.TAB "" +:+ Sample.ten_characters)
  /\ Mktest.process_line 1 1 Sample.ten_characters
     = Write ("1" +:+ String Py.TAB "" +:+ "6" +:+ String Py.TAB "" +:+ "00"
              +:+ String Py.TAB "" +:+ Sample.ten_characters)
  /\ DuckDB.hour_expr (DuckDB.read_field "2013060112") = "12".
Proof. repeat split; vm_compute; reflexivity. Qed.

End Hours.

Section BadTimestamps.
Import Timestamp.




End BadTimestamps.

Section TestLabel.
Import Timestamp.

(** The label of [mktest.py]: 0 exactly when the last field but one is the
    text ["0"]. *)
Lemma mktest_click arr :
  Mktest.click_of arr
  = if decide (Mktest.second_to_last arr = Some "0") then "0" else "1".
Proof.
  unfold Mktest.click_of. case_decide as H.
  - rewrite bool_decide_eq_true_2 by done.
    unfold Mktest.second_to_last in H. destruct (Nat.ltb_spec (length arr) 2); [done|].
    by replace (2 <=? length arr) with true by (symmetry; apply Nat.leb_le; lia).
  - rewrite bool_decide_eq_false_2 by done. by rewrite andb_false_r.
Qed.


(** C4 at an [nclick] field with a blank after the zero: [mktest.py]
    compares the field as it stands and writes the label 1, where the
    trimmed value is ["0"] and [duckdb_pipeline.py] writes the label 0. *)
Theorem mktest_label_not_trimmed :
  Mktest.second_to_last (Py.fields (Sample.test_line "0 ")) = Some "0 "
  /\ Py.strip "0 " = "0"
  /\ Mktest.click_of (Py.fields (Sample.test_line "0 ")) = "1"
  /\ Mktest.process_line 1 1 (Sample.test_line "0 ")
     = Write ("1" +:+ String Py.TAB "" +:+ "0" +:+ String Py.TAB "" +:+ "23"
              +:+ String Py.TAB "" +:+ Sample.test_line "0 ")
  /\ DuckDB.click_expr_nclick (DuckDB.read_field "0 ") = "0".
Proof. repeat split; vm_compute; reflexivity. Qed.

End TestLabel.

(** ** The partition by advertiser *)

Section Partition.
Import Splitadvertisers.
Context {file : Type}.
Variable mkdir : path -> option raised.
Variable open_w : path -> result raised file.
Variables (output_folder : path) (name : string).
Variables (advertiser_index : nat) (header : string).

Lemma len_0 s : Py.len s = 0 <-> s = "".
Proof. destruct s; simpl; split; (done || discriminate). Qed.

Lemma filter_snoc_carries a seen line :
  filter (carries advertiser_index a) (seen ++ [line])%list
  = if decide (carries advertiser_index a line)
    then (filter (carries advertiser_index a) seen ++ [line])%list
    else filter (carries advertiser_index a) seen.
Proof.
  rewrite filter_app, filter_cons, filter_nil.
  case_decide; [done | by rewrite (right_id_L [] (++)%list)].
Qed.

Lemma filter_carries_met a (rows : list string) :
  filter (carries advertiser_index a) rows <> []
  <-> exists line, line ∈ rows /\ carries advertiser_index a line.
Proof.
  split.
  - intros H. destruct (filter (carries advertiser_index a) rows) as [|line l] eqn:Hf;
      [done|].
    assert (Hl : line ∈ filter (carries advertiser_index a) rows)
      by (rewrite Hf; apply list_elem_of_here).
    apply list_elem_of_filter in Hl as [Hc Hin]. by exists line.
  - intros (line & Hin & Hc) E.
    assert (line ∈ filter (carries advertiser_index a) rows) as Hl
      by (by apply list_elem_of_filter).
    rewrite E in Hl. by apply elem_of_nil in Hl.
Qed.

Lemma encountered_filter a (rows : list string) :
  encountered advertiser_index rows a
  <-> a <> "" /\ filter (carries advertiser_index a) rows <> [].
Proof. unfold encountered. by rewrite filter_carries_met. Qed.

Lemma encountered_snoc a seen line :
  encountered advertiser_index (seen ++ [line])%list a
  <-> encountered advertiser_index seen a
      \/ (a <> "" /\ carries advertiser_index a line).
Proof.
  unfold encountered. split.
  - intros [Ha (l & Hin & Hc)]. apply elem_of_app in Hin as [Hin|Hin].
    + left. split; [done|]. by exists l.
    + apply list_elem_of_singleton in Hin as ->. by right.
  - intros [[Ha (l & Hin & Hc)]|[Ha Hc]]; (split; [done|]).
    + exists l. split; [apply elem_of_app; by left | done].
    + exists line. split; [apply elem_of_app; right; apply list_elem_of_here | done].
Qed.

(** A line no advertiser file receives leaves every handle as it is. *)
Lemma advertiser_file_skip seen line a :
  (a <> "" -> ~ carries advertiser_index a line) ->
  advertiser_file open_w output_folder name advertiser_index header
    (seen ++ [line])%list a
  = advertiser_file open_w output_folder name advertiser_index header seen a.
Proof.
  intros H. unfold advertiser_file.
  destruct (decide (a = "")) as [->|Ha].
  - rewrite !decide_False; [done | by intros [? _] | by intros [? _]].
  - rewrite filter_snoc_carries.
    rewrite (decide_False (P := carries advertiser_index a line)) by auto. done.
Qed.

(** One turn of the loop keeps the handles in step with the rows read, or
    ends the run at an advertiser whose directory or file cannot be
    created. *)
Lemma data_line_files (fs : gmap string (file * list string)) seen line :
  (forall a, fs !! a
             = advertiser_file open_w output_folder name advertiser_index header seen a) ->
  (forall a, encountered advertiser_index seen a ->
             creatable mkdir open_w output_folder name a) ->
  match data_line mkdir open_w output_folder name advertiser_index header fs line with
  | Ok fs' =>
      (forall a, fs' !! a
                 = advertiser_file open_w output_folder name advertiser_index header
                     (seen ++ [line])%list a)
      /\ (forall a, encountered advertiser_index (seen ++ [line])%list a ->
                    creatable mkdir open_w output_folder name a)
  | Raise e =>
      exists a, a <> "" /\ carries advertiser_index a line
                /\ ~ creatable mkdir open_w output_folder name a
  end.
Proof.
  intros Hfs Hseen. unfold data_line.
  destruct (Nat.leb_spec (length (Py.fields line)) advertiser_index) as [Hlen|Hlen].
  { split.
    - intros a. rewrite advertiser_file_skip; [done|]. intros _. unfold carries.
      by rewrite lookup_ge_None_2.
    - intros a Ha. apply encountered_snoc in Ha as [Ha|[_ Hc]]; [by apply Hseen|].
      unfold carries in Hc. by rewrite lookup_ge_None_2 in Hc. }
  destruct (lookup_lt_is_Some_2 (Py.fields line) advertiser_index Hlen) as [adv Hadv].
  rewrite Hadv. destruct (Nat.eqb_spec (Py.len adv) 0) as [H0|H0].
  { apply len_0 in H0 as ->. split.
    - intros a. rewrite advertiser_file_skip; [done|].
      intros Ha. unfold carries. rewrite Hadv. congruence.
    - intros a Ha. apply encountered_snoc in Ha as [Ha|[Hne Hc]]; [by apply Hseen|].
      unfold carries in Hc. rewrite Hadv in Hc. congruence. }
  assert (Hne : adv <> "") by (intros ->; by apply H0).
  assert (Hother : forall a, a <> adv ->
            advertiser_file open_w output_folder name advertiser_index header
              (seen ++ [line])%list a
            = advertiser_file open_w output_folder name advertiser_index header seen a).
  { intros a Ha. apply advertiser_file_skip. intros _. unfold carries.
    rewrite Hadv. congruence. }
  assert (Hmet : forall f, open_w (output_file output_folder name adv) = Ok f ->
            advertiser_file open_w output_folder name advertiser_index header
              (seen ++ [line])%list adv
            = Some (f, header :: (filter (carries advertiser_index adv) seen ++ [line])%list)).
  { intros f Hf. unfold advertiser_file. rewrite filter_snoc_carries.
    rewrite (decide_True (P := carries advertiser_index adv line)) by done.
    rewrite decide_True, Hf; [done|]. split; [done|].
    intros E. apply app_eq_nil in E as [_ E]. discriminate. }
  assert (Hcreated : creatable mkdir open_w output_folder name adv ->
            forall a, encountered advertiser_index (seen ++ [line])%list a ->
                      creatable mkdir open_w output_folder name a).
  { intros Hc a Ha. apply encountered_snoc in Ha as [Ha|[_ Ha]]; [by apply Hseen|].
    unfold carries in Ha. rewrite Hadv in Ha. by injection Ha as <-. }
  pose proof (Hfs adv) as Hadv'. unfold advertiser_file in Hadv'.
  destruct (decide (adv <> "" /\ filter (carries advertiser_index adv) seen <> []))
    as [Hfile|Hfile].
  - destruct (Hseen adv) as [Hmk [f Hf]]; [by apply encountered_filter|].
    rewrite Hf in Hadv'. rewrite Hadv'. split; [|by apply Hcreated; split; [|exists f]].
    intros a. unfold write. rewrite Hadv'.
    destruct (decide (a = adv)) as [->|Ha].
    + by rewrite lookup_insert_eq, (Hmet f Hf).
    + rewrite lookup_insert_ne by done. by rewrite Hother, Hfs.
  - rewrite Hadv'.
    assert (Hnil : filter (carries advertiser_index adv) seen = []).
    { destruct (filter (carries advertiser_index adv) seen) eqn:E; [done|].
      destruct Hfile. by split. }
    destruct (mkdir (advertiser_dir output_folder adv)) as [r|] eqn:Hmk.
    { assert (~ creatable mkdir open_w output_folder name adv)
        by (intros [Hc _]; congruence).
      destruct r; by exists adv. }
    destruct (open_w (output_file output_folder name adv)) as [f|r] eqn:Hf.
    + split; [|by apply Hcreated; split; [|exists f]].
      intros a. unfold write. rewrite lookup_insert_eq, insert_insert_eq. simpl.
      rewrite lookup_insert_eq, insert_insert_eq.
      destruct (decide (a = adv)) as [->|Ha].
      * by rewrite lookup_insert_eq, (Hmet f eq_refl), Hnil.
      * rewrite lookup_insert_ne by done. by rewrite Hother, Hfs.
    + assert (~ creatable mkdir open_w output_folder name adv)
        by (intros [_ [f Hc]]; congruence).
      destruct r; by exists adv.
Qed.

(** The loop: it ends without an exception exactly when the directory and the
    file of every advertiser it meets can be created, and then the handles
    are those of the rows. *)
Lemma data_lines_files rows (fs : gmap string (file * list string)) seen :
  (forall a, fs !! a
             = advertiser_file open_w output_folder name advertiser_index header seen a) ->
  (forall a, encountered advertiser_index seen a ->
             creatable mkdir open_w output_folder name a) ->
  match (data_lines mkdir open_w output_folder name advertiser_index header fs rows).2 with
  | None =>
      (forall a, (data_lines mkdir open_w output_folder name advertiser_index header
                    fs rows).1 !! a
                 = advertiser_file open_w output_folder name advertiser_index header
                     (seen ++ rows)%list a)
      /\ (forall a, encountered advertiser_index (seen ++ rows)%list a ->
                    creatable mkdir open_w output_folder name a)
  | Some e =>
      exists a, encountered advertiser_index rows a
                /\ ~ creatable mkdir open_w output_folder name a
  end.
Proof.
  revert fs seen. induction rows as [|line rows IH]; intros fs seen Hfs Hseen; simpl.
  - by rewrite (right_id_L [] (++)%list).
  - pose proof (data_line_files fs seen line Hfs Hseen) as Hstep.
    destruct (data_line mkdir open_w output_folder name advertiser_index header fs line)
      as [fs'|e].
    + destruct Hstep as [Hfs' Hseen'].
      specialize (IH fs' (seen ++ [line])%list Hfs' Hseen').
      replace (seen ++ line :: rows)%list with ((seen ++ [line]) ++ rows)%list
        by (by rewrite <-(assoc_L (++)%list)).
      destruct (data_lines mkdir open_w output_folder name advertiser_index header
                  fs' rows).2; [|done].
      destruct IH as (a & [Ha (l & Hl & Hc)] & Hn). exists a. split; [|done].
      split; [done|]. exists l. split; [by apply list_elem_of_further | done].
    + simpl. destruct Hstep as (a & Ha & Hc & Hn). exists a. split; [|done].
      split; [done|]. exists line. split; [apply list_elem_of_here | done].
Qed.

(** A run of [split_file_by_advertiser] on a file with a header. *)
Lemma split_files rows :
  Py.len (Py.strip header) <> 0 ->
  split_file_by_advertiser mkdir open_w output_folder name (header :: rows)
    (Z.of_nat advertiser_index)
  = data_lines mkdir open_w output_folder name advertiser_index header ∅ rows
  /\ match (data_lines mkdir open_w output_folder name advertiser_index header ∅ rows).2 with
     | None =>
         (forall a, (data_lines mkdir open_w output_folder name advertiser_index header
                       ∅ rows).1 !! a
                    = advertiser_file open_w output_folder name advertiser_index header
                        rows a)
         /\ (forall a, encountered advertiser_index rows a ->
                       creatable mkdir open_w output_folder name a)
     | Some e =>
         exists a, encountered advertiser_index rows a
                   /\ ~ creatable mkdir open_w output_folder name a
     end.
Proof.
  intros Hh. split.
  - unfold split_file_by_advertiser.
    replace (Z.of_nat advertiser_index <? 0)%Z with false
      by (symmetry; apply Z.ltb_ge; lia).
    rewrite Nat2Z.id.
    by replace (Py.len (Py.strip header) =? 0) with false
      by (symmetry; by apply Nat.eqb_neq).
  - apply (data_lines_files rows ∅ []).
    + intros a. rewrite lookup_empty. unfold advertiser_file.
      rewrite decide_False; [done | by intros [_ ?]].
    + intros a [_ (l & Hl & _)]. by apply elem_of_nil in Hl.
Qed.

Lemma advertiser_file_Some rows a f text :
  advertiser_file open_w output_folder name advertiser_index header rows a
  = Some (f, text) ->
  encountered advertiser_index rows a
  /\ open_w (output_file output_folder name a) = Ok f
  /\ text = header :: filter (carries advertiser_index a) rows.
Proof.
  unfold advertiser_file. case_decide as H; [|done].
  destruct (open_w (output_file output_folder name a)) as [f'|]; [|done].
  intros [= <- <-]. split; [by apply encountered_filter | done].
Qed.

Lemma advertiser_file_met rows a :
  encountered advertiser_index rows a ->
  creatable mkdir open_w output_folder name a ->
  exists f, open_w (output_file output_folder name a) = Ok f
            /\ advertiser_file open_w output_folder name advertiser_index header rows a
               = Some (f, header :: filter (carries advertiser_index a) rows).
Proof.
  intros Ha [_ [f Hf]]. exists f. split; [done|]. unfold advertiser_file.
  rewrite decide_True by (by apply encountered_filter). by rewrite Hf.
Qed.

End Partition.

Section PartitionClaim.
Import Splitadvertisers.
Context {file : Type}.
Variable mkdir : path -> option raised.
Variable open_w : path -> result raised file.
Variables (output_folder : path) (name : string).

(** A file without a single line has no header to refuse: nothing is written. *)
Lemma split_empty_file advertiser_index :
  split_file_by_advertiser mkdir open_w output_folder name [] (Z.of_nat advertiser_index)
  = (∅, None).
Proof.
  unfold split_file_by_advertiser.
  by replace (Z.of_nat advertiser_index <? 0)%Z with false
    by (symmetry; apply Z.ltb_ge; lia).
Qed.

(** C9, as the code has it. A blank header fails the run. Otherwise the run
    ends without an exception exactly when the directory and the file of
    every advertiser value met can be created. Then every advertiser value
    met has one handle, opened on the file its path leads to, through which
    the header line and then exactly the rows that carry the value were
    written, in order, and nothing else has a handle: rows with too few
    fields and rows whose advertiser field is empty go to no file. The file
    holds that text if no other advertiser value met leads to it. *)
Theorem split_by_advertiser header rows advertiser_index :
  (Py.len (Py.strip header) = 0 ->
   split_file_by_advertiser mkdir open_w output_folder name (header :: rows)
     (Z.of_nat advertiser_index)
   = (∅, Some Empty_header))
  /\ (Py.len (Py.strip header) <> 0 ->
      ((split_file_by_advertiser mkdir open_w output_folder name (header :: rows)
          (Z.of_nat advertiser_index)).2 = None
       <-> forall a, encountered advertiser_index rows a ->
                     creatable mkdir open_w output_folder name a))
  /\ (forall fs,
        split_file_by_advertiser mkdir open_w output_folder name (header :: rows)
          (Z.of_nat advertiser_index)
        = (fs, None) ->
        (forall a, encountered advertiser_index rows a ->
           exists f,
             open_w (output_file output_folder name a) = Ok f
             /\ fs !! a = Some (f, header :: filter (carries advertiser_index a) rows)
             /\ ((forall b, encountered advertiser_index rows b -> b <> a ->
                            open_w (output_file output_folder name b) <> Ok f) ->
                 holds fs f (header :: filter (carries advertiser_index a) rows)))
        /\ (forall a, ~ encountered advertiser_index rows a -> fs !! a = None))
  /\ (forall line a, length (Py.fields line) <= advertiser_index ->
                     ~ carries advertiser_index a line)
  /\ (forall line, ~ encountered advertiser_index [line] "").
Proof.
  split; [|split; [|split; [|split]]].
  - intros H. unfold split_file_by_advertiser.
    replace (Z.of_nat advertiser_index <? 0)%Z with false
      by (symmetry; apply Z.ltb_ge; lia).
    by rewrite H.
  - intros Hh.
    destruct (split_files mkdir open_w output_folder name advertiser_index header rows Hh)
      as [-> Hrun].
    destruct (data_lines mkdir open_w output_folder name advertiser_index header ∅ rows).2.
    + split; [done|]. intros Hall. destruct Hrun as (a & Ha & Hn). destruct Hn. by apply Hall.
    + split; [|done]. intros _. apply Hrun.
  - intros fs Hsplit.
    assert (Hh : Py.len (Py.strip header) <> 0).
    { intros H. unfold split_file_by_advertiser in Hsplit.
      replace (Z.of_nat advertiser_index <? 0)%Z with false in Hsplit
        by (symmetry; apply Z.ltb_ge; lia).
      rewrite H in Hsplit. simpl in Hsplit. congruence. }
    destruct (split_files mkdir open_w output_folder name advertiser_index header rows Hh)
      as [Heq Hrun].
    rewrite Hsplit in Heq. rewrite <-Heq in Hrun. simpl in Hrun.
    destruct Hrun as [Hfs Hcreated]. split.
    + intros a Ha.
      destruct (advertiser_file_met mkdir open_w output_folder name advertiser_index
                  header rows a Ha (Hcreated a Ha)) as (f & Hf & Hfile).
      exists f. split; [done|]. split; [by rewrite Hfs|].
      intros Hown. exists a. split; [by rewrite Hfs|].
      intros b [f' text] Hb Hsame. simpl in Hsame. subst f'.
      rewrite Hfs in Hb. apply advertiser_file_Some in Hb as (Hmet & Hopen & _).
      destruct (decide (b = a)) as [|Hne]; [done|]. by destruct (Hown b Hmet Hne).
    + intros a Ha. rewrite Hfs. unfold advertiser_file.
      rewrite decide_False; [done|]. intros H. by apply Ha, encountered_filter.
  - intros line a Hlen. unfold carries. by rewrite lookup_ge_None_2.
  - intros line [H _]. done.
Qed.

End PartitionClaim.

Section PartitionExamples.

Lemma plain_creatable a :
  creatable Fixture.plain_mkdir Fixture.plain_open Fixture.out "train.log.txt" a.
Proof. split; [done | by eexists]. Qed.

(** The advertiser of a row of the sample. *)
Lemma assembled_met b :
  encountered 25 Fixture.assembled_rows b -> b = "1458" \/ b = "3358".
Proof.
  intros [Hne (line & Hin & Hc)]. unfold carries in Hc.
  apply list_elem_of_In in Hin. simpl in Hin.
  destruct Hin as [<-|[<-|[<-|[<-|[<-|[]]]]]]; vm_compute in Hc;
    try discriminate; injection Hc as <-;
    first [by left | by right | by destruct Hne].
Qed.

Lemma split_by_advertiser_witness :
  exists fs,
    Fixture.split (Timestamp.header Sample.schema :: Fixture.assembled_rows) (Z.of_nat 25)
    = (fs, None)
    /\ holds fs Fixture.file_1458 Fixture.advertiser_1458.
Proof.
  destruct (split_by_advertiser Fixture.plain_mkdir Fixture.plain_open Fixture.out
              "train.log.txt" (Timestamp.header Sample.schema) Fixture.assembled_rows 25)
    as (_ & Hrun & Hfiles & _).
  destruct Hrun as [_ Hnone]; [vm_compute; lia|].
  specialize (Hnone (fun a _ => plain_creatable a)).
  destruct (Hfiles (Fixture.split
                      (Timestamp.header Sample.schema :: Fixture.assembled_rows)
                      (Z.of_nat 25)).1) as [Hmet _].
  { unfold Fixture.split. rewrite <-Hnone. apply surjective_pairing. }
  exists (Fixture.split (Timestamp.header Sample.schema :: Fixture.assembled_rows)
            (Z.of_nat 25)).1.
  split; [unfold Fixture.split; rewrite <-Hnone; apply surjective_pairing|].
  destruct (Hmet "1458") as (f & Hf & _ & Hholds).
  { split; [done|]. exists Sample.train_row1.
    split; [apply list_elem_of_here | vm_compute; reflexivity]. }
  injection Hf as <-. apply Hholds.
  intros b Hb Hne. apply assembled_met in Hb as [->| ->]; [done|].
  vm_compute. discriminate.
Defined.

(** C9 as stated fails twice: the empty advertiser value of a row gets no
    file, and two advertiser values whose paths are one, [x] and [x/], get
    no file each: both handles are opened on the same file, for writing. *)
Lemma advertiser_without_own_file :
  Py.fields (Sample.tsv ["r1"; ""]) !! 1 = Some ""
  /\ Fixture.split [Sample.tsv ["click"; "advertiser"]; Sample.tsv ["r1"; ""]] 1
     = (∅, None)
  /\ (Fixture.split Fixture.shared 1).2 = None
  /\ (Fixture.split Fixture.shared 1).1 !! "x"
     = Some (Splitadvertisers.Path Splitadvertisers.Relative ["out"; "x"; "train.log.txt"],
             [Sample.tsv ["click"; "advertiser"]; Sample.tsv ["r1"; "x"]])
  /\ (Fixture.split Fixture.shared 1).1 !! "x/"
     = Some (Splitadvertisers.Path Splitadvertisers.Relative ["out"; "x"; "train.log.txt"],
             [Sample.tsv ["click"; "advertiser"]; Sample.tsv ["r2"; "x/"]]).
Proof. repeat split; vm_compute; reflexivity. Qed.

End PartitionExamples.

(** * Further properties of the code *)

(** ** Rows as text *)

Section Rows.

Lemma chars_cons c s : Py.chars (String c s) = c :: Py.chars s.
Proof. reflexivity. Qed.

Lemma chars_app s t : Py.chars (s +:+ t) = (Py.chars s ++ Py.chars t)%list.
Proof.
  induction s as [|c s IH]; [done|].
  rewrite str_app_cons, !chars_cons, IH. done.
Qed.

Lemma str_chars s : Py.str (Py.chars s) = s.
Proof. apply string_of_list_ascii_of_string. Qed.

Lemma chars_str l : Py.chars (Py.str l) = l.
Proof. apply list_ascii_of_string_of_list_ascii. Qed.

Lemma str_app l l' : Py.str (l ++ l')%list = Py.str l +:+ Py.str l'.
Proof. induction l as [|c l IH]; [done|]. simpl. by rewrite IH. Qed.

Lemma str_app_nil (s : string) : s +:+ "" = s.
Proof. induction s as [|c s IH]; [done|]. by rewrite str_app_cons, IH. Qed.

Lemma str_app_assoc (s t u : string) : (s +:+ t) +:+ u = s +:+ t +:+ u.
Proof. induction s as [|c s IH]; [done|]. by rewrite !str_app_cons, IH. Qed.

Lemma occurs_chars c s : occurs c s = true <-> c ∈ Py.chars s.
Proof.
  induction s as [|a s IH].
  - split; [done | intros H; by apply elem_of_nil in H].
  - change (occurs c (String a s)) with (bool_decide (a = c) || occurs c s).
    rewrite chars_cons, elem_of_cons, orb_true_iff, IH, bool_decide_eq_true.
    split; (intros [?|?]; [by left | by right]).
Qed.

Lemma occurs_false_app c s t :
  occurs c (s +:+ t) = false <-> occurs c s = false /\ occurs c t = false.
Proof. rewrite occurs_app. apply orb_false_iff. Qed.

Lemma split_cons_eq sep c s :
  Py.split sep (String c s)
  = if bool_decide (c = sep) then "" :: Py.split sep s
    else match Py.split sep s with
         | w :: ws => String c w :: ws
         | [] => [String c ""]
         end.
Proof. reflexivity. Qed.

(** Splitting, then joining with the separator, gives the text back. *)
Lemma join_split sep s : Py.join (String sep "") (Py.split sep s) = s.
Proof.
  induction s as [|c s IH]; [done|]. rewrite split_cons_eq.
  destruct (split_cons sep s) as (w & ws & Hs). rewrite Hs in *.
  case_bool_decide as Hc.
  - subst c. simpl. simpl in IH. by rewrite IH.
  - destruct ws as [|w' ws]; simpl in *; [by rewrite IH|].
    rewrite str_app_cons. by rewrite IH.
Qed.

(** No field of a split holds the separator. *)
Lemma split_fields sep s w : w ∈ Py.split sep s -> occurs sep w = false.
Proof.
  revert w. induction s as [|c s IH]; intros w.
  - simpl. intros H. apply list_elem_of_singleton in H as ->. done.
  - rewrite split_cons_eq. destruct (split_cons sep s) as (w0 & ws & Hs).
    rewrite Hs in *. case_bool_decide as Hc.
    + intros H. apply elem_of_cons in H as [->|H]; [done | by apply IH].
    + intros H. apply elem_of_cons in H as [->|H].
      * simpl. rewrite bool_decide_eq_false_2 by done. apply IH, list_elem_of_here.
      * apply IH. by apply list_elem_of_further.
Qed.

Lemma split_no_sep sep s : occurs sep s = false -> Py.split sep s = [s].
Proof.
  induction s as [|c s IH]; [done|]. simpl. intros H.
  apply orb_false_iff in H as [Hc H]. rewrite Hc, IH by done. done.
Qed.

(** A separator after a text without one ends the first field. *)
Lemma split_app_sep sep a b :
  occurs sep a = false ->
  Py.split sep (a +:+ String sep b) = a :: Py.split sep b.
Proof.
  induction a as [|c a IH]; intros H.
  - change ("" +:+ String sep b) with (String sep b).
    rewrite split_cons_eq, bool_decide_eq_true_2; done.
  - simpl in H. apply orb_false_iff in H as [Hc H].
    rewrite str_app_cons, split_cons_eq, Hc, IH by done. done.
Qed.

(** Joining fields that hold no separator, then splitting, gives them back. *)
Lemma split_join sep l :
  l <> [] -> (forall w, w ∈ l -> occurs sep w = false) ->
  Py.split sep (Py.join (String sep "") l) = l.
Proof.
  induction l as [|w l IH]; [done|]. intros _ H.
  destruct l as [|w' l].
  - simpl. apply split_no_sep, H, list_elem_of_here.
  - change (Py.join (String sep "") (w :: w' :: l))
      with (w +:+ String sep "" +:+ Py.join (String sep "") (w' :: l)).
    change (String sep "" +:+ ?x) with (String sep x).
    rewrite split_app_sep by (apply H, list_elem_of_here).
    rewrite IH; [done | done |]. intros x Hx. apply H. by apply list_elem_of_further.
Qed.

Lemma dropwhile_stop p c l : p c = false -> Py.dropwhile p (c :: l) = c :: l.
Proof. intros H. simpl. by rewrite H. Qed.

Lemma dropwhile_app_stop p l c l' :
  forallb p l = true -> p c = false ->
  Py.dropwhile p (l ++ c :: l')%list = c :: l'.
Proof.
  intros Hl Hc. induction l as [|a l IH]; simpl in *.
  - by rewrite Hc.
  - apply andb_true_iff in Hl as [-> Hl]. by apply IH.
Qed.

(** What [dropwhile] leaves starts with a character outside [p]. *)
Lemma dropwhile_head p l :
  match Py.dropwhile p l with
  | c :: _ => p c = false
  | [] => True
  end.
Proof.
  induction l as [|a l IH]; simpl; [done|].
  destruct (p a) eqn:Ha; [done | by simpl].
Qed.

Lemma dropwhile_split p l :
  exists pre, (l = pre ++ Py.dropwhile p l)%list /\ forallb p pre = true.
Proof.
  induction l as [|a l IH]; simpl.
  - by exists [].
  - destruct (p a) eqn:Ha.
    + destruct IH as (pre & Hl & Hp). exists (a :: pre). simpl.
      rewrite Ha, Hp. split; [by f_equal | done].
    + by exists [].
Qed.


Lemma dropwhile_app_keep p l c m :
  p c = false ->
  Py.dropwhile p (l ++ c :: m)%list = (Py.dropwhile p l ++ c :: m)%list.
Proof.
  intros Hc. induction l as [|a l IH]; simpl; [by rewrite Hc|].
  destruct (p a); [apply IH | done].
Qed.

(** Stripping on the right stops at a character that is kept. *)
Lemma rstrip_with_app p a c b :
  p c = false ->
  Py.rstrip_with p (a +:+ String c b) = a +:+ String c (Py.rstrip_with p b).
Proof.
  intros Hc. unfold Py.rstrip_with.
  rewrite chars_app, chars_cons, rev_app_distr. simpl rev.
  rewrite <-(assoc_L (++)%list). simpl.
  rewrite dropwhile_app_keep by done.
  rewrite rev_app_distr. simpl. rewrite rev_involutive, <-(assoc_L (++)%list). simpl.
  rewrite str_app, str_chars. done.
Qed.

Lemma endswith_nl_app_cons s c t :
  PyStr.endswith_nl (s +:+ String c t) = PyStr.endswith_nl (String c t).
Proof.
  unfold PyStr.endswith_nl. rewrite chars_app, rev_app_distr.
  rewrite chars_cons. simpl rev.
  destruct (rev (Py.chars t)) as [|x r]; simpl; done.
Qed.

(** A text that does not end with a newline is its own [rstrip]. *)
Lemma rstrip_nl_id s : PyStr.endswith_nl s = false -> Py.rstrip_nl s = s.
Proof.
  unfold PyStr.endswith_nl, Py.rstrip_nl, Py.rstrip_with. intros H.
  destruct (rev (Py.chars s)) as [|c r] eqn:Hr.
  - simpl. apply (f_equal (@rev ascii)) in Hr. rewrite rev_involutive in Hr.
    simpl in Hr. rewrite <-(str_chars s), Hr. done.
  - simpl. rewrite H. rewrite <-Hr, rev_involutive. apply str_chars.
Qed.

Lemma rstrip_nl_newline s :
  PyStr.endswith_nl s = false -> Py.rstrip_nl (s +:+ String Py.LF "") = s.
Proof.
  intros H. unfold Py.rstrip_nl, Py.rstrip_with.
  rewrite chars_app, rev_app_distr. simpl.
  fold (Py.rstrip_with (fun c => bool_decide (c = Py.LF)) s).
  by apply rstrip_nl_id.
Qed.

(** [rstrip] leaves no newline at the end. *)
Lemma endswith_nl_rstrip s : PyStr.endswith_nl (Py.rstrip_nl s) = false.
Proof.
  unfold PyStr.endswith_nl, Py.rstrip_nl, Py.rstrip_with.
  rewrite chars_str, rev_involutive.
  pose proof (dropwhile_head (fun c => bool_decide (c = Py.LF)) (rev (Py.chars s))) as H.
  by destruct (Py.dropwhile _ _).
Qed.

Lemma join_last sep l w : exists pre, Py.join sep (l ++ [w])%list = pre +:+ w.
Proof.
  induction l as [|a l [pre IH]]; [by exists ""|].
  change ((a :: l) ++ [w])%list with (a :: (l ++ [w]))%list.
  destruct (l ++ [w])%list as [|b m] eqn:Hl; [by destruct l|].
  exists (a +:+ sep +:+ pre).
  change (Py.join sep (a :: b :: m)) with (a +:+ sep +:+ Py.join sep (b :: m)).
  by rewrite IH, !str_app_assoc.
Qed.

(** A joined row ends the way its last field does, if that is not empty. *)
Lemma endswith_nl_join sep l w :
  w <> "" -> PyStr.endswith_nl (Py.join sep (l ++ [w])%list) = PyStr.endswith_nl w.
Proof.
  intros Hw. destruct (join_last sep l w) as [pre ->].
  destruct w as [|c w]; [done|]. apply endswith_nl_app_cons.
Qed.


End Rows.

(** ** [formalizeua.py] *)

Section UserAgents.
Import Formalizeua.

Lemma detect_keyword_in ua candidates :
  detect_keyword ua candidates ∈ candidates \/ detect_keyword ua candidates = "other".
Proof.
  induction candidates as [|c l IH]; simpl; [by right|].
  destruct (Py.contains c ua); [left; apply list_elem_of_here|].
  destruct IH as [IH|IH]; [left; by apply list_elem_of_further | by right].
Qed.

(** A property of texts that holds of the 54 signatures holds of every
    signature. *)
Lemma fmua_cases (P : string -> bool) ua :
  forallb (fun os => forallb (fun br => P (os +:+ "_" +:+ br)) ("other" :: BROWSERS))
          ("other" :: OSES) = true ->
  P (fmua ua) = true.
Proof.
  intros H. unfold fmua.
  assert (Hos : detect_keyword ua OSES ∈ "other" :: OSES).
  { destruct (detect_keyword_in ua OSES) as [?| ->];
      [by apply list_elem_of_further | apply list_elem_of_here]. }
  assert (Hbr : detect_keyword ua BROWSERS ∈ "other" :: BROWSERS).
  { destruct (detect_keyword_in ua BROWSERS) as [?| ->];
      [by apply list_elem_of_further | apply list_elem_of_here]. }
  rewrite forallb_forall in H. apply list_elem_of_In, H in Hos.
  rewrite forallb_forall in Hos. by apply list_elem_of_In, Hos in Hbr.
Qed.

Lemma first_match_detect names content :
  Mkyzx.first_match names content "other" = detect_keyword content names.
Proof. induction names as [|o l IH]; simpl; [done|]. by rewrite IH. Qed.

(** [mkyzx.py] reads the signature the way [formalizeua.py] builds it. *)
Lemma feat_trans_fmua content :
  Mkyzx.feat_trans "useragent" content = fmua (Py.lower content).
Proof.
  unfold Mkyzx.feat_trans, fmua.
  destruct (decide ("useragent" = "useragent")) as [_|Hn]; [|done].
  by rewrite !first_match_detect.
Qed.

(** A signature is its own signature. *)
Lemma fmua_fixed ua : fmua (Py.lower (fmua ua)) = fmua ua.
Proof.
  pose proof (fmua_cases (fun sig => bool_decide (fmua (Py.lower sig) = sig)) ua) as H.
  simpl in H. eapply bool_decide_eq_true_1, H. vm_compute. reflexivity.
Qed.

(** X1: [mkyzx.py] and [formalizeua.py] derive the same signature from a user
    agent, and a signature is its own signature: what [formalizeua] wrote,
    [feat_trans] leaves as it is. *)
Theorem useragent_signature_fixed :
  (forall content, Mkyzx.feat_trans "useragent" content = fmua (Py.lower content))
  /\ (forall ua, fmua (Py.lower (fmua ua)) = fmua ua)
  /\ (forall ua, Mkyzx.feat_trans "useragent" (fmua ua) = fmua ua).
Proof.
  split; [apply feat_trans_fmua|]. split; [apply fmua_fixed|].
  intros ua. by rewrite feat_trans_fmua, fmua_fixed.
Qed.

End UserAgents.

Section Formalize.
Import Formalizeua.

Lemma len_empty s : (Py.len s =? 0) = bool_decide (s = "").
Proof. destruct s; reflexivity. Qed.

(** The row [data_line] joins: one value for each position up to the longer of
    the row and eight fields. *)
Lemma data_line_row line :
  data_line line
  = Py.join (String Py.TAB "")
      (map (formalized (Py.fields line))
           (seq 0 (Nat.max (length (Py.fields line)) 8)))
    +:+ (if PyStr.endswith_nl line then String Py.LF "" else "").
Proof.
  unfold data_line. f_equal. f_equal.
  set (fields := Py.fields line).
  set (f := detect_keyword _ OSES +:+ "_" +:+ detect_keyword _ BROWSERS).
  assert (Hf : f = fmua (Py.lower (default "" (fields !! 7)))).
  { subst f. unfold fmua. destruct (Nat.ltb_spec 7 (length fields)) as [H|H]; [done|].
    by rewrite (lookup_ge_None_2 fields 7). }
  assert (Hn : forall i, normalize_fields fields !! i
                         = (fun v => if Py.len v =? 0 then "null" else v) <$> fields !! i).
  { intros i. unfold normalize_fields. apply list_lookup_fmap. }
  assert (Hl : length (normalize_fields fields) = length fields)
    by apply length_map.
  apply list_eq. intros i.
  rewrite list_lookup_fmap.
  destruct (decide (i < Nat.max (length fields) 8)) as [Hi|Hi].
  - rewrite lookup_seq_lt by done. simpl. unfold formalized.
    rewrite Hl. destruct (Nat.ltb_spec 7 (length fields)) as [H|H].
    + destruct (decide (i = 7)) as [->|Hne].
      * rewrite list_lookup_insert_eq by lia. by rewrite Hf.
      * rewrite list_lookup_insert_ne by done. rewrite Hn.
        destruct (lookup_lt_is_Some_2 fields i ltac:(lia)) as [v ->]. simpl.
        rewrite len_empty. by destruct (decide (v = "")); 
          [rewrite bool_decide_eq_true_2 | rewrite bool_decide_eq_false_2].
    + destruct (decide (i = 7)) as [->|Hne].
      * rewrite list_lookup_insert_eq; [by rewrite Hf|].
        rewrite length_app, length_replicate. lia.
      * rewrite list_lookup_insert_ne by done.
        destruct (decide (i < length fields)) as [Hlt|Hge].
        -- rewrite lookup_app_l by lia. rewrite Hn.
           destruct (lookup_lt_is_Some_2 fields i Hlt) as [v ->]. simpl.
           rewrite len_empty. by destruct (decide (v = ""));
             [rewrite bool_decide_eq_true_2 | rewrite bool_decide_eq_false_2].
        -- rewrite lookup_app_r by lia. rewrite (lookup_ge_None_2 fields i) by lia.
           apply lookup_replicate_2. lia.
  - rewrite lookup_seq_ge by lia. simpl. rewrite Hl.
    destruct (Nat.ltb_spec 7 (length fields)) as [H|H].
    + apply lookup_ge_None_2. rewrite length_insert. lia.
    + apply lookup_ge_None_2. rewrite length_insert, length_app, length_replicate. lia.
Qed.

Lemma fmua_clean ua :
  fmua ua <> "" /\ occurs Py.TAB (fmua ua) = false /\ PyStr.endswith_nl (fmua ua) = false.
Proof.
  pose proof (fmua_cases
    (fun sig => negb (bool_decide (sig = "")) && negb (occurs Py.TAB sig)
                && negb (PyStr.endswith_nl sig)) ua) as H.
  simpl in H. specialize (H eq_refl).
  apply andb_true_iff in H as [H H3]. apply andb_true_iff in H as [H1 H2].
  apply negb_true_iff in H1, H2, H3. apply bool_decide_eq_false in H1. done.
Qed.

Lemma formalized_clean line i :
  formalized (Py.fields line) i <> ""
  /\ occurs Py.TAB (formalized (Py.fields line) i) = false.
Proof.
  unfold formalized. case_decide; [split; apply fmua_clean|].
  destruct (Py.fields line !! i) as [v|] eqn:Hv; [|done].
  case_decide; [done|]. split; [done|].
  apply (split_fields Py.TAB (Py.rstrip_nl line)). by eapply list_elem_of_lookup_2.
Qed.

(** The last field of a row read from a line does not end with a newline. *)
Lemma fields_last line init w :
  Py.fields line = (init ++ [w])%list -> PyStr.endswith_nl w = false.
Proof.
  intros H. destruct (decide (w = "")) as [->|Hw]; [done|].
  rewrite <-(endswith_nl_join (String Py.TAB "") init w Hw), <-H.
  unfold Py.fields. rewrite join_split. apply endswith_nl_rstrip.
Qed.

Lemma formalized_last line :
  let n := Nat.max (length (Py.fields line)) 8 in
  PyStr.endswith_nl (formalized (Py.fields line) (n - 1)) = false.
Proof.
  intros n. unfold formalized. case_decide as H7; [apply fmua_clean|].
  destruct (Py.fields line !! (n - 1)) as [v|] eqn:Hv; [|done].
  case_decide; [done|].
  assert (Hlen : n = length (Py.fields line)).
  { apply lookup_lt_Some in Hv. lia. }
  apply (fields_last line (take (n - 1) (Py.fields line)) v).
  rewrite <-(take_S_r _ _ _ Hv). symmetry. apply take_ge. lia.
Qed.

(** A line [formalizeua.py] wrote, read back as a row; its newline is that
    of the line it was written for. *)
Lemma data_line_fields line :
  Py.fields (data_line line)
  = map (formalized (Py.fields line)) (seq 0 (Nat.max (length (Py.fields line)) 8))
  /\ PyStr.endswith_nl (data_line line) = PyStr.endswith_nl line.
Proof.
  set (n := Nat.max (length (Py.fields line)) 8).
  set (N := map (formalized (Py.fields line)) (seq 0 n)).
  assert (HN : N = (map (formalized (Py.fields line)) (seq 0 (n - 1))
                    ++ [formalized (Py.fields line) (n - 1)])%list).
  { subst N. replace n with (S (n - 1)) at 1 by lia. by rewrite seq_S, map_app. }
  assert (Hclean : forall w, w ∈ N -> w <> "" /\ occurs Py.TAB w = false).
  { intros w Hw. apply list_elem_of_fmap in Hw as (i & -> & _). apply formalized_clean. }
  assert (Hend : PyStr.endswith_nl (Py.join (String Py.TAB "") N) = false).
  { rewrite HN, endswith_nl_join;
      [exact (formalized_last line) | apply (proj1 (formalized_clean line (n - 1)))]. }
  assert (HNne : N <> []).
  { rewrite HN. intros H. apply app_eq_nil in H as [_ H]. discriminate. }
  split.
  - rewrite data_line_row. fold n. fold N. unfold Py.fields.
    destruct (PyStr.endswith_nl line).
    + rewrite rstrip_nl_newline by done. apply split_join; [done|].
      intros w Hw. by apply Hclean.
    + rewrite str_app_nil, rstrip_nl_id by done.
      apply split_join; [done|].
      intros w Hw. by apply Hclean.
  - rewrite data_line_row. fold n. fold N. destruct (PyStr.endswith_nl line).
    + rewrite endswith_nl_app_cons. reflexivity.
    + by rewrite str_app_nil.
Qed.

(** X2: what [formalizeua.py] writes for a data line, read back as a row: as
    many fields as the line had, at least 8; in field 7 the signature of the
    lower-cased user agent; elsewhere the field of the line, [null] where it
    was empty or missing; no field is empty, and the newline at the end is
    kept as it was. *)
Theorem formalizeua_row line :
  Py.fields (data_line line)
  = map (formalized (Py.fields line)) (seq 0 (Nat.max (length (Py.fields line)) 8))
  /\ length (Py.fields (data_line line)) = Nat.max (length (Py.fields line)) 8
  /\ (forall w, w ∈ Py.fields (data_line line) -> w <> "")
  /\ PyStr.endswith_nl (data_line line) = PyStr.endswith_nl line.
Proof.
  destruct (data_line_fields line) as [Hf Hnl].
  split; [done|]. split; [by rewrite Hf, length_map, length_seq|]. split; [|done].
  intros w Hw. rewrite Hf in Hw.
  apply list_elem_of_fmap in Hw as (i & -> & _). apply formalized_clean.
Qed.

(** X3: [formalizeua.py] is idempotent: a line it wrote is written again
    unchanged, and so is a whole file. *)
Theorem formalizeua_idempotent :
  (forall line, data_line (data_line line) = data_line line)
  /\ (forall lines out, process_file lines = Ok out -> process_file out = Ok out).
Proof.
  assert (H : forall line, data_line (data_line line) = data_line line).
  { intros line. destruct (data_line_fields line) as (Hf & Hnl).
    rewrite (data_line_row (data_line line)), Hnl, Hf, (data_line_row line).
    f_equal. f_equal.
    set (n := Nat.max (length (Py.fields line)) 8).
    rewrite length_map, length_seq. replace (Nat.max n 8) with n by lia.
    apply map_ext_in. intros i Hi. apply in_seq in Hi.
    unfold formalized at 1. rewrite !list_lookup_fmap, !lookup_seq_lt by lia. simpl.
    case_decide as H7.
    - subst i. unfold formalized at 1. rewrite decide_True by done.
      apply fmua_fixed.
    - rewrite decide_False; [done|]. apply formalized_clean. }
  split; [done|]. intros lines out. unfold process_file.
  destruct lines as [|header rows]; [by intros [= <-]|].
  destruct (Py.len (Py.strip header) =? 0) eqn:Hh; [done|]. intros [= <-].
  rewrite Hh. do 2 f_equal. rewrite map_map. apply map_ext. intros line. apply H.
Qed.

End Formalize.

(** ** The assembled file *)

Section Assembled.
Import Timestamp.

Lemma occurs_slice c i j s : occurs c s = false -> occurs c (Py.slice i j s) = false.
Proof.
  intros H. destruct (occurs c (Py.slice i j s)) eqn:Hs; [|done].
  apply occurs_chars in Hs. unfold Py.slice in Hs. rewrite chars_str in Hs.
  eapply elem_of_sublist in Hs;
    [|etrans; [apply sublist_take | apply sublist_drop]].
  apply occurs_chars in Hs. congruence.
Qed.

Lemma occurs_endswith s : occurs Py.LF s = false -> PyStr.endswith_nl s = false.
Proof.
  intros H. unfold PyStr.endswith_nl.
  destruct (rev (Py.chars s)) as [|c r] eqn:Hr; [done|].
  apply bool_decide_eq_false. intros ->.
  assert (Hin : Py.LF ∈ Py.chars s).
  { apply list_elem_of_In, in_rev. rewrite Hr. apply in_eq. }
  apply occurs_chars in Hin. congruence.
Qed.

Lemma occurs_join c sep l :
  occurs c sep = false -> (forall w, w ∈ l -> occurs c w = false) ->
  occurs c (Py.join sep l) = false.
Proof.
  intros Hsep. induction l as [|w l IH]; intros H; [done|].
  destruct l as [|w' l]; [apply H, list_elem_of_here|].
  change (Py.join sep (w :: w' :: l)) with (w +:+ sep +:+ Py.join sep (w' :: l)).
  rewrite !occurs_app, Hsep, (H w (list_elem_of_here _ _)), IH; [done|].
  intros x Hx. apply H. by apply list_elem_of_further.
Qed.

(** The three fields in front of a line are read back as three fields. *)
Lemma fields_prefixed a b c line :
  occurs Py.TAB a = false -> occurs Py.TAB b = false -> occurs Py.TAB c = false ->
  Py.fields (a +:+ String Py.TAB "" +:+ b +:+ String Py.TAB "" +:+ c
             +:+ String Py.TAB "" +:+ line)
  = a :: b :: c :: Py.fields line.
Proof.
  intros Ha Hb Hc. unfold Py.fields, Py.rstrip_nl.
  rewrite !(str_app_cons Py.TAB "").
  change ("" +:+ b +:+ ?x) with (b +:+ x).
  change ("" +:+ c +:+ ?x) with (c +:+ x).
  change ("" +:+ line) with line.
  rewrite !rstrip_with_app by reflexivity.
  rewrite (split_app_sep _ a), (split_app_sep _ b), (split_app_sep _ c) by done. done.
Qed.

(** What [derive] writes, read back as a row. *)
Lemma derive_fields click ts line_num line text :
  derive click ts line_num line = Write text ->
  occurs Py.TAB click = false -> occurs Py.TAB ts = false ->
  exists weekday hour,
    Py.fields text = click :: weekday :: hour :: Py.fields line
    /\ weekday ∈ ["0"; "1"; "2"; "3"; "4"; "5"; "6"]
    /\ Py.len hour = 2.
Proof.
  unfold derive. destruct (Py.len ts <? 8); [done|].
  destruct (weekday_hour ts) as [[weekday hour]|e] eqn:Hw; [|done].
  intros [= <-] Hclick Hts.
  pose proof (weekday_hour_hour _ _ _ Hw) as Hhour.
  assert (Hday : Py.str_int weekday ∈ ["0"; "1"; "2"; "3"; "4"; "5"; "6"]).
  { unfold weekday_hour in Hw.
    destruct (int_of (Py.slice 0 4 ts)); [|done].
    destruct (int_of (Py.slice 4 6 ts)); [|done].
    destruct (int_of (Py.slice 6 8 ts)); [|done].
    destruct (Py.mkdate _ _ _) as [d|]; [|done].
    injection Hw as <- _. apply weekday_text. }
  exists (Py.str_int weekday), hour. split; [|split; [done|]].
  - apply fields_prefixed; [done | |].
    + assert (forallb (fun w => negb (occurs Py.TAB w))
                ["0"; "1"; "2"; "3"; "4"; "5"; "6"] = true) as Hall by reflexivity.
      rewrite forallb_forall in Hall. apply list_elem_of_In, Hall in Hday.
      by apply negb_true_iff in Hday.
    + rewrite Hhour. destruct (10 <? Py.len ts); [by apply occurs_slice | done].
  - rewrite Hhour. destruct (Nat.ltb_spec 10 (Py.len ts)) as [Hlen|Hlen]; [|done].
    unfold Py.slice. rewrite len_str, length_take, length_drop.
    assert (Py.len ts = length (Py.chars ts)) as <-; [|lia].
    by rewrite <-(str_chars ts) at 1; rewrite len_str.
Qed.

(** The header line, read back as a row. *)
Lemma header_fields schema :
  schema <> [] -> (forall name, name ∈ schema -> plain name) ->
  Py.fields (header schema) = "click" :: "weekday" :: "hour" :: schema.
Proof.
  intros Hne Hplain. unfold header.
  assert (Hlf : occurs Py.LF (Py.join (String Py.TAB "") schema) = false).
  { apply occurs_join; [done|]. intros name Hn. by apply Hplain. }
  rewrite fields_prefixed by done.
  unfold Py.fields. rewrite rstrip_nl_newline by (by apply occurs_endswith).
  rewrite split_join; [done | done |]. intros name Hn. by apply Hplain.
Qed.

(** X4: the rows of the assembled file line up with its header. For a schema
    of plain names the header reads back as [click], [weekday], [hour] and
    the schema; a row that [mkdata.py] or [mktest.py] writes reads back as a
    label 0 or 1, a weekday from 0 to 6, an hour of two characters and then
    the fields of the input line, unchanged and in order. *)
Theorem assembled_columns schema :
  schema <> [] -> (forall name, name ∈ schema -> plain name) ->
  Py.fields (header schema) = "click" :: "weekday" :: "hour" :: schema
  /\ (forall ti ci bmap line_num line text,
        Mkdata.process_line ti ci bmap line_num line = Write text ->
        exists click weekday hour,
          Py.fields text = click :: weekday :: hour :: Py.fields line
          /\ click ∈ ["0"; "1"]
          /\ weekday ∈ ["0"; "1"; "2"; "3"; "4"; "5"; "6"]
          /\ Py.len hour = 2)
  /\ (forall ti line_num line text,
        Mktest.process_line ti line_num line = Write text ->
        exists click weekday hour,
          Py.fields text = click :: weekday :: hour :: Py.fields line
          /\ click ∈ ["0"; "1"]
          /\ weekday ∈ ["0"; "1"; "2"; "3"; "4"; "5"; "6"]
          /\ Py.len hour = 2).
Proof.
  intros Hne Hplain. split; [|split].
  - by apply header_fields.
  - intros ti ci bmap line_num line text. unfold Mkdata.process_line.
    destruct (length (Py.fields line) <=? Nat.max ti ci); [done|].
    destruct (Mkdata.bid _ _); [|done].
    destruct (Py.fields line !! ti) as [ts|] eqn:Hts; [|done].
    intros Hd. apply derive_fields in Hd as (weekday & hour & Hf & Hw & Hh).
    + eexists _, weekday, hour. split; [exact Hf|]. split; [|done].
      case_decide; [apply list_elem_of_further, list_elem_of_here | apply list_elem_of_here].
    + by case_decide.
    + apply (split_fields Py.TAB (Py.rstrip_nl line)). by eapply list_elem_of_lookup_2.
  - intros ti line_num line text. unfold Mktest.process_line.
    destruct (length (Py.fields line) <? 2); [done|].
    destruct (length (Py.fields line) <=? ti); [done|].
    destruct (Py.fields line !! ti) as [ts|] eqn:Hts; [|done].
    intros Hd. apply derive_fields in Hd as (weekday & hour & Hf & Hw & Hh).
    + eexists _, weekday, hour. split; [exact Hf|]. split; [|done].
      unfold Mktest.click_of.
      destruct (_ && _); [apply list_elem_of_here | apply list_elem_of_further, list_elem_of_here].
    + unfold Mktest.click_of. by destruct (_ && _).
    + apply (split_fields Py.TAB (Py.rstrip_nl line)). by eapply list_elem_of_lookup_2.
Qed.

Lemma assembled_columns_witness :
  Py.fields (Timestamp.header Sample.schema)
  = "click" :: "weekday" :: "hour" :: Sample.schema.
Proof.
  destruct (assembled_columns Sample.schema) as [H _]; [done | | exact H].
  intros name Hn. apply list_elem_of_In in Hn.
  assert (Hall : forallb (fun n => negb (occurs Py.TAB n) && negb (occurs Py.LF n))
                   Sample.schema = true) by (vm_compute; reflexivity).
  rewrite forallb_forall in Hall. apply Hall, andb_true_iff in Hn as [H1 H2].
  split; by apply negb_true_iff.
Defined.

End Assembled.

Section PartialOutput.
Import Timestamp.
Variable body : nat -> string -> outcome.

(** The loop writes the rows of the lines before the first one that raises,
    all rows if none does. *)
Lemma run_written_prefix n lines :
  exists k,
    k <= length lines
    /\ (run body n lines).1 = written body n (take k lines)
    /\ (forall j l, j < k -> lines !! j = Some l -> forall e, body (n + j) l <> Fail e)
    /\ match (run body n lines).2 with
       | None => k = length lines
       | Some err => exists line, lines !! k = Some line /\ body (n + k) line = Fail err
       end.
Proof.
  revert n. induction lines as [|l lines IH]; intros n.
  - exists 0. simpl. repeat split; [lia | intros; lia].
  - destruct (IH (S n)) as (k & Hk & Hout & Hbefore & Hend). simpl.
    destruct (body n l) as [|text|err] eqn:Hb.
    + exists (S k). simpl. rewrite Hb. split; [lia|]. split; [done|]. split.
      * intros j l' Hj Hl e. destruct j as [|j]; simpl in Hl.
        -- injection Hl as <-. rewrite Nat.add_0_r, Hb. done.
        -- replace (n + S j) with (S n + j) by lia. apply (Hbefore j l'); [lia | done].
      * destruct (run body (S n) lines).2; [|lia].
        destruct Hend as (line & Hl & Hf). exists line. split; [done|].
        by replace (n + S k) with (S n + k) by lia.
    + exists (S k). simpl. rewrite Hb.
      destruct (run body (S n) lines) as [out e] eqn:Hr. simpl in *.
      split; [lia|]. split; [by rewrite Hout|]. split.
      * intros j l' Hj Hl e'. destruct j as [|j]; simpl in Hl.
        -- injection Hl as <-. rewrite Nat.add_0_r, Hb. done.
        -- replace (n + S j) with (S n + j) by lia. apply (Hbefore j l'); [lia | done].
      * destruct e; [|lia].
        destruct Hend as (line & Hl & Hf). exists line. split; [done|].
        by replace (n + S k) with (S n + k) by lia.
    + exists 0. simpl. split; [lia|]. split; [done|]. split; [intros; lia|].
      exists l. split; [done|]. by rewrite Nat.add_0_r.
Qed.

End PartialOutput.

Section Joined.
Import Timestamp Mkdata.

(** X5: what [mkdata.process_data] has written when it ends: the header, then
    in input order one row for each line before the first line that raises,
    skipped lines apart; when no line raises these are the rows of the whole
    input and no error is returned, otherwise the error is that of the first
    line that raises and nothing of the lines after it is written. *)
Theorem process_data_output schema bmap fi ti ci :
  index schema "timestamp" = Some ti -> index schema "creative" = Some ci ->
  exists k,
    k <= length fi
    /\ (process_data schema bmap fi).1
       = header schema :: written (process_line ti ci bmap) 1 (take k fi)
    /\ (forall j l, j < k -> fi !! j = Some l ->
                    forall e, process_line ti ci bmap (S j) l <> Fail e)
    /\ match (process_data schema bmap fi).2 with
       | None => k = length fi
       | Some err =>
           exists line, fi !! k = Some line
                        /\ process_line ti ci bmap (S k) line = Fail err
       end.
Proof.
  intros Hti Hci. unfold process_data. rewrite Hti, Hci.
  destruct (run_written_prefix (process_line ti ci bmap) 1 fi) as (k & Hk & Hout & Hb & He).
  exists k. destruct (run _ 1 fi) as [out e]. simpl in *.
  split; [done|]. split; [by rewrite Hout|]. split; [done|]. done.
Qed.

Lemma process_data_output_witness :
  exists k,
    k <= length Sample.impressions
    /\ (Mkdata.process_data Sample.schema Sample.bmap Sample.impressions).1
       = Timestamp.header Sample.schema
         :: written (Mkdata.process_line 1 18 Sample.bmap) 1 (take k Sample.impressions)
    /\ (forall j l, j < k -> Sample.impressions !! j = Some l ->
                    forall e, Mkdata.process_line 1 18 Sample.bmap (S j) l
                              <> Timestamp.Fail e)
    /\ match (Mkdata.process_data Sample.schema Sample.bmap Sample.impressions).2 with
       | None => k = length Sample.impressions
       | Some err =>
           exists line, Sample.impressions !! k = Some line
                        /\ Mkdata.process_line 1 18 Sample.bmap (S k) line
                           = Timestamp.Fail err
       end.
Proof.
  apply (process_data_output Sample.schema Sample.bmap Sample.impressions 1 18).
  - vm_compute. reflexivity.
  - vm_compute. reflexivity.
Defined.

Lemma click_dom_label ti ci (b b' : gmap string nat) line_num line :
  dom b = dom b' -> process_line ti ci b line_num line = process_line ti ci b' line_num line.
Proof.
  intros Hdom. unfold process_line.
  destruct (length (Py.fields line) <=? Nat.max ti ci); [done|].
  destruct (bid (Py.fields line) ci) as [key|]; [|done].
  destruct (Py.fields line !! ti) as [ts|]; [|done].
  assert (is_Some (b !! key) <-> is_Some (b' !! key)) as Hiff.
  { by rewrite <-!elem_of_dom, Hdom. }
  destruct (decide (is_Some (b !! key))), (decide (is_Some (b' !! key))); try done.
  - by destruct n; apply Hiff.
  - by destruct n; apply Hiff.
Qed.

Lemma run_ext body body' n lines :
  (forall k line, body k line = body' k line) -> run body n lines = run body' n lines.
Proof.
  intros H. revert n. induction lines as [|l lines IH]; intros n; simpl; [done|].
  by rewrite H, IH.
Qed.

Lemma in_click_logs_app files1 files2 ci key :
  in_click_logs (files1 ++ files2) ci key <->
  in_click_logs files1 ci key \/ in_click_logs files2 ci key.
Proof.
  unfold in_click_logs. split.
  - intros (file & line & Hf & H). apply elem_of_app in Hf as [Hf|Hf];
      [left | right]; by exists file, line.
  - intros [(file & line & Hf & H)|(file & line & Hf & H)]; exists file, line;
      (split; [apply elem_of_app; auto | done]).
Qed.

(** X6: the click files of a round are united: the keys of the click map of
    several files are the keys of the maps of the parts, and neither the
    order of the files nor a file given twice changes the keys, nor any row
    [process_data] writes. *)
Theorem click_files_united files1 files2 (ci : nat) b1 b2 b12 b21 :
  build_click_map files1 (Z.of_nat ci) = Ok b1 ->
  build_click_map files2 (Z.of_nat ci) = Ok b2 ->
  build_click_map (files1 ++ files2) (Z.of_nat ci) = Ok b12 ->
  build_click_map (files2 ++ files1 ++ files2) (Z.of_nat ci) = Ok b21 ->
  dom b12 = dom b1 ∪ dom b2
  /\ dom b21 = dom b12
  /\ forall schema fi, process_data schema b21 fi = process_data schema b12 fi.
Proof.
  intros H1 H2 H12 H21.
  assert (Hd12 : dom b12 = dom b1 ∪ dom b2).
  { apply set_eq. intros key. rewrite elem_of_union, !elem_of_dom.
    rewrite (build_click_map_keys _ _ _ key H1), (build_click_map_keys _ _ _ key H2),
      (build_click_map_keys _ _ _ key H12). apply in_click_logs_app. }
  assert (Hd21 : dom b21 = dom b12).
  { apply set_eq. intros key. rewrite !elem_of_dom.
    rewrite (build_click_map_keys _ _ _ key H12), (build_click_map_keys _ _ _ key H21).
    rewrite !in_click_logs_app. tauto. }
  split; [done|]. split; [done|]. intros schema fi. unfold process_data.
  destruct (index schema "timestamp") as [ti|]; [|done].
  destruct (index schema "creative") as [ci'|]; [|done].
  rewrite (run_ext (process_line ti ci' b21) (process_line ti ci' b12)); [done|].
  intros k line. by apply click_dom_label.
Qed.

Lemma click_files_united_witness :
  dom Fixture.bmap12 = dom Sample.bmap ∪ dom Fixture.bmap2
  /\ dom Fixture.bmap21 = dom Fixture.bmap12
  /\ forall schema fi,
       Mkdata.process_data schema Fixture.bmap21 fi
       = Mkdata.process_data schema Fixture.bmap12 fi.
Proof.
  apply (click_files_united Sample.clicks Fixture.clicks2 18).
  - unfold Sample.bmap. change (Z.of_nat 18) with 18%Z.
    apply ok_or_Ok. vm_compute. reflexivity.
  - unfold Fixture.bmap2. change (Z.of_nat 18) with 18%Z.
    apply ok_or_Ok. vm_compute. reflexivity.
  - unfold Fixture.bmap12. change (Z.of_nat 18) with 18%Z.
    apply ok_or_Ok. vm_compute. reflexivity.
  - unfold Fixture.bmap21. change (Z.of_nat 18) with 18%Z.
    apply ok_or_Ok. vm_compute. reflexivity.
Defined.

End Joined.

Section TestSchema.
Import Timestamp.

Lemma index_app schema more name :
  index (schema ++ more) name
  = match index schema name with
    | Some i => Some i
    | None => (fun i => length schema + i) <$> index more name
    end.
Proof.
  induction schema as [|c schema IH]; simpl.
  - by destruct (index more name).
  - case_decide; [done|]. rewrite IH.
    destruct (index schema name); [done|]. by destruct (index more name).
Qed.

Lemma index_None schema name : name ∉ schema -> index schema name = None.
Proof.
  induction schema as [|c schema IH]; [done|]. intros H.
  apply not_elem_of_cons in H as [Hne H]. simpl.
  case_decide; [congruence|]. by rewrite IH.
Qed.

(** X7: the schema of the test logs. Appending [nclick] and [nconversation]
    moves no column of the schema, and for a row with as many fields as the
    extended schema has columns the field [mktest.py] takes the label from,
    the last but one, is the [nclick] column. *)
Theorem test_schema_columns schema arr :
  "nclick" ∉ schema ->
  length arr = length (Mktest.extend schema) ->
  (forall name i, index schema name = Some i -> index (Mktest.extend schema) name = Some i)
  /\ index (Mktest.extend schema) "nclick" = Some (length schema)
  /\ Mktest.second_to_last arr = arr !! length schema
  /\ Mktest.click_of arr
     = if decide (arr !! length schema = Some "0") then "0" else "1".
Proof.
  intros Hn Hlen. unfold Mktest.extend in *. rewrite length_app in Hlen. simpl in Hlen.
  assert (H2 : Mktest.second_to_last arr = arr !! length schema).
  { unfold Mktest.second_to_last.
    replace (length arr <? 2) with false by (symmetry; apply Nat.ltb_ge; lia).
    f_equal. lia. }
  split; [|split; [|split; [done|]]].
  - intros name i Hi. by rewrite index_app, Hi.
  - rewrite index_app, index_None by done. simpl. f_equal. lia.
  - rewrite mktest_click, H2. done.
Qed.

Lemma test_schema_columns_witness :
  Timestamp.index (Mktest.extend Sample.schema) "nclick" = Some (length Sample.schema)
  /\ Mktest.second_to_last Fixture.test_arr = Fixture.test_arr !! length Sample.schema
  /\ Mktest.click_of Fixture.test_arr = "0".
Proof.
  destruct (test_schema_columns Sample.schema Fixture.test_arr) as (_ & H1 & H2 & H3).
  - unfold Sample.schema. rewrite list_elem_of_In. simpl. intuition discriminate.
  - vm_compute. reflexivity.
  - split; [exact H1|]. split; [exact H2|]. rewrite H3.
    apply decide_True. vm_compute. reflexivity.
Defined.

End TestSchema.

(** ** More on the vocabulary *)

Section IndexFile.
Import Mkyzx.

Lemma sorted_by_id_ranked (d : list (string * nat)) a :
  Dict.values d = seq a (length d) -> sorted_by_id d = d.
Proof.
  revert a. induction d as [|[k v] d IH]; intros a; [done|].
  simpl. intros [= -> Hv]. unfold sorted_by_id in *. simpl.
  rewrite (IH (S a) Hv). destruct d as [|[k' v'] d]; [done|].
  simpl in Hv. injection Hv as -> _. simpl.
  by replace (S a <? a) with false by (symmetry; apply Nat.ltb_ge; lia).
Qed.

Lemma ranked_lookup (d : list (string * nat)) a i key id :
  Dict.values d = seq a (length d) -> d !! i = Some (key, id) -> id = a + i.
Proof.
  intros Hv Hi.
  assert (Dict.values d !! i = Some id) as H.
  { unfold Dict.values. change (map snd d) with (snd <$> d).
    by rewrite list_lookup_fmap, Hi. }
  rewrite Hv in H. apply lookup_seq in H as [-> _]. done.
Qed.

Lemma write_nonempty (d : list (string * nat)) :
  d <> [] ->
  write_feature_index d
  = Ok (map (fun fv => fst fv +:+ String Py.TAB "" +:+ Py.str_nat (snd fv)
                       +:+ String Py.LF "") (sorted_by_id d)).
Proof. by destruct d. Qed.

Lemma feature_index_lines_aux lines nc fi :
  build_feature_index lines = Ok (nc, fi) ->
  Dict.values fi = seq 0 (length fi) /\ exists rest, fi = ("truncate", 0) :: rest.
Proof.
  intros Hb.
  apply build_feature_index_Ok in Hb
    as (header & rows & st & -> & -> & -> & -> & (_ & Hv & _) & Hg).
  split; [done|]. destruct Hg as [_ (ext & -> & _)].
  destruct (after_header_index header) as [-> _]. by eexists.
Qed.

(** X8: the index file of a vocabulary. For the index [build_feature_index]
    returns, [write_feature_index] does not raise and writes one line for
    each key, in the order the keys were first seen: line [i], counted from
    0, is the key of rank [i], a tab and the number [i]; the first line is
    that of [truncate]. *)
Theorem write_feature_index_lines lines nc fi :
  build_feature_index lines = Ok (nc, fi) ->
  exists out,
    write_feature_index fi = Ok out
    /\ length out = length fi
    /\ out !! 0 = Some ("truncate" +:+ String Py.TAB "" +:+ "0" +:+ String Py.LF "")
    /\ forall i key id,
         fi !! i = Some (key, id) ->
         id = i
         /\ out !! i = Some (key +:+ String Py.TAB "" +:+ Py.str_nat i +:+ String Py.LF "").
Proof.
  intros Hb.
  destruct (feature_index_lines_aux lines nc fi Hb) as (Hv & rest & Hfi).
  rewrite write_nonempty by (by rewrite Hfi).
  rewrite (sorted_by_id_ranked fi 0 Hv).
  eexists. split; [done|]. split; [by rewrite length_map|].
  split; [by rewrite Hfi|].
  intros i key id Hi. pose proof (ranked_lookup fi 0 i key id Hv Hi) as ->.
  split; [done|].
  change (map ?f fi) with (f <$> fi). rewrite list_lookup_fmap.
  unfold Dict.t in *. by rewrite Hi.
Qed.

Lemma write_feature_index_lines_witness :
  exists out,
    Mkyzx.write_feature_index Sample.featindex = Ok out
    /\ length out = length Sample.featindex
    /\ out !! 0 = Some ("truncate" +:+ String Py.TAB "" +:+ "0" +:+ String Py.LF "")
    /\ forall i key id, Sample.featindex !! i = Some (key, id) ->
         id = i
         /\ out !! i
            = Some (key +:+ String Py.TAB "" +:+ Py.str_nat i +:+ String Py.LF "").
Proof.
  apply (write_feature_index_lines Sample.train Sample.namecol Sample.featindex).
  exact sample_built.
Defined.


(** A loop over columns registers the key of every column it meets. *)
Lemma row_f1s_registered s l st f col content :
  (forall x, x ∈ l -> x ∈ F1S) -> f ∈ l -> well_numbered st ->
  namecol st !! f = Some col -> s !! col = Some content ->
  is_Some (Dict.get (featindex (foldl (row_f1s s) st l)) (feat_key col content)).
Proof.
  revert st. induction l as [|x l IH]; intros st Hsub Hf Hwn Hcol Hc.
  - by apply elem_of_nil in Hf.
  - simpl.
    destruct (registering_row_f1s s x (Hsub x (list_elem_of_here _ _)) st Hwn) as [Hwn' Hg].
    apply elem_of_cons in Hf as [->|Hf].
    + destruct (registering_foldl (row_f1s s) l
                  (fun y Hy => registering_row_f1s s y
                                 (Hsub y (list_elem_of_further _ _ _ Hy)))
                  _ Hwn') as [_ Hg'].
      cut (is_Some (Dict.get (featindex (row_f1s s st x)) (feat_key col content))).
      { intros [v Hv]. exists v. by eapply grows_get. }
      unfold row_f1s. rewrite Hcol, Hc.
      apply register_spec; [done|].
      exists x, col, content. split; [|done].
      unfold columns. apply elem_of_app. left. apply Hsub, list_elem_of_here.
    + apply IH; try done.
      * intros y Hy. apply Hsub. by apply list_elem_of_further.
      * destruct Hg as [-> _]. done.
Qed.

Lemma row_f1sp_registered s l st f col content :
  (forall x, x ∈ l -> x ∈ F1SP) -> f ∈ l -> well_numbered st ->
  namecol st !! f = Some col -> s !! col = Some content ->
  is_Some (Dict.get (featindex (foldl (row_f1sp s) st l))
             (feat_key col (feat_trans f content))).
Proof.
  revert st. induction l as [|x l IH]; intros st Hsub Hf Hwn Hcol Hc.
  - by apply elem_of_nil in Hf.
  - simpl.
    destruct (registering_row_f1sp s x (Hsub x (list_elem_of_here _ _)) st Hwn) as [Hwn' Hg].
    apply elem_of_cons in Hf as [->|Hf].
    + destruct (registering_foldl (row_f1sp s) l
                  (fun y Hy => registering_row_f1sp s y
                                 (Hsub y (list_elem_of_further _ _ _ Hy)))
                  _ Hwn') as [_ Hg'].
      cut (is_Some (Dict.get (featindex (row_f1sp s st x))
                      (feat_key col (feat_trans x content)))).
      { intros [v Hv]. exists v. by eapply grows_get. }
      unfold row_f1sp. rewrite Hcol, Hc.
      apply register_spec; [done|].
      exists x, col, (feat_trans x content). split; [|done].
      unfold columns. apply elem_of_app. right. apply elem_of_app. left.
      apply Hsub, list_elem_of_here.
    + apply IH; try done.
      * intros y Hy. apply Hsub. by apply list_elem_of_further.
      * destruct Hg as [-> _]. done.
Qed.

(** One data line registers the keys of its plain and transformed columns. *)
Lemma data_line_registered st line f col content :
  well_numbered st -> namecol st !! f = Some col ->
  Py.fields line !! col = Some content ->
  (f ∈ F1S -> is_Some (Dict.get (featindex (data_line st line)) (feat_key col content)))
  /\ (f ∈ F1SP -> is_Some (Dict.get (featindex (data_line st line))
                             (feat_key col (feat_trans f content)))).
Proof.
  intros Hwn Hcol Hc. unfold data_line.
  destruct (registering_foldl (row_f1s (Py.fields line)) F1S
              (fun f Hf => registering_row_f1s _ f Hf) st Hwn) as [H1 G1].
  destruct (registering_foldl (row_f1sp (Py.fields line)) F1SP
              (fun f Hf => registering_row_f1sp _ f Hf) _ H1) as [H2 G2].
  destruct (registering_row_usertag (Py.fields line) _ H2) as [H3 G3].
  split.
  - intros Hf.
    destruct (row_f1s_registered (Py.fields line) F1S st f col content) as [v Hv];
      try done.
    exists v. eapply grows_get; [exact G3|]. eapply grows_get; [exact G2|]. done.
  - intros Hf.
    destruct (row_f1sp_registered (Py.fields line) F1SP
                (foldl (row_f1s (Py.fields line)) st F1S) f col content) as [v Hv];
      try done.
    { destruct G1 as [-> _]. done. }
    exists v. eapply grows_get; [exact G3|]. done.
Qed.

Lemma data_lines_registered rows st line f col content :
  well_numbered st -> namecol st !! f = Some col -> line ∈ rows ->
  Py.fields line !! col = Some content ->
  (f ∈ F1S ->
   is_Some (Dict.get (featindex (foldl data_line st rows)) (feat_key col content)))
  /\ (f ∈ F1SP ->
      is_Some (Dict.get (featindex (foldl data_line st rows))
                 (feat_key col (feat_trans f content)))).
Proof.
  revert st. induction rows as [|row rows IH]; intros st Hwn Hcol Hin Hc.
  - by apply elem_of_nil in Hin.
  - simpl. destruct (registering_data_line row st Hwn) as [Hwn' Hg'].
    apply elem_of_cons in Hin as [->|Hin].
    + destruct (registering_data_lines rows _ Hwn') as [_ Hg].
      destruct (data_line_registered st row f col content Hwn Hcol Hc) as [Ha Hb].
      split; intros Hf.
      * destruct (Ha Hf) as [v Hv]. exists v. by eapply grows_get.
      * destruct (Hb Hf) as [v Hv]. exists v. by eapply grows_get.
    + apply IH; try done. destruct Hg' as [-> _]. done.
Qed.

Lemma emit_seen fi col content id :
  Dict.get fi (feat_key col content) = Some id ->
  emit fi col content = " " +:+ Py.str_nat id +:+ ":1".
Proof.
  intros H. unfold emit.
  replace (Dict.mem fi (feat_key col content)) with true
    by (symmetry; apply mem_get; by eexists).
  by rewrite H.
Qed.

(** X9: encoding the training file with its own index never falls back.
    [index_file] writes a line for each row of the training file that has 24
    fields or more, and none for a shorter row; and in the line of a row the
    text written for the value of a plain column, for the transformed value
    of a transformed column and for each tag of the usertag column is the
    pair of the id of that value's own key. *)
Theorem training_rows_own_keys lines nc fi :
  build_feature_index lines = Ok (nc, fi) ->
  exists out,
    index_file nc fi lines = Ok out
    /\ (forall row, row ∈ out <->
          exists line, line ∈ tail lines /\ 24 <= length (Py.fields line)
            /\ row = default "" (Py.fields line !! 0) +:+ " "
                      +:+ default "0" (Py.fields line !! 23)
                      +:+ " " +:+ Py.str_nat 0 +:+ ":1"
                      +:+ Py.join "" (map (index_f1s nc fi (Py.fields line)) F1S)
                      +:+ Py.join "" (map (index_f1sp nc fi (Py.fields line)) F1SP)
                      +:+ index_usertag nc fi (Py.fields line) +:+ String Py.LF "")
    /\ (forall line f col content,
          line ∈ tail lines -> nc !! f = Some col ->
          Py.fields line !! col = Some content ->
          (f ∈ F1S ->
           exists id, Dict.get fi (feat_key col content) = Some id
                      /\ index_f1s nc fi (Py.fields line) f
                         = " " +:+ Py.str_nat id +:+ ":1")
          /\ (f ∈ F1SP ->
              exists id, Dict.get fi (feat_key col (feat_trans f content)) = Some id
                         /\ index_f1sp nc fi (Py.fields line) f
                            = " " +:+ Py.str_nat id +:+ ":1")
          /\ (f = "usertag" ->
              index_usertag nc fi (Py.fields line)
              = Py.join "" (map (emit fi col) (get_tags content))
              /\ forall tag, tag ∈ get_tags content ->
                   exists id, Dict.get fi (feat_key col tag) = Some id
                              /\ emit fi col tag = " " +:+ Py.str_nat id +:+ ":1")).
Proof.
  intros Hb.
  destruct (feature_index_lines_aux lines nc fi Hb) as (_ & rest & Hfi).
  assert (Ht : Dict.get fi "truncate" = Some 0) by (by rewrite Hfi).
  assert (Hi : index_file nc fi lines = Ok (omap (index_line nc fi 0) (tail lines)))
    by (unfold index_file; by rewrite Ht).
  eexists. split; [exact Hi|]. split.
  - destruct (index_file_rows _ _ _ _ Hi) as (index & Hindex & Hrows).
    rewrite Ht in Hindex. injection Hindex as <-. intros row. rewrite Hrows.
    unfold index_columns.
    split; intros (line & Hin & Hlen & ->); exists line; (split; [done|]);
      (split; [done|]); by rewrite !str_app_assoc.
  - intros line f col content Hin Hcol Hc.
    apply build_feature_index_Ok in Hb
      as (header & rows & st & -> & -> & -> & -> & Hwn & Hg).
    simpl in Hin.
    destruct (data_lines_registered rows (after_header header) line f col content)
      as [Ha Hb]; try done; [apply after_header_well_numbered|].
    split; [|split].
    + intros Hf. destruct (Ha Hf) as [id Hid]. exists id. split; [done|].
      unfold index_f1s. rewrite Hcol, Hc. by apply emit_seen.
    + intros Hf. destruct (Hb Hf) as [id Hid]. exists id. split; [done|].
      unfold index_f1sp. rewrite Hcol, Hc. by apply emit_seen.
    + intros ->. split; [unfold index_usertag; by rewrite Hcol, Hc|].
      intros tag Htag.
      destruct (data_lines_tags col rows (after_header header) line content tag)
        as [id Hid]; try done; [apply after_header_well_numbered|].
      exists id. split; [done | by apply emit_seen].
Qed.

Lemma training_rows_own_keys_witness :
  exists out,
    Mkyzx.index_file Sample.namecol Sample.featindex Sample.train = Ok out
    /\ exists id,
         Dict.get Sample.featindex (Mkyzx.feat_key 1 "6") = Some id
         /\ Mkyzx.index_f1s Sample.namecol Sample.featindex (Py.fields Sample.train_row1)
              "weekday"
            = " " +:+ Py.str_nat id +:+ ":1".
Proof.
  destruct (training_rows_own_keys Sample.train Sample.namecol Sample.featindex)
    as (out & Hout & _ & H).
  - exact sample_built.
  - exists out. split; [exact Hout|].
    destruct (H Sample.train_row1 "weekday" 1 "6") as [Hw _].
    + simpl. apply list_elem_of_here.
    + vm_compute. reflexivity.
    + vm_compute. reflexivity.
    + apply Hw. vm_compute. apply list_elem_of_here.
Defined.

Lemma ranked_get_lt (d : list (string * nat)) k id :
  Dict.values d = seq 0 (length d) -> Dict.get d k = Some id -> id < length d.
Proof.
  intros Hv Hg. apply get_Some_elem in Hg.
  apply list_elem_of_lookup in Hg as [i Hi].
  pose proof (ranked_lookup d 0 i k id Hv Hi) as ->.
  apply lookup_lt_Some in Hi. lia.
Qed.

(** X10: every id [index_file] writes is an id of the vocabulary: for the
    index [build_feature_index] returns, what is written for a column value
    is nothing or the pair of an id below the size of the index, and so is
    the truncate pair. *)
Theorem encoded_ids_below_size lines nc fi :
  build_feature_index lines = Ok (nc, fi) ->
  (exists id, Dict.get fi "truncate" = Some id /\ id < length fi)
  /\ forall col content,
       emit fi col content = ""
       \/ exists id, id < length fi
                     /\ emit fi col content = " " +:+ Py.str_nat id +:+ ":1".
Proof.
  intros Hb. destruct (feature_index_lines_aux lines nc fi Hb) as (Hv & rest & Hfi).
  split.
  - exists 0. rewrite Hfi. split; [done | simpl; lia].
  - intros col content. unfold emit.
    destruct (Dict.get fi _) as [id|] eqn:Hg; [right | by left].
    exists id. split; [|done]. by eapply ranked_get_lt.
Qed.

Lemma encoded_ids_below_size_witness :
  (exists id, Dict.get Sample.featindex "truncate" = Some id
              /\ id < length Sample.featindex)
  /\ forall col content,
       Mkyzx.emit Sample.featindex col content = ""
       \/ exists id, id < length Sample.featindex
                     /\ Mkyzx.emit Sample.featindex col content
                        = " " +:+ Py.str_nat id +:+ ":1".
Proof.
  apply (encoded_ids_below_size Sample.train Sample.namecol Sample.featindex).
  exact sample_built.
Defined.


End IndexFile.

(** ** The header of the training file *)

Section Header.
Import Mkyzx.

Lemma header_col_namecol i name st :
  namecol (header_col i name st) = <[Py.strip name := i]> (namecol st).
Proof. unfold header_col. by destruct (0 <? i). Qed.

(** A name the loop has met stays known, at its position or at a later one. *)
Lemma header_loop_keeps i cols st f c :
  namecol st !! f = Some c ->
  exists col, namecol (header_loop i cols st) !! f = Some col /\ (col = c \/ i <= col).
Proof.
  revert i st c. induction cols as [|name cols IH]; intros i st c H; simpl.
  - exists c. by split; [|left].
  - destruct (decide (Py.strip name = f)) as [Heq|Hne].
    + destruct (IH (S i) (header_col i name st) i) as (col & Hc & Hcol).
      { rewrite header_col_namecol, Heq. apply lookup_insert_eq. }
      exists col. split; [done|]. right. lia.
    + destruct (IH (S i) (header_col i name st) c) as (col & Hc & Hcol).
      { rewrite header_col_namecol. by rewrite lookup_insert_ne. }
      exists col. split; [done|]. destruct Hcol; [by left | right; lia].
Qed.

Lemma header_loop_known i cols st j name :
  cols !! j = Some name ->
  exists col, namecol (header_loop i cols st) !! Py.strip name = Some col /\ i + j <= col.
Proof.
  revert i st j. induction cols as [|name' cols IH]; intros i st j H; [done|].
  destruct j as [|j]; simpl in *.
  - injection H as ->.
    destruct (header_loop_keeps (S i) cols (header_col i name st) (Py.strip name) i)
      as (col & Hc & Hcol).
    { rewrite header_col_namecol. apply lookup_insert_eq. }
    exists col. split; [done | lia].
  - destruct (IH (S i) (header_col i name' st) j H) as (col & Hc & Hcol).
    exists col. split; [done | lia].
Qed.

Lemma blank_header_false s :
  blank_header s = false <-> exists col, col ∈ s /\ Py.strip col <> "".
Proof.
  unfold blank_header. rewrite negb_false_iff, existsb_exists. split.
  - intros (col & Hin & Hc). exists col. split; [by apply list_elem_of_In|].
    intros E. rewrite E in Hc. done.
  - intros (col & Hin & Hc). exists col. split; [by apply list_elem_of_In|].
    destruct (Py.strip col); [done | reflexivity].
Qed.

(** X11: a column name that occurs more than once in the training header
    resolves to its last position: every header column is known to the
    returned [namecol] under its stripped name, at the largest position
    whose stripped name is the same. *)
Theorem namecol_last_occurrence header rows nc fi j name :
  build_feature_index (header :: rows) = Ok (nc, fi) ->
  Py.fields header !! j = Some name ->
  exists col name',
    nc !! Py.strip name = Some col
    /\ Py.fields header !! col = Some name' /\ Py.strip name' = Py.strip name
    /\ forall j' name'', Py.fields header !! j' = Some name'' ->
                         Py.strip name'' = Py.strip name -> j' <= col.
Proof.
  intros Hb Hj.
  apply build_feature_index_Ok in Hb
    as (header' & rows' & st & [= <- <-] & -> & -> & -> & _ & _).
  destruct (header_loop_known 0 (Py.fields header) initial j name Hj) as (col & Hc & _).
  fold (after_header header) in Hc.
  destruct (after_header_namecol header _ _ Hc) as (name' & Hn & Hs).
  exists col, name'. split; [done|]. split; [done|]. split; [done|].
  intros j' name'' Hj' Hs'.
  destruct (header_loop_known 0 (Py.fields header) initial j' name'' Hj')
    as (col' & Hc' & Hle).
  fold (after_header header) in Hc'. rewrite Hs', Hc in Hc'.
  injection Hc' as <-. lia.
Qed.

Lemma twice_built :
  Mkyzx.build_feature_index (Fixture.twice_header :: Fixture.twice_rows)
  = Ok (Fixture.twice_built.1, Fixture.twice_built.2).
Proof. unfold Fixture.twice_built. apply built_Ok. vm_compute. reflexivity. Qed.

Lemma namecol_last_occurrence_witness :
  exists col name',
    Fixture.twice_built.1 !! Py.strip "region" = Some col
    /\ Py.fields Fixture.twice_header !! col = Some name'
    /\ Py.strip name' = Py.strip "region"
    /\ forall j' name'', Py.fields Fixture.twice_header !! j' = Some name'' ->
                         Py.strip name'' = Py.strip "region" -> j' <= col.
Proof.
  apply (namecol_last_occurrence Fixture.twice_header Fixture.twice_rows
           Fixture.twice_built.1 Fixture.twice_built.2 1 "region").
  - exact twice_built.
  - vm_compute. reflexivity.
Defined.

(** X12: [build_feature_index] fails only on a file without lines and on a
    header line without a name; for every other file it returns the index,
    whatever the data rows hold. The check [if not namecol] at its end fires
    for the file without lines only. *)
Theorem build_feature_index_outcome lines :
  match build_feature_index lines with
  | Ok (nc, fi) =>
      exists header rows name col,
        lines = header :: rows /\ name ∈ Py.fields header /\ Py.strip name <> ""
        /\ nc !! Py.strip name = Some col
  | Raise No_valid_header => lines = []
  | Raise Empty_or_invalid_header =>
      exists header rows,
        lines = header :: rows
        /\ forall name, name ∈ Py.fields header -> Py.strip name = ""
  | Raise Missing_truncate => False
  end.
Proof.
  unfold build_feature_index. destruct lines as [|header rows]; [done|].
  destruct (blank_header (Py.fields header)) eqn:Hblank.
  - exists header, rows. split; [done|]. intros name Hin.
    destruct (decide (Py.strip name = "")) as [|Hne]; [done|].
    assert (blank_header (Py.fields header) = false) as E
      by (apply blank_header_false; by exists name).
    rewrite E in Hblank. done.
  - apply blank_header_false in Hblank as (name & Hin & Hne).
    apply list_elem_of_lookup in Hin as Hj. destruct Hj as [j Hj].
    destruct (header_loop_known 0 (Py.fields header) initial j name Hj) as (col & Hc & _).
    fold (after_header header) in Hc.
    destruct (registering_data_lines rows (after_header header)
                (after_header_well_numbered header)) as [_ [Hnc _]].
    case_decide as Hempty.
    + rewrite Hnc in Hempty. rewrite Hempty in Hc. by rewrite lookup_empty in Hc.
    + exists header, rows, name, col. rewrite Hnc. done.
Qed.

End Header.

(** ** The advertiser files, split again *)

Section Resplit.
Import Splitadvertisers.
Context {file : Type}.
Variable mkdir : path -> option raised.
Variable open_w : path -> result raised file.
Variables (output_folder : path) (name : string).

(** What a run of [split_file_by_advertiser] that ends without an exception
    leaves behind. *)
Lemma split_Ok header rows advertiser_index fs :
  split_file_by_advertiser mkdir open_w output_folder name (header :: rows)
    (Z.of_nat advertiser_index)
  = (fs, None) ->
  Py.len (Py.strip header) <> 0
  /\ (forall a, fs !! a
                = advertiser_file open_w output_folder name advertiser_index header rows a)
  /\ (forall a, encountered advertiser_index rows a ->
                creatable mkdir open_w output_folder name a).
Proof.
  intros Hsplit.
  assert (Hh : Py.len (Py.strip header) <> 0).
  { intros H. unfold split_file_by_advertiser in Hsplit.
    replace (Z.of_nat advertiser_index <? 0)%Z with false in Hsplit
      by (symmetry; apply Z.ltb_ge; lia).
    rewrite H in Hsplit. simpl in Hsplit. congruence. }
  destruct (split_files mkdir open_w output_folder name advertiser_index header rows Hh)
    as [Heq Hrun].
  rewrite Hsplit in Heq. rewrite <-Heq in Hrun. simpl in Hrun. by split.
Qed.

(** A run ends without an exception when every advertiser met can have its
    directory and file. *)
Lemma split_runs header rows advertiser_index :
  Py.len (Py.strip header) <> 0 ->
  (forall a, encountered advertiser_index rows a ->
             creatable mkdir open_w output_folder name a) ->
  exists fs,
    split_file_by_advertiser mkdir open_w output_folder name (header :: rows)
      (Z.of_nat advertiser_index)
    = (fs, None).
Proof.
  intros Hh Hall.
  destruct (split_files mkdir open_w output_folder name advertiser_index header rows Hh)
    as [Heq Hrun].
  destruct (data_lines mkdir open_w output_folder name advertiser_index header ∅ rows)
    as [fs [e|]] eqn:Hd; simpl in Hrun.
  - destruct Hrun as (a & Ha & Hn). destruct Hn. by apply Hall.
  - by exists fs.
Qed.

Lemma filter_carries_other advertiser_index a b (rows : list string) :
  a <> b ->
  filter (carries advertiser_index b) (filter (carries advertiser_index a) rows) = [].
Proof.
  intros Hab. induction rows as [|line rows IH]; [done|].
  rewrite filter_cons. case_decide as Ha; [|done].
  rewrite filter_cons. case_decide as Hb; [|done].
  unfold carries in *. congruence.
Qed.

Lemma filter_carries_same advertiser_index a (rows : list string) :
  filter (carries advertiser_index a) (filter (carries advertiser_index a) rows)
  = filter (carries advertiser_index a) rows.
Proof.
  induction rows as [|line rows IH]; [done|].
  rewrite filter_cons. case_decide as Ha; [|done].
  rewrite filter_cons. rewrite decide_True by done. by rewrite IH.
Qed.

(** X14: when no two advertiser values lead to one file, no row is written
    twice and none is lost. Each handle's file holds what was written through
    it; a row is among the data rows of the file of [a] exactly when it is a
    row of the input whose advertiser field is [a], so two files share no
    data row, and a row of the input is in no file exactly when it has too
    few fields or an empty advertiser field. *)
Theorem split_rows_once header rows advertiser_index fs :
  split_file_by_advertiser mkdir open_w output_folder name (header :: rows)
    (Z.of_nat advertiser_index)
  = (fs, None) ->
  (forall a b ha hb, fs !! a = Some ha -> fs !! b = Some hb -> ha.1 = hb.1 -> a = b) ->
  (forall a f text,
     fs !! a = Some (f, text) ->
     holds fs f text
     /\ forall line, line ∈ tail text <-> line ∈ rows /\ carries advertiser_index a line)
  /\ (forall f f' text text' line,
        holds fs f text -> holds fs f' text' ->
        line ∈ tail text -> line ∈ tail text' -> f = f')
  /\ (forall line,
        line ∈ rows ->
        (forall f text, holds fs f text -> line ∉ tail text)
        <-> (length (Py.fields line) <= advertiser_index
             \/ carries advertiser_index "" line)).
Proof.
  intros Hsplit Hapart. apply split_Ok in Hsplit as (_ & Hfs & Hcreated).
  assert (Hholds : forall a f text, fs !! a = Some (f, text) -> holds fs f text).
  { intros a f text Ha. exists a. split; [done|]. intros b h Hb Hsame.
    by apply (Hapart b a h (f, text)). }
  assert (Hfile : forall a f text line, fs !! a = Some (f, text) ->
            (line ∈ tail text <-> line ∈ rows /\ carries advertiser_index a line)).
  { intros a f text line Ha. rewrite Hfs in Ha.
    apply advertiser_file_Some in Ha as (_ & _ & ->). simpl.
    rewrite list_elem_of_filter. tauto. }
  split; [|split].
  - intros a f text Ha. split; [by eapply Hholds | intros line; by eapply Hfile].
  - intros f f' text text' line (a & Ha & _) (b & Hb & _) Hla Hlb.
    apply (Hfile _ _ _ _ Ha) in Hla as [_ Hla]. apply (Hfile _ _ _ _ Hb) in Hlb as [_ Hlb].
    unfold carries in *. assert (a = b) as -> by congruence. congruence.
  - intros line Hin. split.
    + intros Hnone.
      destruct (Nat.le_gt_cases (length (Py.fields line)) advertiser_index) as [|Hlt];
        [by left | right].
      destruct (lookup_lt_is_Some_2 _ _ Hlt) as [a Ha].
      destruct (decide (a = "")) as [->|Hne]; [done|].
      assert (Hmet : encountered advertiser_index rows a)
        by (split; [done | by exists line]).
      destruct (advertiser_file_met mkdir open_w output_folder name advertiser_index
                  header rows a Hmet (Hcreated a Hmet)) as (f & _ & Hf).
      rewrite <-Hfs in Hf. destruct (Hnone f _ (Hholds _ _ _ Hf)).
      simpl. apply list_elem_of_filter. by split.
    + intros Hskip f text (a & Ha & _) Hl. apply (Hfile _ _ _ _ Ha) in Hl as [_ Hl].
      rewrite Hfs in Ha. apply advertiser_file_Some in Ha as ([Hne _] & _ & _).
      unfold carries in *. destruct Hskip as [Hlen|Hc].
      * rewrite lookup_ge_None_2 in Hl by done. done.
      * congruence.
Qed.

End Resplit.

Section ResplitAgain.
Import Splitadvertisers.
Context {file file' : Type}.
Variable mkdir : path -> option raised.
Variable open_w : path -> result raised file.
Variables (output_folder : path) (name : string).
Variable mkdir' : path -> option raised.
Variable open_w' : path -> result raised file'.
Variables (output_folder' : path) (name' : string).

(** X13: a file [split_file_by_advertiser] has written is a fixed point of
    the split. If the file of advertiser [a] holds what was written through
    the handle of [a], then splitting that file by the same column, into
    another folder in which the directory and the file of [a] can be
    created, ends without an exception and writes that text, unchanged,
    through one handle, that of [a]. *)
Theorem split_again header rows advertiser_index fs a f text f' :
  split_file_by_advertiser mkdir open_w output_folder name (header :: rows)
    (Z.of_nat advertiser_index)
  = (fs, None) ->
  fs !! a = Some (f, text) -> holds fs f text ->
  mkdir' (advertiser_dir output_folder' a) = None ->
  open_w' (output_file output_folder' name' a) = Ok f' ->
  split_file_by_advertiser mkdir' open_w' output_folder' name' text
    (Z.of_nat advertiser_index)
  = ({[a := (f', text)]}, None).
Proof.
  intros Hsplit Ha _ Hmk Hopen. apply split_Ok in Hsplit as (Hh & Hfs & _).
  rewrite Hfs in Ha. apply advertiser_file_Some in Ha as (Hmet & _ & ->).
  set (rows' := filter (carries advertiser_index a) rows).
  assert (Honly : forall b, encountered advertiser_index rows' b -> b = a).
  { intros b [_ (line & Hin & Hc)]. apply list_elem_of_filter in Hin as [Hc' _].
    unfold carries in *. congruence. }
  destruct (split_runs mkdir' open_w' output_folder' name' header rows' advertiser_index Hh)
    as [fs' Hfs'].
  { intros b Hb. apply Honly in Hb as ->. split; [done | by exists f']. }
  rewrite Hfs'. f_equal. apply split_Ok in Hfs' as (_ & Hfs' & _).
  apply map_eq. intros b. rewrite Hfs'. unfold advertiser_file.
  destruct (decide (b = a)) as [->|Hb].
  - rewrite lookup_singleton_eq. unfold rows'. rewrite filter_carries_same, Hopen.
    rewrite decide_True; [done|]. by apply encountered_filter.
  - rewrite lookup_singleton_ne by done. unfold rows'.
    rewrite filter_carries_other by done. rewrite decide_False; [done | by intros [_ ?]].
Qed.

End ResplitAgain.

Section ResplitExamples.

Lemma assembled_split :
  Fixture.split (Timestamp.header Sample.schema :: Fixture.assembled_rows) (Z.of_nat 25)
  = (Fixture.advertiser_files, None).
Proof.
  apply injective_projections; [reflexivity | vm_compute; reflexivity].
Qed.

Lemma assembled_1458 :
  Fixture.advertiser_files !! "1458" = Some (Fixture.file_1458, Fixture.advertiser_1458).
Proof. vm_compute. reflexivity. Qed.

(** In the sample no two advertisers lead to one file. *)
Lemma assembled_apart a b ha hb :
  Fixture.advertiser_files !! a = Some ha -> Fixture.advertiser_files !! b = Some hb ->
  ha.1 = hb.1 -> a = b.
Proof.
  destruct (split_Ok _ _ _ _ _ _ _ _ assembled_split) as (_ & Hfs & _).
  rewrite !Hfs. destruct ha as [fa ta], hb as [fb tb]. intros Ha Hb.
  apply advertiser_file_Some in Ha as (Hma & Hfa & _).
  apply advertiser_file_Some in Hb as (Hmb & Hfb & _).
  injection Hfa as <-. injection Hfb as <-.
  apply assembled_met in Hma as [-> | ->]; apply assembled_met in Hmb as [-> | ->];
    simpl; intros E; first [done | vm_compute in E; discriminate].
Qed.

Lemma split_rows_once_witness :
  holds Fixture.advertiser_files Fixture.file_1458 Fixture.advertiser_1458
  /\ (forall line, line ∈ tail Fixture.advertiser_1458
                   <-> line ∈ Fixture.assembled_rows /\ carries 25 "1458" line).
Proof.
  destruct (split_rows_once Fixture.plain_mkdir Fixture.plain_open Fixture.out
              "train.log.txt" (Timestamp.header Sample.schema) Fixture.assembled_rows 25
              Fixture.advertiser_files) as (H & _).
  - exact assembled_split.
  - exact assembled_apart.
  - apply (H "1458" Fixture.file_1458 Fixture.advertiser_1458). exact assembled_1458.
Defined.

Lemma assembled_holds :
  holds Fixture.advertiser_files Fixture.file_1458 Fixture.advertiser_1458.
Proof.
  exists "1458". split; [exact assembled_1458|]. intros b h Hb Hsame.
  apply (assembled_apart b "1458" h (Fixture.file_1458, Fixture.advertiser_1458));
    [done | exact assembled_1458 | done].
Qed.

Lemma split_again_witness :
  Splitadvertisers.split_file_by_advertiser Fixture.plain_mkdir Fixture.plain_open
    (Splitadvertisers.Path Splitadvertisers.Relative ["again"]) "1458.txt"
    Fixture.advertiser_1458 (Z.of_nat 25)
  = ({["1458" := (Splitadvertisers.Path Splitadvertisers.Relative
                    ["again"; "1458"; "1458.txt"],
                  Fixture.advertiser_1458)]}, None).
Proof.
  apply (split_again Fixture.plain_mkdir Fixture.plain_open Fixture.out "train.log.txt"
           Fixture.plain_mkdir Fixture.plain_open
           (Splitadvertisers.Path Splitadvertisers.Relative ["again"]) "1458.txt"
           (Timestamp.header Sample.schema) Fixture.assembled_rows 25
           Fixture.advertiser_files "1458" Fixture.file_1458 Fixture.advertiser_1458).
  - exact assembled_split.
  - exact assembled_1458.
  - exact assembled_holds.
  - reflexivity.
  - reflexivity.
Defined.

End ResplitExamples.

(** ** Stripped text *)

Section Stripped.


Lemma dropwhile_id p l :
  match l with c :: _ => p c = false | [] => True end -> Py.dropwhile p l = l.
Proof. destruct l as [|c l]; [done|]. apply dropwhile_stop. Qed.

(** A text [strip] leaves alone: neither its first nor its last character is
    one of those removed. *)
Lemma strip_with_trimmed p l :
  match l with c :: _ => p c = false | [] => True end
  /\ match rev l with c :: _ => p c = false | [] => True end ->
  Py.strip_with p (Py.str l) = Py.str l.
Proof.
  intros [Hh Ht]. unfold Py.strip_with. rewrite chars_str.
  rewrite (dropwhile_id p l Hh), (dropwhile_id p (rev l) Ht).
  by rewrite rev_involutive.
Qed.

Lemma strip_with_is_trimmed p s :
  match Py.chars (Py.strip_with p s) with c :: _ => p c = false | [] => True end
  /\ match rev (Py.chars (Py.strip_with p s)) with
     | c :: _ => p c = false
     | [] => True
     end.
Proof.
  unfold Py.strip_with. rewrite chars_str.
  set (l := Py.dropwhile p (Py.chars s)).
  pose proof (dropwhile_head p (Py.chars s)) as Hl. fold l in Hl.
  pose proof (dropwhile_head p (rev l)) as Hd.
  destruct (dropwhile_split p (rev l)) as (pre & Hsplit & _).
  split; [|by rewrite rev_involutive].
  destruct (Py.dropwhile p (rev l)) as [|c d] eqn:Hdrop; [done|].
  apply (f_equal (@rev ascii)) in Hsplit. rewrite rev_involutive, rev_app_distr in Hsplit.
  destruct (rev (c :: d)) as [|x r] eqn:Hr.
  { apply (f_equal (@length ascii)) in Hr. rewrite length_rev in Hr. done. }
  rewrite Hsplit in Hl. done.
Qed.

Lemma strip_with_idem p s : Py.strip_with p (Py.strip_with p s) = Py.strip_with p s.
Proof.
  pose proof (strip_with_trimmed p _ (strip_with_is_trimmed p s)) as H.
  by rewrite str_chars in H.
Qed.

Lemma strip_idem s : Py.strip (Py.strip s) = Py.strip s.
Proof. apply strip_with_idem. Qed.

(** A text none of whose characters is removed is left alone. *)
Lemma strip_with_none p s :
  (forall c, c ∈ Py.chars s -> p c = false) -> Py.strip_with p s = s.
Proof.
  intros H. rewrite <-(str_chars s) at 2. rewrite <-(strip_with_trimmed p (Py.chars s)).
  { by rewrite str_chars. }
  split.
  - destruct (Py.chars s) as [|c l]; [done|]. apply H, list_elem_of_here.
  - destruct (rev (Py.chars s)) as [|c l] eqn:Hr; [done|].
    apply H. apply list_elem_of_In, in_rev. rewrite Hr. by left.
Qed.

Lemma str_app_inv_tail (s t u : string) : s +:+ u = t +:+ u -> s = t.
Proof.
  intros H. apply (f_equal Py.chars) in H. rewrite !chars_app in H.
  apply app_inv_tail in H. rewrite <-(str_chars s), <-(str_chars t). by f_equal.
Qed.

Lemma str_inj l l' : Py.str l = Py.str l' -> l = l'.
Proof. intros H. rewrite <-(chars_str l), <-(chars_str l'). by f_equal. Qed.

End Stripped.

(** ** Quoting for SQL *)

Section Quoting.
Import Pipeline.

Lemma replace_char_cons old new c s :
  PyStr.replace_char old new (String c s)
  = if bool_decide (c = old) then new +:+ PyStr.replace_char old new s
    else String c (PyStr.replace_char old new s).
Proof. reflexivity. Qed.

(** Doubling a character loses nothing. *)
Lemma doubling_inj q a b :
  PyStr.replace_char q (String q (String q "")) a
  = PyStr.replace_char q (String q (String q "")) b -> a = b.
Proof.
  revert b. induction a as [|c a IH]; intros [|d b]; rewrite ?replace_char_cons.
  - done.
  - simpl. case_bool_decide; rewrite ?str_app_cons; discriminate.
  - simpl. case_bool_decide; rewrite ?str_app_cons; discriminate.
  - case_bool_decide as Hc; case_bool_decide as Hd; subst; rewrite ?str_app_cons.
    + intros [= E]. f_equal. by apply IH.
    + intros [= <- E]. by destruct Hd.
    + intros [= -> E]. by destruct Hc.
    + intros [= -> E]. f_equal. by apply IH.
Qed.

(** X15: quoting for SQL loses nothing: two identifiers with the same
    quoted text are the same identifier, and two values (the absent one
    included) with the same literal are the same value. *)
Theorem quoting_injective :
  (forall a b, quote_ident a = quote_ident b -> a = b)
  /\ (forall x y, quote_literal x = quote_literal y -> x = y).
Proof.
  split.
  - intros a b H. unfold quote_ident in H. rewrite !str_app_cons in H.
    injection H as H. change ("" +:+ ?x) with x in H.
    apply str_app_inv_tail in H. by apply doubling_inj in H.
  - intros [x|] [y|] H; unfold quote_literal in H; rewrite ?str_app_cons in H.
    + injection H as H. change ("" +:+ ?x) with x in H.
      apply str_app_inv_tail in H. apply doubling_inj in H. by subst.
    + discriminate.
    + discriminate.
    + done.
Qed.

End Quoting.

(** ** The families of the user-agent signature *)

Section Families.
Import Pipeline.

Lemma keep_not_space c : keep c = true -> Py.isspace c = false.
Proof. destruct c as [[] [] [] [] [] [] [] []]; vm_compute; congruence. Qed.

Lemma keep_not_blank c : keep c = true -> c <> " "%char.
Proof. intros H ->. vm_compute in H. discriminate. Qed.

Lemma lower_char_idem c : Py.lower_char (Py.lower_char c) = Py.lower_char c.
Proof. destruct c as [[] [] [] [] [] [] [] []]; vm_compute; reflexivity. Qed.

Lemma chars_lower s : Py.chars (Py.lower s) = map Py.lower_char (Py.chars s).
Proof. unfold Py.lower. apply chars_str. Qed.

Lemma replace_char_id old new s :
  (forall c, c ∈ Py.chars s -> c <> old) -> PyStr.replace_char old new s = s.
Proof.
  induction s as [|c s IH]; intros H; [done|]. rewrite replace_char_cons.
  rewrite bool_decide_eq_false_2 by (apply H, list_elem_of_here).
  rewrite IH; [done|]. intros d Hd. apply H. rewrite chars_cons. by apply list_elem_of_further.
Qed.

(** One character for another: every character of the result is the new one
    or a character of the text. *)
Lemma replace_char_chars old new s c :
  c ∈ Py.chars (PyStr.replace_char old (String new "") s) ->
  c = new \/ (c ∈ Py.chars s /\ c <> old).
Proof.
  induction s as [|a s IH]; [intros H; by apply elem_of_nil in H|].
  rewrite replace_char_cons, (chars_cons a s). case_bool_decide as Ha.
  - rewrite str_app_cons, chars_cons. change ("" +:+ ?x) with x.
    intros H. apply elem_of_cons in H as [->|H]; [by left|].
    destruct (IH H) as [|[? ?]]; [by left | right; split; [by right | done]].
  - rewrite chars_cons. intros H. apply elem_of_cons in H as [->|H].
    + right. split; [by left | done].
    + destruct (IH H) as [|[? ?]]; [by left | right; split; [by right | done]].
Qed.

Lemma lower_settled s :
  (forall c, c ∈ Py.chars s -> Py.lower_char c = c) -> Py.lower s = s.
Proof.
  intros H. unfold Py.lower. rewrite <-(str_chars s) at 2. f_equal.
  induction (Py.chars s) as [|c l IH]; [done|]. simpl.
  rewrite H by apply list_elem_of_here. f_equal. apply IH.
  intros d Hd. apply H. by apply list_elem_of_further.
Qed.

Lemma cleaned_chars v c :
  c ∈ Py.chars (cleaned v) -> keep c = true /\ Py.lower_char c = c.
Proof.
  unfold cleaned. rewrite chars_str, list_elem_of_filter. intros [Hk H].
  split; [done|]. apply replace_char_chars in H as [->|[H _]]; [done|].
  rewrite chars_lower in H. apply list_elem_of_fmap in H as (d & -> & _).
  apply lower_char_idem.
Qed.

(** A text made of kept, lower-case characters is its own cleaned form. *)
Lemma cleaned_settled r :
  (forall c, c ∈ Py.chars r -> keep c = true /\ Py.lower_char c = c) -> cleaned r = r.
Proof.
  intros H. unfold cleaned.
  assert (Py.strip r = r) as ->.
  { apply strip_with_none. intros c Hc. apply keep_not_space, H, Hc. }
  rewrite lower_settled by (intros c Hc; apply H, Hc).
  rewrite replace_char_id by (intros c Hc; apply keep_not_blank, H, Hc).
  rewrite <-(str_chars r) at 2. f_equal.
  induction (Py.chars r) as [|c l IH]; [done|].
  rewrite filter_cons. destruct (H c (list_elem_of_here _ _)) as [Hk _].
  rewrite decide_True by done. f_equal. apply IH.
  intros d Hd. apply H. by apply list_elem_of_further.
Qed.

Lemma normalize_family_cases value :
  normalize_family value = "other"
  \/ exists v, value = Some v /\ cleaned v <> "" /\ normalize_family value = cleaned v.
Proof.
  unfold normalize_family. destruct value as [v|]; [|by left].
  destruct (Py.len v =? 0); [by left|].
  destruct (Nat.eqb_spec (Py.len (cleaned v)) 0) as [|Hne]; [by left | right].
  exists v. split; [done|]. split; [|done]. intros E. rewrite E in Hne. done.
Qed.

Lemma normalize_family_chars value c :
  c ∈ Py.chars (normalize_family value) -> keep c = true /\ Py.lower_char c = c.
Proof.
  destruct (normalize_family_cases value) as [->|(v & _ & _ & ->)].
  - intros H. apply list_elem_of_In in H. simpl in H.
    destruct H as [<-|[<-|[<-|[<-|[<-|[]]]]]]; by vm_compute.
  - apply cleaned_chars.
Qed.

(** X16: [normalize_family] never returns the empty text; what it returns
    is made of letters, digits, [_] and [-] only, none of them a capital, so
    it holds no blank, tab or newline; and it is a name the function leaves
    as it is. *)
Theorem normalize_family_normal value :
  normalize_family value <> ""
  /\ (forall c, c ∈ Py.chars (normalize_family value) ->
        (PyStr.isalnum c = true \/ c = "_"%char \/ c = "-"%char)
        /\ Py.lower_char c = c /\ Py.isspace c = false)
  /\ normalize_family (Some (normalize_family value)) = normalize_family value.
Proof.
  split; [|split].
  - by destruct (normalize_family_cases value) as [->|(v & _ & Hne & ->)].
  - intros c Hc. apply normalize_family_chars in Hc as [Hk Hl].
    split; [|split; [done | by apply keep_not_space]].
    unfold keep in Hk. apply orb_true_iff in Hk as [Hk|Hk].
    + apply orb_true_iff in Hk as [Hk|Hk]; [by left|].
      right. left. by apply bool_decide_eq_true in Hk.
    + right. right. by apply bool_decide_eq_true in Hk.
  - destruct (normalize_family_cases value) as [->|(v & _ & Hne & ->)]; [done|].
    unfold normalize_family.
    rewrite (cleaned_settled (cleaned v)) by apply cleaned_chars.
    destruct (Nat.eqb_spec (Py.len (cleaned v)) 0) as [E|_]; [|done].
    apply len_0 in E. done.
Qed.

(** X17: whatever the user-agent parser answers, the signature written to
    the [useragent] column is two such names joined by [_]: it holds no
    blank, tab or newline, and it is never empty. *)
Theorem ua_signature_safe (Parse : string -> option (option string * option string)) ua :
  (exists os family,
     ua_signature Parse ua = normalize_family os +:+ "_" +:+ normalize_family family)
  /\ forall c, c ∈ Py.chars (ua_signature Parse ua) ->
       keep c = true /\ Py.isspace c = false.
Proof.
  assert (H : exists os family,
     ua_signature Parse ua = normalize_family os +:+ "_" +:+ normalize_family family).
  { unfold ua_signature. destruct ua as [u|]; [|by exists None, None].
    destruct (Py.len u =? 0); [by exists None, None|].
    destruct (Parse u) as [[os family]|]; [by exists os, family | by exists None, None]. }
  split; [done|]. destruct H as (os & family & ->). intros c.
  rewrite chars_app, elem_of_app, (chars_app "_"), elem_of_app.
  intros [H|[H|H]].
  - apply normalize_family_chars in H as [Hk _]. split; [done | by apply keep_not_space].
  - apply list_elem_of_In in H. simpl in H. destruct H as [<-|[]]. by vm_compute.
  - apply normalize_family_chars in H as [Hk _]. split; [done | by apply keep_not_space].
Qed.

End Families.

(** ** The settings of the SQL pipeline *)

Section Settings.
Import Pipeline.

Lemma dropwhile_elem p l c : c ∈ Py.dropwhile p l -> c ∈ l.
Proof.
  destruct (dropwhile_split p l) as (pre & Hl & _). intros H.
  rewrite Hl. apply elem_of_app. by right.
Qed.

(** [strip] adds no character. *)
Lemma strip_with_chars p s c : c ∈ Py.chars (Py.strip_with p s) -> c ∈ Py.chars s.
Proof.
  unfold Py.strip_with. rewrite chars_str. intros H.
  apply list_elem_of_In, in_rev, list_elem_of_In in H.
  apply dropwhile_elem in H.
  apply list_elem_of_In, in_rev, list_elem_of_In in H.
  by apply dropwhile_elem in H.
Qed.

Lemma occurs_strip c s : occurs c s = false -> occurs c (Py.strip s) = false.
Proof.
  intros H. destruct (occurs c (Py.strip s)) eqn:Hs; [|done].
  apply occurs_chars, strip_with_chars, occurs_chars in Hs. congruence.
Qed.

(** X18: the rounds read from a setting. For a value that is not empty the
    result does not depend on the default: every round is a piece of the
    value between commas, stripped, and none is empty or holds a comma; a
    value whose pieces are all blank gives no round at all, not the
    default. *)
Theorem parse_rounds_items v default :
  v <> "" ->
  (forall item, item ∈ parse_rounds (Some v) default ->
     item <> "" /\ Py.strip item = item /\ occurs "," item = false
     /\ exists piece, piece ∈ Py.split "," v /\ item = Py.strip piece)
  /\ ((forall piece, piece ∈ Py.split "," v -> Py.strip piece = "") ->
      parse_rounds (Some v) default = []).
Proof.
  intros Hv. unfold parse_rounds.
  destruct (Nat.eqb_spec (Py.len v) 0) as [E|_]; [by apply len_0 in E|]. split.
  - intros item Hin. apply list_elem_of_fmap in Hin as (piece & -> & Hin).
    apply list_elem_of_filter in Hin as [Hne Hin].
    split; [done|]. split; [apply strip_idem|]. split.
    + apply occurs_strip. by apply (split_fields "," v).
    + by exists piece.
  - intros Hblank. induction (Py.split "," v) as [|piece l IH]; [done|].
    rewrite filter_cons. rewrite decide_False.
    + apply IH. intros p Hp. apply Hblank. by apply list_elem_of_further.
    + intros Hne. apply Hne, Hblank, list_elem_of_here.
Qed.

Lemma parse_rounds_items_witness :
  "2nd" <> "" /\ Py.strip "2nd" = "2nd" /\ occurs "," "2nd" = false
  /\ exists piece, piece ∈ Py.split "," "1st, 2nd,," /\ "2nd" = Py.strip piece.
Proof.
  destruct (parse_rounds_items "1st, 2nd,," []) as [H _].
  - discriminate.
  - apply H. vm_compute. apply list_elem_of_further, list_elem_of_here.
Defined.

Lemma replace_char_app old new s t :
  PyStr.replace_char old new (s +:+ t)
  = PyStr.replace_char old new s +:+ PyStr.replace_char old new t.
Proof.
  induction s as [|c s IH]; [done|].
  rewrite str_app_cons, !replace_char_cons. case_bool_decide.
  - by rewrite IH, str_app_assoc.
  - by rewrite IH, str_app_cons.
Qed.

(** X19: the directory of an advertiser is one path component and never
    empty: it holds no [/]; the absent and the empty advertiser share the
    directory [unknown], and two advertisers that differ by a [/] for a [_]
    share one directory as well. *)
Theorem advertiser_dir_component advertiser :
  advertiser_dir advertiser <> ""
  /\ occurs "/" (advertiser_dir advertiser) = false
  /\ advertiser_dir None = advertiser_dir (Some "unknown")
  /\ advertiser_dir (Some "") = advertiser_dir (Some "unknown")
  /\ forall a b, advertiser_dir (Some (a +:+ "/" +:+ b))
                 = advertiser_dir (Some (a +:+ "_" +:+ b)).
Proof.
  split; [|split; [|split; [done|split; [done|]]]].
  - unfold advertiser_dir.
    assert (H : forall s, s <> "" -> PyStr.replace_char "/" "_" s <> "").
    { intros [|c s] Hs; [done|]. rewrite replace_char_cons.
      case_bool_decide; rewrite ?str_app_cons; discriminate. }
    destruct advertiser as [a|]; [|by apply H].
    destruct (Nat.eqb_spec (Py.len a) 0) as [|Hne]; [by apply H|].
    apply H. intros ->. by apply Hne.
  - destruct (occurs "/" (advertiser_dir advertiser)) eqn:Ho; [|done].
    apply occurs_chars in Ho. unfold advertiser_dir in Ho.
    apply replace_char_chars in Ho as [Ho|[_ Ho]]; [discriminate | done].
  - intros a b. unfold advertiser_dir.
    assert (Hlen : forall c, (Py.len (a +:+ String c b) =? 0) = false).
    { intros c. apply Nat.eqb_neq. intros E. apply len_0 in E.
      destruct a; rewrite ?str_app_cons in E; discriminate. }
    change ("/" +:+ b) with (String "/" b). change ("_" +:+ b) with (String "_" b).
    rewrite !Hlen, !replace_char_app, !replace_char_cons. done.
Qed.

End Settings.

(** ** The columns of the SQL pipeline *)

Section Columns.
Import Pipeline.

Lemma column_expr_cases col :
  (column_expr col = "null" /\ (col = None \/ DuckDB.trim col = Some ""))
  \/ exists s, col = Some s
               /\ column_expr col = Py.strip_with DuckDB.separator s
               /\ column_expr col <> "".
Proof.
  destruct col as [s|]; [|left; split; [done | by left]].
  unfold column_expr, DuckDB.trim, DuckDB.nullif, DuckDB.coalesce. simpl.
  case_decide as E; [left; split; [done | right; by rewrite E] | right].
  by exists s.
Qed.

(** X20: a column of the processed table is never empty. The absent value
    and a value made of space separators become the text [null]; any other
    value loses the space separators around it; the expression leaves its
    own results as they are. A value that is not empty and has no space
    separator around it is kept as it is, which is what
    [formalizeua.normalize_fields] writes for a field of that text, as [null]
    is what it writes for the empty field. *)
Theorem column_expr_normal col :
  column_expr col <> ""
  /\ column_expr (Some (column_expr col)) = column_expr col
  /\ column_expr None = "null"
  /\ (forall value,
        forallb DuckDB.separator (Py.chars value) = true ->
        column_expr (Some value) = "null")
  /\ (forall value,
        value <> "" -> DuckDB.trim (Some value) = Some value ->
        column_expr (Some value) = value
        /\ Formalizeua.normalize_fields [value] = [column_expr (Some value)])
  /\ Formalizeua.normalize_fields [""] = [column_expr None].
Proof.
  split; [|split; [|split; [done|split; [|split; [|done]]]]].
  - by destruct (column_expr_cases col) as [[-> _]|(s & _ & _ & H)].
  - destruct (column_expr_cases col) as [[-> _]|(s & _ & Hs & Hne)]; [done|].
    rewrite Hs in *.
    unfold column_expr, DuckDB.trim, DuckDB.nullif, DuckDB.coalesce. simpl.
    rewrite strip_with_idem. by rewrite decide_False.
  - intros value H.
    unfold column_expr, DuckDB.trim, Py.strip_with. simpl.
    by rewrite (dropwhile_all _ (Py.chars value)).
  - intros value Hne Htrim.
    assert (E : column_expr (Some value) = value).
    { unfold column_expr. rewrite Htrim. unfold DuckDB.nullif, DuckDB.coalesce.
      by rewrite decide_False. }
    split; [done|]. rewrite E. unfold Formalizeua.normalize_fields. simpl.
    destruct (Nat.eqb_spec (Py.len value) 0) as [H0|]; [|done].
    by apply len_0 in H0.
Qed.


End Columns.

(** ** Durations and worker counts *)

Section Durations.
Import Pipeline.

(** Below one hundred, [pad2] writes two characters that [int] reads back. *)
Lemma pad2_digits n :
  (0 <= n < 100)%Z ->
  exists a b, Py.chars (PyStr.pad2 n) = [a; b] /\ Py.int (Py.str [a; b]) = Some n.
Proof.
  intros Hn.
  assert (Hall : forallb (fun k =>
            match Py.chars (PyStr.pad2 (Z.of_nat k)) with
            | [a; b] => bool_decide (Py.int (Py.str [a; b]) = Some (Z.of_nat k))
            | _ => false
            end) (seq 0 100) = true) by (vm_compute; reflexivity).
  rewrite forallb_forall in Hall. specialize (Hall (Z.to_nat n)).
  rewrite Z2Nat.id in Hall by lia.
  destruct (Py.chars (PyStr.pad2 n)) as [|a [|b [|c l]]];
    try (discriminate Hall; apply in_seq; lia).
  exists a, b. split; [done|].
  eapply bool_decide_eq_true_1, Hall, in_seq. lia.
Qed.

(** X22: below one hundred hours a duration is a text of eight characters,
    [hh:mm:ss], that reads back as the hours, minutes and seconds the total
    is made of, the minutes and the seconds below sixty; so two totals with
    the same text are the same total. *)
Theorem format_duration_clock total :
  (0 <= total < 360000)%Z ->
  exists hours minutes secs,
    (total = 3600 * hours + 60 * minutes + secs
     /\ 0 <= hours < 100 /\ 0 <= minutes < 60 /\ 0 <= secs < 60)%Z
    /\ Py.len (format_duration total) = 8
    /\ Py.slice 2 3 (format_duration total) = ":"
    /\ Py.slice 5 6 (format_duration total) = ":"
    /\ Py.int (Py.slice 0 2 (format_duration total)) = Some hours
    /\ Py.int (Py.slice 3 5 (format_duration total)) = Some minutes
    /\ Py.int (Py.slice 6 8 (format_duration total)) = Some secs.
Proof.
  intros Ht. unfold format_duration.
  set (hours := (total / 3600)%Z). set (rem := (total mod 3600)%Z).
  set (minutes := (rem / 60)%Z). set (secs := (rem mod 60)%Z).
  assert (Hh : (0 <= hours < 100)%Z).
  { unfold hours. split; [apply Z.div_pos; lia | apply Z.div_lt_upper_bound; lia]. }
  assert (Hrem : (0 <= rem < 3600)%Z) by (apply Z.mod_pos_bound; lia).
  assert (Hm : (0 <= minutes < 60)%Z).
  { unfold minutes. split; [apply Z.div_pos; lia | apply Z.div_lt_upper_bound; lia]. }
  assert (Hs : (0 <= secs < 60)%Z) by (apply Z.mod_pos_bound; lia).
  exists hours, minutes, secs. split.
  { split; [|done]. unfold hours, minutes, secs, rem.
    pose proof (Z.div_mod total 3600 ltac:(lia)).
    pose proof (Z.div_mod (total mod 3600) 60 ltac:(lia)). lia. }
  destruct (pad2_digits hours) as (h1 & h2 & Hch & Hih); [lia|].
  destruct (pad2_digits minutes) as (m1 & m2 & Hcm & Him); [lia|].
  destruct (pad2_digits secs) as (s1 & s2 & Hcs & His); [lia|].
  assert (Htext : PyStr.pad2 hours +:+ ":" +:+ PyStr.pad2 minutes +:+ ":" +:+ PyStr.pad2 secs
                  = Py.str [h1; h2; ":"%char; m1; m2; ":"%char; s1; s2]).
  { rewrite <-(str_chars (_ +:+ _)). f_equal.
    rewrite !chars_app, Hch, Hcm, Hcs. done. }
  rewrite Htext. unfold Py.slice. rewrite chars_str. simpl take.
  split; [done|]. split; [done|]. split; [done|]. done.
Qed.

Lemma format_duration_clock_witness :
  exists hours minutes secs,
    (3725 = 3600 * hours + 60 * minutes + secs
     /\ 0 <= hours < 100 /\ 0 <= minutes < 60 /\ 0 <= secs < 60)%Z
    /\ Py.len (Pipeline.format_duration 3725) = 8
    /\ Py.slice 2 3 (Pipeline.format_duration 3725) = ":"
    /\ Py.slice 5 6 (Pipeline.format_duration 3725) = ":"
    /\ Py.int (Py.slice 0 2 (Pipeline.format_duration 3725)) = Some hours
    /\ Py.int (Py.slice 3 5 (Pipeline.format_duration 3725)) = Some minutes
    /\ Py.int (Py.slice 6 8 (Pipeline.format_duration 3725)) = Some secs.
Proof. apply (format_duration_clock 3725). lia. Defined.

End Durations.

Section Workers.

(** X23: [normalize_cores] clamps a requested count: with a request the
    result lies between 1 and the larger of 1 and the number of processors
    less one, and a request within these bounds is returned as it is;
    without a request the result is the number of processors itself, which
    is above that bound on a machine with two processors or more. *)
Theorem normalize_cores_clamps cpu_count :
  let cpu_total := match cpu_count with
                   | Some n => if (n =? 0)%Z then 1%Z else n
                   | None => 1%Z
                   end in
  Core.normalize_cores None cpu_count = cpu_total
  /\ (forall r, (1 <= Core.normalize_cores (Some r) cpu_count
                 <= Z.max 1 (cpu_total - 1))%Z)
  /\ (forall r, (1 <= r <= Z.max 1 (cpu_total - 1))%Z ->
                Core.normalize_cores (Some r) cpu_count = r)
  /\ ((2 <= cpu_total)%Z ->
      forall r, (Core.normalize_cores (Some r) cpu_count
                 < Core.normalize_cores None cpu_count)%Z).
Proof.
  unfold Core.normalize_cores. simpl.
  split; [done|]. split; [intros r; lia|]. split; intros; lia.
Qed.

(** X24: the number of decompression workers. Without a request (or with
    the request 0) it is the number of processors less one and at least 1,
    two processors being assumed when the number is unknown; a request other
    than 0 is taken as it is, negative ones included. *)
Theorem worker_count_default workers cpu_count :
  (1 <= Pipeline.worker_count None cpu_count)%Z
  /\ Pipeline.worker_count (Some 0%Z) cpu_count = Pipeline.worker_count None cpu_count
  /\ Pipeline.worker_count None None = 1%Z
  /\ (forall n, (2 <= n)%Z -> Pipeline.worker_count None (Some n) = (n - 1)%Z)
  /\ (workers <> 0%Z -> Pipeline.worker_count (Some workers) cpu_count = workers).
Proof.
  unfold Pipeline.worker_count. split; [lia|]. split; [done|]. split; [done|]. split.
  - intros n Hn. destruct (Z.eqb_spec n 0); lia.
  - intros Hw. by destruct (Z.eqb_spec workers 0).
Qed.

End Workers.

(** ** The schema files *)

Section Schemas.
Import Schema.

(** The words [split()] cuts out: none is empty, none holds white space. *)
Lemma words_go_words cur l w :
  (forall c, c ∈ cur -> Py.isspace c = false) ->
  w ∈ PyStr.words_go cur l ->
  w <> "" /\ forall c, c ∈ Py.chars w -> Py.isspace c = false.
Proof.
  revert cur. induction l as [|a l IH]; intros cur Hcur; simpl.
  - destruct cur as [|x cur]; [intros H; by apply elem_of_nil in H|].
    intros H. apply list_elem_of_singleton in H as ->. split.
    + intros E. apply (f_equal Py.chars) in E. rewrite chars_str in E.
      apply (f_equal (@length ascii)) in E. rewrite length_rev in E. done.
    + intros c. rewrite chars_str. intros Hc.
      apply list_elem_of_In, in_rev, list_elem_of_In in Hc. by apply Hcur.
  - destruct (Py.isspace a) eqn:Ha.
    + destruct cur as [|x cur].
      * apply IH. intros c Hc. by apply elem_of_nil in Hc.
      * intros H. apply elem_of_cons in H as [->|H].
        -- split.
           ++ intros E. apply (f_equal Py.chars) in E. rewrite chars_str in E.
              apply (f_equal (@length ascii)) in E. rewrite length_rev in E. done.
           ++ intros c. rewrite chars_str. intros Hc.
              apply list_elem_of_In, in_rev, list_elem_of_In in Hc. by apply Hcur.
        -- revert H. apply IH. intros c Hc. by apply elem_of_nil in Hc.
    + apply IH. intros c Hc. apply elem_of_cons in Hc as [->|Hc]; [done | by apply Hcur].
Qed.

(** There is no word exactly when the text is made of white space. *)
Lemma words_go_nil cur l :
  PyStr.words_go cur l = [] <-> cur = [] /\ forallb Py.isspace l = true.
Proof.
  revert cur. induction l as [|a l IH]; intros cur; simpl.
  - destruct cur; split; (done || by intros [? ?]).
  - destruct (Py.isspace a) eqn:Ha; simpl.
    + destruct cur as [|x cur].
      * rewrite IH. tauto.
      * split; [done | by intros [? ?]].
    + rewrite IH. split; [by intros [? ?] | by intros [? ?]].
Qed.

Lemma split_ws_stripped content :
  map Py.strip (PyStr.split_ws content) = PyStr.split_ws content.
Proof.
  unfold PyStr.split_ws. rewrite <-(map_id (PyStr.words_go _ _)) at 2.
  apply map_ext_in. intros w Hw. apply list_elem_of_In in Hw.
  apply words_go_words in Hw as [_ Hw]; [|intros c Hc; by apply elem_of_nil in Hc].
  by apply strip_with_none.
Qed.

Lemma plain_word w : (forall c, c ∈ Py.chars w -> Py.isspace c = false) -> plain w.
Proof.
  intros H. split.
  - destruct (occurs Py.TAB w) eqn:Ho; [|done]. apply occurs_chars, H in Ho. done.
  - destruct (occurs Py.LF w) eqn:Ho; [|done]. apply occurs_chars, H in Ho. done.
Qed.

(** X25: the schema [mkdata.py] and [mktest.py] load. Loading fails exactly
    on a file of white space only. A loaded schema is the list of the words
    of the file: no name is empty or holds white space, so the header line
    written from it reads back as [click], [weekday], [hour] and the
    schema; and [mktest.py] loads the same names followed by [nclick] and
    [nconversation]. *)
Theorem load_schema_words content :
  match mkdata_load_schema content with
  | Ok schema =>
      schema = PyStr.split_ws content /\ schema <> []
      /\ (forall name, name ∈ schema ->
            name <> "" /\ forall c, c ∈ Py.chars name -> Py.isspace c = false)
      /\ Py.fields (Timestamp.header schema) = "click" :: "weekday" :: "hour" :: schema
      /\ mktest_load_schema content = Ok (Mktest.extend schema)
      /\ Py.fields (Timestamp.header (Mktest.extend schema))
         = "click" :: "weekday" :: "hour" :: Mktest.extend schema
  | Raise e =>
      forallb Py.isspace (Py.chars content) = true
      /\ mktest_load_schema content = Raise e
  end.
Proof.
  unfold mkdata_load_schema, mktest_load_schema. rewrite split_ws_stripped.
  destruct (PyStr.split_ws content) as [|name schema] eqn:Hs.
  - split; [|done]. unfold PyStr.split_ws in Hs. by apply words_go_nil in Hs as [_ ?].
  - assert (Hwords : forall w, w ∈ name :: schema ->
              w <> "" /\ forall c, c ∈ Py.chars w -> Py.isspace c = false).
    { intros w Hw. rewrite <-Hs in Hw. unfold PyStr.split_ws in Hw.
      apply words_go_words in Hw; [done|]. intros c Hc. by apply elem_of_nil in Hc. }
    split; [done|]. split; [done|]. split; [done|]. split; [|split; [done|]].
    + apply header_fields; [done|]. intros w Hw. by apply plain_word, Hwords.
    + apply header_fields; [done|]. intros w Hw. unfold Mktest.extend in Hw.
      apply elem_of_app in Hw as [Hw|Hw]; [by apply plain_word, Hwords|].
      apply list_elem_of_In in Hw. simpl in Hw. destruct Hw as [<-|[<-|[]]]; by vm_compute.
Qed.

Lemma lines_go_lines cur l w :
  (forall c, c ∈ cur -> PyStr.linebreak c = false) ->
  w ∈ PyStr.lines_go cur l -> forall c, c ∈ Py.chars w -> PyStr.linebreak c = false.
Proof.
  revert cur. induction l as [l IH] using (induction_ltof1 _ (@length ascii)).
  unfold ltof in IH. intros cur Hcur. destruct l as [|a l].
  - simpl. destruct cur as [|x cur]; [intros H; by apply elem_of_nil in H|].
    intros H. apply list_elem_of_singleton in H as ->.
    intros c. rewrite chars_str. intros Hc.
    apply list_elem_of_In, in_rev, list_elem_of_In in Hc. by apply Hcur.
  - simpl. destruct (PyStr.linebreak a) eqn:Ha.
    + intros H. apply elem_of_cons in H as [->|H].
      * intros c. rewrite chars_str. intros Hc.
        apply list_elem_of_In, in_rev, list_elem_of_In in Hc. by apply Hcur.
      * destruct l as [|b l]; [by apply elem_of_nil in H|].
        destruct (bool_decide (a = PyStr.CR) && bool_decide (b = Py.LF)).
        -- revert H. apply IH; [simpl; lia|]. intros c Hc. by apply elem_of_nil in Hc.
        -- revert H. apply IH; [simpl; lia|]. intros c Hc. by apply elem_of_nil in Hc.
    + apply IH; [simpl; lia|].
      intros c Hc. apply elem_of_cons in Hc as [->|Hc]; [done | by apply Hcur].
Qed.

(** X26: the schema [duckdb_pipeline.py] reads. Each column is a line of
    the file, stripped; none is empty, none holds a line break, and a
    column is left as it is by [strip]; the file fails to load exactly when
    every line of it is blank. *)
Theorem read_schema_columns content :
  match read_schema content with
  | Ok columns =>
      columns <> []
      /\ forall col, col ∈ columns ->
           col <> "" /\ Py.strip col = col /\ occurs Py.LF col = false
           /\ exists raw, raw ∈ PyStr.splitlines content /\ col = Py.strip raw
  | Raise _ =>
      forall raw, raw ∈ PyStr.splitlines content -> Py.strip raw = ""
  end.
Proof.
  unfold read_schema.
  destruct (filter _ _) as [|col columns] eqn:Hf.
  - intros raw Hraw. destruct (decide (Py.strip raw = "")) as [|Hne]; [done|].
    assert (Py.strip raw ∈ filter (fun col => col <> "")
                              (map Py.strip (PyStr.splitlines content))) as Hin.
    { apply list_elem_of_filter. split; [done|]. apply list_elem_of_fmap. by exists raw. }
    rewrite Hf in Hin. by apply elem_of_nil in Hin.
  - split; [done|]. intros c Hc. rewrite <-Hf in Hc.
    apply list_elem_of_filter in Hc as [Hne Hc].
    apply list_elem_of_fmap in Hc as (raw & -> & Hraw).
    split; [done|]. split; [apply strip_idem|]. split; [|by exists raw].
    destruct (occurs Py.LF (Py.strip raw)) eqn:Ho; [|done].
    apply occurs_chars, strip_with_chars in Ho.
    unfold PyStr.splitlines in Hraw.
    eapply lines_go_lines in Hraw; [|intros x Hx; by apply elem_of_nil in Hx|exact Ho].
    done.
Qed.

End Schemas.
